(** * Task Manager backend: authentication and ownership-scoped task access

    A shallow embedding of the Express handlers of the backend
    ([routes/auth.js], [routes/tasks.js], [middleware/auth.js]) together
    with the two Mongoose schemas ([models/User.js], [models/Task.js]).

    Conventions of the embedding.
    - A handler is a function from the database, the per-request
      environment (clock, fresh salt) and the request to the new database
      and the HTTP response.
    - A Mongoose collection is a finite map from [_id] to document.
    - JavaScript strings are [string]; a character is one code unit,
      and the code units are those below 256. On such strings
      validator.js's [isLength], which counts a surrogate pair or a
      variation selector once, and the [length] that a Mongoose schema
      measures are the same number; on other strings the first can
      accept what the second rejects. The handlers keep the two checks
      apart, as the source does: the route's validation answers 400, a
      document the schema rejects is answered by the [catch] with 500.
      A JSON body field that is absent ([undefined]) is [None]; the
      textual fields, when present, are JSON strings, and [completed] is
      a JSON boolean or string.
    - A route parameter [:id] is a [Param]: the text of an [ObjectId],
      or a string that cannot be cast to one.
    - The persistence layer does not fail: a query rejects only through
      schema validation, a cast or a unique index.
    - The third-party libraries (validator.js, bcryptjs, jsonwebtoken,
      [String.prototype.toLowerCase], the e-mail regular expression) are
      interfaces: the development holds for every implementation. *)

From stdpp Require Import gmap strings list sorting pretty.
From Stdlib Require Import ZArith Ascii String.

Local Open Scope string_scope.

(** ** JavaScript string built-ins used by the handlers *)

Module JS.

(** [\s] restricted to code units below 256: TAB, LF, VT, FF, CR, SP and
    NBSP. Both [String.prototype.trim] and validator.js's [trim] remove
    exactly this class. *)
Definition isWhitespace (c : ascii) : bool :=
  let n := nat_of_ascii c in
  ((9 <=? n)%nat && (n <=? 13)%nat) || (n =? 32)%nat || (n =? 160)%nat.

Fixpoint trimStart (s : string) : string :=
  match s with
  | EmptyString => EmptyString
  | String c s' => if isWhitespace c then trimStart s' else s
  end.

Fixpoint trimEnd (s : string) : string :=
  match s with
  | EmptyString => EmptyString
  | String c s' =>
      match trimEnd s' with
      | EmptyString => if isWhitespace c then EmptyString else String c EmptyString
      | r => String c r
      end
  end.

(** validator.js: [rtrim(ltrim(str))]. *)
Definition trim (s : string) : string := trimEnd (trimStart s).

Definition head (s : string) : option ascii :=
  match s with
  | EmptyString => None
  | String c _ => Some c
  end.

Fixpoint last (s : string) : option ascii :=
  match s with
  | EmptyString => None
  | String c EmptyString => Some c
  | String _ s' => last s'
  end.

(** No whitespace at either end. *)
Definition trimmed (s : string) : Prop :=
  (∀ c, head s = Some c → isWhitespace c = false) ∧
  (∀ c, last s = Some c → isWhitespace c = false).

Fixpoint allWhitespace (s : string) : bool :=
  match s with
  | EmptyString => true
  | String c s' => isWhitespace c && allWhitespace s'
  end.

Definition startsWith (s p : string) : bool := String.prefix p s.

(** [s.split(sep)] for a one-character separator. *)
Fixpoint split (sep : ascii) (s : string) : list string :=
  match s with
  | EmptyString => [EmptyString]
  | String c s' =>
      if Ascii.eqb c sep then EmptyString :: split sep s'
      else match split sep s' with
           | x :: xs => String c x :: xs
           | [] => [String c EmptyString]
           end
  end.

(** [a || b] on possibly absent strings: [undefined] and [''] are falsy. *)
Definition or_else (a : option string) (b : string) : string :=
  match a with
  | Some s => if String.eqb s "" then b else s
  | None => b
  end.

End JS.


(** ** Data model *)

(** A Mongoose [ObjectId]: the ids of stored documents and of token
    payloads. *)
Abbreviation ObjectId := positive (only parsing).

(** A route parameter [:id] is a string: either the text of an
    [ObjectId], or a string that Mongoose cannot cast to one (["abc"]).
    An [ObjectId] is read as the parameter that spells it. *)
Inductive Param :=
| Oid (id : ObjectId)
| Malformed (text : string).
Bind Scope positive_scope with Param.
Coercion Oid : positive >-> Param.

(** An [await]ed library call either resolves or rejects (throws). *)
Inductive Outcome (A : Type) : Type :=
| Resolved (a : A)
| Rejected (error : string).
Arguments Resolved {A} a.
Arguments Rejected {A} error.

(** [models/User.js]. [password] is absent only in a projection that
    excludes it. *)
Module User.
Record t := mk {
  username : string;
  email : string;
  password : option string;
  createdAt : Z;
  updatedAt : Z
}.
End User.

(** [models/Task.js]. *)
Module Task.
Record t := mk {
  user : ObjectId;
  title : string;
  description : string;
  completed : bool;
  createdAt : Z;
  updatedAt : Z
}.
Global Instance eq_dec : EqDecision t.
Proof. solve_decision. Defined.
End Task.

(** The two collections. *)
Record Db := mkDb {
  users : gmap positive User.t;
  tasks : gmap positive Task.t
}.

Definition empty_db : Db := {| users := ∅; tasks := ∅ |}.

(** A JSON value sent for [completed]: a boolean or a string. *)
Inductive Flag :=
| FlagBool (b : bool)
| FlagString (s : string).

(** [req.body]: every key the handlers or a client may set. *)
Module Body.
Record t := mk {
  username : option string;
  email : option string;
  password : option string;
  title : option string;
  description : option string;
  completed : option Flag;
  user : option ObjectId
}.
Definition empty : t := mk None None None None None None None.
End Body.

(** Response bodies. *)
Inductive Json :=
| Message (message : string)
| TaskDoc (doc : positive * Task.t)
| TaskDocs (docs : list (positive * Task.t))
| Session (message token : string) (id : positive) (username email : string).

Record Response := mkResponse { status : nat; json : Json }.

(** What a request sees of the outside world: the clock (milliseconds)
    and the salt [bcrypt.genSalt] draws. *)
Record Env := mkEnv { now : Z; salt : string }.

(** ** Library interfaces *)

(** validator.js predicates and sanitizers that are not modelled further. *)
Class Validator := {
  isEmail : string → bool;
  normalizeEmail : string → string
}.

Class Bcrypt := {
  bcrypt_hash : string → string → string;
  bcrypt_compare : string → string → bool
}.

Module Jwt.
Record Payload := mkPayload { id : ObjectId; iat : Z; exp : option Z }.
End Jwt.

(** jsonwebtoken: encoding and signing, parsing (absent for a malformed
    token) and the signature check. *)
Class Jsonwebtoken := {
  jwt_encode : Jwt.Payload → string → string;
  jwt_decode : string → option Jwt.Payload;
  jwt_signature_valid : string → string → bool
}.

(** The runtime: [process.env.JWT_SECRET], [String.prototype.toLowerCase]
    and the test of the e-mail pattern of the user schema. *)
Class Platform := {
  JWT_SECRET : string;
  toLowerCase : string → string;
  emailPattern : string → bool
}.

(** ** express-validator *)

Module ExpressValidator.

(** One link of a validation chain. [Check p m] is a validator followed
    by [.withMessage(m)]. *)
Inductive Item :=
| Sanitizer (f : string → string)
| Check (p : string → bool) (message : string).

(** Values are stringified before validator.js sees them. *)
Definition toString (v : option string) : string := default "" v.

(** Runs the links in order on the field's value. A sanitizer replaces
    the value (and writes it back to the request); a failing validator
    records its message and the chain goes on. *)
Fixpoint run (items : list Item) (v : option string) : option string * list string :=
  match items with
  | [] => (v, [])
  | Sanitizer f :: rest => run rest (Some (f (toString v)))
  | Check p message :: rest =>
      let '(v', errors) := run rest v in
      (v', if p (toString v) then errors else message :: errors)
  end.

(** [body(field)...] with or without [.optional()]: an optional chain
    skips an [undefined] field. *)
Definition body (optional : bool) (items : list Item) (v : option string)
  : option string * list string :=
  match v with
  | None => if optional then (None, []) else run items v
  | Some _ => run items v
  end.

Definition notEmpty (s : string) : bool := negb (String.eqb s "").

(** [isLength(str, { min, max })]: validator.js measures [str.length]
    less the surrogate pairs and the variation selectors of [str]; a
    string of code units below 256 has neither. *)
Definition isLength (min : nat) (max : option nat) (s : string) : bool :=
  (min <=? String.length s)%nat &&
  match max with
  | Some m => (String.length s <=? m)%nat
  | None => true
  end.

Definition isBoolean (s : string) : bool :=
  String.eqb s "true" || String.eqb s "false" || String.eqb s "1" || String.eqb s "0".

End ExpressValidator.

(** ** Mongoose: queries, schema setters and validators *)

Module Mongoose.

Section Queries.
Context {A : Type}.

(** [Model.findOne(filter)]: the first document, in the collection's
    order, that satisfies the filter. *)
Definition findOne (filter : positive * A → bool) (c : gmap positive A)
  : option (positive * A) :=
  List.find filter (map_to_list c).

(** [Model.findById(id)]. *)
Definition findById (id : positive) (c : gmap positive A) : option (positive * A) :=
  findOne (λ d, Pos.eqb d.1 id) c.

(** [Model.find(filter)]. *)
Definition find (filter : positive * A → bool) (c : gmap positive A)
  : list (positive * A) :=
  List.filter filter (map_to_list c).
End Queries.

(** [.sort({ createdAt: -1 })]: newest first. *)
Definition newer_first (a b : positive * Task.t) : Prop :=
  (Task.createdAt b.2 ≤ Task.createdAt a.2)%Z.

Global Instance newer_first_dec a b : Decision (newer_first a b).
Proof. unfold newer_first. apply _. Defined.

Global Instance newer_first_total : Total newer_first.
Proof. intros a b. unfold newer_first. lia. Qed.

Global Instance newer_first_trans : Transitive newer_first.
Proof. intros a b c. unfold newer_first. lia. Qed.

Definition sort_createdAt_desc (l : list (positive * Task.t)) : list (positive * Task.t) :=
  merge_sort newer_first l.

(** [.select('-password')]. *)
Definition select_minus_password (u : User.t) : User.t :=
  {| User.username := User.username u;
     User.email := User.email u;
     User.password := None;
     User.createdAt := User.createdAt u;
     User.updatedAt := User.updatedAt u |}.

(** Task schema: [title] is required, trimmed and at most 200 long;
    [description] is trimmed and at most 1000 long. The [required]
    validator of a string path rejects the empty string. *)
Definition Task_validate (t : Task.t) : bool :=
  negb (String.eqb (Task.title t) "") &&
  (String.length (Task.title t) <=? 200)%nat &&
  (String.length (Task.description t) <=? 1000)%nat.

(** Mongoose's cast to [Boolean]. *)
Definition castBoolean (v : Flag) : option bool :=
  match v with
  | FlagBool b => Some b
  | FlagString s =>
      if String.eqb s "true" || String.eqb s "1" || String.eqb s "yes" then Some true
      else if String.eqb s "false" || String.eqb s "0" || String.eqb s "no" then Some false
      else None
  end.

(** [Task.create({ user, title, description, completed })]: setters,
    validation, then an insert under a fresh [_id] with both timestamps
    set to the current instant. *)
Definition Task_create (now : Z) (user : positive) (title : option string)
    (description : string) (completed : bool) (c : gmap positive Task.t)
  : Outcome (gmap positive Task.t * (positive * Task.t)) :=
  match title with
  | None => Rejected "ValidationError"
  | Some title =>
      let doc := {| Task.user := user;
                    Task.title := JS.trim title;
                    Task.description := JS.trim description;
                    Task.completed := completed;
                    Task.createdAt := now;
                    Task.updatedAt := now |} in
      if Task_validate doc then
        let id := fresh (dom c) in
        Resolved (<[id := doc]> c, (id, doc))
      else Rejected "ValidationError"
  end.

(** Assignments to a loaded document run the schema setters. *)
Definition set_title (v : string) (t : Task.t) : Task.t :=
  {| Task.user := Task.user t; Task.title := JS.trim v;
     Task.description := Task.description t; Task.completed := Task.completed t;
     Task.createdAt := Task.createdAt t; Task.updatedAt := Task.updatedAt t |}.

Definition set_description (v : string) (t : Task.t) : Task.t :=
  {| Task.user := Task.user t; Task.title := Task.title t;
     Task.description := JS.trim v; Task.completed := Task.completed t;
     Task.createdAt := Task.createdAt t; Task.updatedAt := Task.updatedAt t |}.

Definition set_completed (v : bool) (t : Task.t) : Task.t :=
  {| Task.user := Task.user t; Task.title := Task.title t;
     Task.description := Task.description t; Task.completed := v;
     Task.createdAt := Task.createdAt t; Task.updatedAt := Task.updatedAt t |}.

Definition set_updatedAt (v : Z) (t : Task.t) : Task.t :=
  {| Task.user := Task.user t; Task.title := Task.title t;
     Task.description := Task.description t; Task.completed := Task.completed t;
     Task.createdAt := Task.createdAt t; Task.updatedAt := v |}.

(** Whether [doc] differs from the stored [old] in a schema path. *)
Definition isModified (old doc : Task.t) : bool :=
  negb (String.eqb (Task.title old) (Task.title doc) &&
        String.eqb (Task.description old) (Task.description doc) &&
        Bool.eqb (Task.completed old) (Task.completed doc)).

(** [doc.save()] of a loaded task: validation, then the write;
    [updatedAt] moves only when a path was modified. *)
Definition Task_save (now : Z) (id : positive) (old doc : Task.t)
    (c : gmap positive Task.t)
  : Outcome (gmap positive Task.t * (positive * Task.t)) :=
  if Task_validate doc then
    let doc := if isModified old doc then set_updatedAt now doc else doc in
    Resolved (<[id := doc]> c, (id, doc))
  else Rejected "ValidationError".

(** The cast of the [_id] of a query filter: a string that does not spell
    an [ObjectId] makes the query reject with a [CastError]. *)
Definition castObjectId (p : Param) : Outcome positive :=
  match p with
  | Oid id => Resolved id
  | Malformed _ => Rejected "CastError"
  end.

(** [doc.deleteOne()]. *)
Definition Task_deleteOne (id : positive) (c : gmap positive Task.t)
  : gmap positive Task.t :=
  delete id c.

Section Users.
Context `{Platform}.

(** [lowercase: true, trim: true] on [email]; applied to stored values
    and to query filters alike. *)
Definition email_setter (s : string) : string := toLowerCase (JS.trim s).

Definition User_findOne_email (email : string) (c : gmap positive User.t) :=
  findOne (λ d, String.eqb (User.email d.2) (email_setter email)) c.

Definition User_findOne_username (username : string) (c : gmap positive User.t) :=
  findOne (λ d, String.eqb (User.username d.2) (JS.trim username)) c.

Definition User_validate (u : User.t) : bool :=
  (3 <=? String.length (User.username u))%nat &&
  negb (String.eqb (User.email u) "") &&
  emailPattern (User.email u) &&
  match User.password u with
  | Some p => (6 <=? String.length p)%nat
  | None => false
  end.

(** [User.create({ username, email, password })]; the unique indexes
    on [username] and [email] reject a duplicate. *)
Definition User_create (now : Z) (username email password : string)
    (c : gmap positive User.t)
  : Outcome (gmap positive User.t * (positive * User.t)) :=
  let doc := {| User.username := JS.trim username;
                User.email := email_setter email;
                User.password := Some password;
                User.createdAt := now;
                User.updatedAt := now |} in
  if User_validate doc then
    match findOne (λ d, String.eqb (User.username d.2) (User.username doc)
                        || String.eqb (User.email d.2) (User.email doc)) c with
    | Some _ => Rejected "E11000 duplicate key"
    | None =>
        let id := fresh (dom c) in
        Resolved (<[id := doc]> c, (id, doc))
    end
  else Rejected "ValidationError".
End Users.

End Mongoose.

(** ** jsonwebtoken: [sign] and [verify] *)

Section Tokens.
Context `{Jsonwebtoken}.

Definition thirty_days : Z := 30 * 24 * 60 * 60.

(** [jwt.sign({ id }, secret, { expiresIn: '30d' })]; token times are in
    seconds. *)
Definition jwt_sign (id : positive) (secret : string) (now : Z) : string :=
  let t := (now / 1000)%Z in
  jwt_encode {| Jwt.id := id; Jwt.iat := t; Jwt.exp := Some (t + thirty_days)%Z |} secret.

(** [jwt.verify(token, secret)]: rejects a missing or malformed token, a
    bad signature, and a token whose expiry instant is reached. *)
Definition jwt_verify (token : option string) (secret : string) (now : Z)
  : Outcome Jwt.Payload :=
  match token with
  | None => Rejected "jwt must be provided"
  | Some token =>
      if String.eqb token "" then Rejected "jwt must be provided"
      else match jwt_decode token with
           | None => Rejected "jwt malformed"
           | Some decoded =>
               if negb (jwt_signature_valid token secret) then Rejected "invalid signature"
               else match Jwt.exp decoded with
                    | Some e =>
                        if (e <=? now / 1000)%Z then Rejected "jwt expired"
                        else Resolved decoded
                    | None => Resolved decoded
                    end
           end
  end.
End Tokens.

(** ** The handlers *)

Section Handlers.
Context `{Validator, Bcrypt, Jsonwebtoken, Platform}.

Import ExpressValidator.

Definition send (status : nat) (message : string) : Response :=
  {| status := status; json := Message message |}.

(** *** [middleware/auth.js] *)

(** [protect]: the response that ends the request, or [req.user]. *)
Definition protect (db : Db) (env : Env) (authorization : option string)
  : Response + (positive * User.t) :=
  match authorization with
  | Some header =>
      if JS.startsWith header "Bearer" then
        let token := JS.split " " header !! 1%nat in
        match jwt_verify token JWT_SECRET (now env) with
        | Rejected _ => inl (send 401 "Not authorized, token failed")
        | Resolved decoded =>
            match Mongoose.findById (Jwt.id decoded) (users db) with
            | None => inl (send 401 "User not found")
            | Some (id, u) => inr (id, Mongoose.select_minus_password u)
            end
        end
      else inl (send 401 "Not authorized, no token")
  | None => inl (send 401 "Not authorized, no token")
  end.

(** *** [routes/auth.js] *)

(** The chains of [POST /api/auth/register]; yields the sanitized body
    and [errors.array()] mapped to the messages. *)
Definition register_validation (b : Body.t) : Body.t * list string :=
  let '(username, e1) :=
    body false [Sanitizer JS.trim;
                Check (isLength 3 None) "Username must be at least 3 characters long"]
         (Body.username b) in
  let '(email, e2) :=
    body false [Check isEmail "Please provide a valid email";
                Sanitizer normalizeEmail]
         (Body.email b) in
  let '(password, e3) :=
    body false [Check (isLength 6 None) "Password must be at least 6 characters long"]
         (Body.password b) in
  (Body.mk username email password (Body.title b) (Body.description b)
           (Body.completed b) (Body.user b),
   (e1 ++ e2 ++ e3)%list).

Definition register (db : Db) (env : Env) (b : Body.t) : Db * Response :=
  let '(b, errors) := register_validation b in
  match errors with
  | msg :: _ => (db, send 400 msg)
  | [] =>
      let username := toString (Body.username b) in
      let email := toString (Body.email b) in
      match Mongoose.User_findOne_email email (users db) with
      | Some _ => (db, send 400 "User already exists with this email")
      | None =>
          match Mongoose.User_findOne_username username (users db) with
          | Some _ => (db, send 400 "Username already taken")
          | None =>
              match Body.password b with
              | None => (db, send 500 "Server error during registration")
              | Some password =>
                  let hashedPassword := bcrypt_hash password (salt env) in
                  match Mongoose.User_create (now env) username email hashedPassword
                                             (users db) with
                  | Rejected _ => (db, send 500 "Server error during registration")
                  | Resolved (users', (id, user)) =>
                      let token := jwt_sign id JWT_SECRET (now env) in
                      ({| users := users'; tasks := tasks db |},
                       {| status := 201;
                          json := Session "User registered successfully" token id
                                          (User.username user) (User.email user) |})
                  end
              end
          end
      end
  end.

(** The chains of [POST /api/auth/login]. *)
Definition login_validation (b : Body.t) : Body.t * list string :=
  let '(email, e1) :=
    body false [Check isEmail "Please provide a valid email";
                Sanitizer normalizeEmail]
         (Body.email b) in
  let '(password, e2) :=
    body false [Check notEmpty "Password is required"] (Body.password b) in
  (Body.mk (Body.username b) email password (Body.title b) (Body.description b)
           (Body.completed b) (Body.user b),
   (e1 ++ e2)%list).

Definition login (db : Db) (env : Env) (b : Body.t) : Db * Response :=
  let '(b, errors) := login_validation b in
  match errors with
  | msg :: _ => (db, send 400 msg)
  | [] =>
      let email := toString (Body.email b) in
      match Mongoose.User_findOne_email email (users db) with
      | None => (db, send 401 "Invalid email or password")
      | Some (id, user) =>
          match Body.password b, User.password user with
          | Some password, Some hash =>
              if negb (bcrypt_compare password hash) then
                (db, send 401 "Invalid email or password")
              else
                let token := jwt_sign id JWT_SECRET (now env) in
                (db, {| status := 200;
                        json := Session "Login successful" token id
                                        (User.username user) (User.email user) |})
          | _, _ => (db, send 500 "Server error during login")
          end
      end
  end.

(** *** [routes/tasks.js] *)

(** [GET /api/tasks]. *)
Definition get_tasks (db : Db) (req_user : positive * User.t) : Db * Response :=
  let tasks :=
    Mongoose.sort_createdAt_desc
      (Mongoose.find (λ d, Pos.eqb (Task.user d.2) req_user.1) (tasks db)) in
  (db, {| status := 200; json := TaskDocs tasks |}).

(** The chains of [POST /api/tasks]. *)
Definition post_validation (b : Body.t) : Body.t * list string :=
  let '(title, e1) :=
    body false [Sanitizer JS.trim;
                Check notEmpty "Task title is required";
                Check (isLength 0 (Some 200)) "Title cannot exceed 200 characters"]
         (Body.title b) in
  let '(description, e2) :=
    body true [Sanitizer JS.trim;
               Check (isLength 0 (Some 1000)) "Description cannot exceed 1000 characters"]
         (Body.description b) in
  (Body.mk (Body.username b) (Body.email b) (Body.password b) title description
           (Body.completed b) (Body.user b),
   (e1 ++ e2)%list).

(** [POST /api/tasks]. *)
Definition post_tasks (db : Db) (env : Env) (req_user : positive * User.t)
    (b : Body.t) : Db * Response :=
  let '(b, errors) := post_validation b in
  match errors with
  | msg :: _ => (db, send 400 msg)
  | [] =>
      let title := Body.title b in
      let description := Body.description b in
      match Mongoose.Task_create (now env) req_user.1 title
              (JS.or_else description "") false (tasks db) with
      | Rejected _ => (db, send 500 "Server error while creating task")
      | Resolved (tasks', task) =>
          ({| users := users db; tasks := tasks' |},
           {| status := 201; json := TaskDoc task |})
      end
  end.

Definition flagToString (v : Flag) : string :=
  match v with
  | FlagBool true => "true"
  | FlagBool false => "false"
  | FlagString s => s
  end.

(** The chains of [PUT /api/tasks/:id]. *)
Definition put_validation (b : Body.t) : Body.t * list string :=
  let '(title, e1) :=
    body true [Sanitizer JS.trim;
               Check notEmpty "Title cannot be empty";
               Check (isLength 0 (Some 200)) "Title cannot exceed 200 characters"]
         (Body.title b) in
  let '(description, e2) :=
    body true [Sanitizer JS.trim;
               Check (isLength 0 (Some 1000)) "Description cannot exceed 1000 characters"]
         (Body.description b) in
  let '(_, e3) :=
    body true [Check isBoolean "Completed must be true or false"]
         (flagToString <$> Body.completed b) in
  (Body.mk (Body.username b) (Body.email b) (Body.password b) title description
           (Body.completed b) (Body.user b),
   (e1 ++ e2 ++ e3)%list).

(** [Task.findOne({ _id: id, user: req.user._id })]. *)
Definition findOwnedTask (id owner : positive) (c : gmap positive Task.t)
  : option (positive * Task.t) :=
  Mongoose.findOne (λ d, Pos.eqb d.1 id && Pos.eqb (Task.user d.2) owner) c.

(** The three conditional assignments of the update handler. An
    assignment that cannot be cast invalidates the document. *)
Definition assign_fields (b : Body.t) (task : Task.t) : option Task.t :=
  let task := match Body.title b with
              | Some v => Mongoose.set_title v task
              | None => task
              end in
  let task := match Body.description b with
              | Some v => Mongoose.set_description v task
              | None => task
              end in
  match Body.completed b with
  | Some v => (λ c, Mongoose.set_completed c task) <$> Mongoose.castBoolean v
  | None => Some task
  end.

(** [PUT /api/tasks/:id]. Whatever is thrown inside the [try], the
    [CastError] of the lookup included, is answered by the [catch]. *)
Definition put_tasks (db : Db) (env : Env) (req_user : positive * User.t)
    (id : Param) (b : Body.t) : Db * Response :=
  let '(b, errors) := put_validation b in
  match errors with
  | msg :: _ => (db, send 400 msg)
  | [] =>
      match Mongoose.castObjectId id with
      | Rejected _ => (db, send 500 "Server error while updating task")
      | Resolved id =>
          match findOwnedTask id req_user.1 (tasks db) with
          | None => (db, send 404 "Task not found")
          | Some (tid, task) =>
              match assign_fields b task with
              | None => (db, send 500 "Server error while updating task")
              | Some task' =>
                  match Mongoose.Task_save (now env) tid task task' (tasks db) with
                  | Rejected _ => (db, send 500 "Server error while updating task")
                  | Resolved (tasks', updatedTask) =>
                      ({| users := users db; tasks := tasks' |},
                       {| status := 200; json := TaskDoc updatedTask |})
                  end
              end
          end
      end
  end.

(** [DELETE /api/tasks/:id], with its [catch]. *)
Definition delete_tasks (db : Db) (req_user : positive * User.t) (id : Param)
  : Db * Response :=
  match Mongoose.castObjectId id with
  | Rejected _ => (db, send 500 "Server error while deleting task")
  | Resolved id =>
      match findOwnedTask id req_user.1 (tasks db) with
      | None => (db, send 404 "Task not found")
      | Some (tid, _) =>
          ({| users := users db; tasks := Mongoose.Task_deleteOne tid (tasks db) |},
           send 200 "Task deleted successfully")
      end
  end.

(** *** The application: routes behind their middleware *)

Inductive Request :=
| POST_register (b : Body.t)
| POST_login (b : Body.t)
| GET_tasks (authorization : option string)
| POST_tasks (authorization : option string) (b : Body.t)
| PUT_tasks (authorization : option string) (id : Param) (b : Body.t)
| DELETE_tasks (authorization : option string) (id : Param).

(** A route declared as [router.verb(path, protect, handler)]. *)
Definition protected (db : Db) (env : Env) (authorization : option string)
    (handler : positive * User.t → Db * Response) : Db * Response :=
  match protect db env authorization with
  | inl res => (db, res)
  | inr req_user => handler req_user
  end.

Definition app (db : Db) (env : Env) (r : Request) : Db * Response :=
  match r with
  | POST_register b => register db env b
  | POST_login b => login db env b
  | GET_tasks a => protected db env a (get_tasks db)
  | POST_tasks a b => protected db env a (λ u, post_tasks db env u b)
  | PUT_tasks a id b => protected db env a (λ u, put_tasks db env u id b)
  | DELETE_tasks a id => protected db env a (λ u, delete_tasks db u id)
  end.

(** Databases the server can be in: it starts empty and changes only by
    serving requests. *)
Inductive reachable : Db → Prop :=
| reachable_empty : reachable empty_db
| reachable_step db env r : reachable db → reachable (app db env r).1.

End Handlers.

(** ** Vocabulary of the specification *)

Section Vocabulary.
Import ExpressValidator.

(** The constraints on a new task, on the values as validated: the
    title and the description with surrounding whitespace removed. *)
Definition valid_task_input (b : Body.t) : Prop :=
  let title := JS.trim (toString (Body.title b)) in
  title ≠ "" ∧ (String.length title ≤ 200)%nat ∧
  ∀ d, Body.description b = Some d → (String.length (JS.trim d) ≤ 1000)%nat.

(** The constraints on an update payload: those of a new task on every
    field that is present, and a boolean-like [completed]. *)
Definition valid_update_payload (b : Body.t) : Prop :=
  (∀ v, Body.title b = Some v →
        JS.trim v ≠ "" ∧ (String.length (JS.trim v) ≤ 200)%nat) ∧
  (∀ d, Body.description b = Some d → (String.length (JS.trim d) ≤ 1000)%nat) ∧
  (∀ f, Body.completed b = Some f → isBoolean (flagToString f) = true).

(** The task a create request of [owner] describes at instant [now]. *)
Definition created_task (now : Z) (owner : positive) (b : Body.t) : Task.t :=
  {| Task.user := owner;
     Task.title := JS.trim (toString (Body.title b));
     Task.description := match Body.description b with
                         | Some d => JS.trim d
                         | None => ""
                         end;
     Task.completed := false;
     Task.createdAt := now;
     Task.updatedAt := now |}.

(** What [save] stores: the assigned document, with [updatedAt] moved
    when something changed. *)
Definition saved (now : Z) (old doc : Task.t) : Task.t :=
  if Mongoose.isModified old doc then Mongoose.set_updatedAt now doc else doc.

(** A stored task respects the schema and carries no surrounding
    whitespace. *)
Definition Task_ok (t : Task.t) : Prop :=
  JS.trimmed (Task.title t) ∧ JS.trimmed (Task.description t) ∧
  Mongoose.Task_validate t = true.

Definition db_ok (db : Db) : Prop :=
  ∀ id t, tasks db !! id = Some t → Task_ok t.

(** No task matches the scoped lookup: none has the id, or the one that
    has it belongs to someone else. *)
Definition no_owned_task (id owner : positive) (db : Db) : Prop :=
  tasks db !! id = None ∨ ∃ t, tasks db !! id = Some t ∧ Task.user t ≠ owner.

Context `{Validator, Platform}.

(** The key under which [findOne({ email })] looks a request's e-mail up. *)
Definition email_key (b : Body.t) : string :=
  Mongoose.email_setter (normalizeEmail (toString (Body.email b))).

Definition valid_registration (b : Body.t) : Prop :=
  (3 ≤ String.length (JS.trim (toString (Body.username b))))%nat ∧
  isEmail (toString (Body.email b)) = true ∧
  (6 ≤ String.length (toString (Body.password b)))%nat.

Definition valid_login (b : Body.t) : Prop :=
  isEmail (toString (Body.email b)) = true ∧ toString (Body.password b) ≠ "".

Context `{Jsonwebtoken}.

(** Why [jwt.verify] throws: no token, a malformed one, a bad signature,
    or an expiry instant that is reached. *)
Definition token_rejected (token : option string) (now : Z) : Prop :=
  token = None ∨
  ∃ t, token = Some t ∧
       (t = "" ∨ jwt_decode t = None ∨ jwt_signature_valid t JWT_SECRET = false ∨
        ∃ p e, jwt_decode t = Some p ∧ Jwt.exp p = Some e ∧ (e ≤ now / 1000)%Z).

(** The token verifies and carries payload [p]. *)
Definition token_accepted (token : option string) (now : Z) (p : Jwt.Payload) : Prop :=
  ∃ t, token = Some t ∧ t ≠ "" ∧ jwt_decode t = Some p ∧
       jwt_signature_valid t JWT_SECRET = true ∧
       ∀ e, Jwt.exp p = Some e → (now / 1000 < e)%Z.

Definition email_taken (key : string) (db : Db) : Prop :=
  ∃ id u, users db !! id = Some u ∧ User.email u = key.

Definition username_taken (name : string) (db : Db) : Prop :=
  ∃ id u, users db !! id = Some u ∧ User.username u = name.
End Vocabulary.

(** ** Sample libraries

    Small stand-ins for the library interfaces, used to run the handlers
    on concrete requests. *)

Module Sample.

Definition lower (c : ascii) : ascii :=
  let n := nat_of_ascii c in
  if (65 <=? n)%nat && (n <=? 90)%nat then ascii_of_nat (n + 32) else c.

Fixpoint lowercase (s : string) : string :=
  match s with
  | EmptyString => EmptyString
  | String c s' => String (lower c) (lowercase s')
  end.

(** local@domain with a dot in the domain. *)
Definition looksLikeEmail (s : string) : bool :=
  match JS.split "@" s with
  | [l; d] =>
      negb (String.eqb l "") &&
      match JS.split "." d with
      | [] | [_] => false
      | parts => forallb (λ p, negb (String.eqb p "")) parts
      end
  | _ => false
  end.

Fixpoint parse_digits (s : string) (acc : N) : option N :=
  match s with
  | EmptyString => Some acc
  | String c s' =>
      match Ascii.is_nat c with
      | Some d => parse_digits s' (10 * acc + N.of_nat d)%N
      | None => None
      end
  end.

Definition parse_N (s : string) : option N :=
  if String.eqb s "" then None else parse_digits s 0%N.

(** A token is [id.exp.key]. *)
Definition encode (p : Jwt.Payload) (secret : string) : string :=
  pretty (Npos (Jwt.id p)) ++ "." ++
  pretty (Z.to_N (default 0%Z (Jwt.exp p))) ++ "." ++ secret.

Definition decode (token : string) : option Jwt.Payload :=
  match JS.split "." token with
  | [i; e; _] =>
      match parse_N i, parse_N e with
      | Some (Npos i), Some e =>
          Some {| Jwt.id := i;
                  Jwt.iat := (Z.of_N e - 2592000)%Z;
                  Jwt.exp := Some (Z.of_N e) |}
      | _, _ => None
      end
  | _ => None
  end.

Definition signed_with (token secret : string) : bool :=
  match JS.split "." token with
  | [_; _; k] => String.eqb k secret
  | _ => false
  end.

Global Instance validator : Validator :=
  {| isEmail := looksLikeEmail; normalizeEmail := lowercase |}.

Global Instance bcrypt : Bcrypt :=
  {| bcrypt_hash := λ password salt, salt ++ ":" ++ password;
     bcrypt_compare := λ password hash,
       match JS.split ":" hash with
       | [_; p] => String.eqb p password
       | _ => false
       end |}.

Global Instance jsonwebtoken : Jsonwebtoken :=
  {| jwt_encode := encode; jwt_decode := decode; jwt_signature_valid := signed_with |}.

Global Instance platform : Platform :=
  {| JWT_SECRET := "s3cret"; toLowerCase := lowercase; emailPattern := looksLikeEmail |}.

Fixpoint repeat (c : ascii) (n : nat) : string :=
  match n with
  | O => EmptyString
  | S n => String c (repeat c n)
  end.

Definition env : Env := {| now := 1000000; salt := "NaCl" |}.

Definition ann : User.t :=
  {| User.username := "ann"; User.email := "ann@example.com";
     User.password := Some "NaCl:hunter22";
     User.createdAt := 5; User.updatedAt := 5 |}.

Definition bob : User.t :=
  {| User.username := "bob"; User.email := "bob@example.com";
     User.password := Some "NaCl:letmein";
     User.createdAt := 6; User.updatedAt := 6 |}.

Definition milk : Task.t :=
  {| Task.user := 1; Task.title := "Buy milk"; Task.description := "";
     Task.completed := false; Task.createdAt := 10; Task.updatedAt := 10 |}.

Definition rent : Task.t :=
  {| Task.user := 2; Task.title := "Pay rent"; Task.description := "before Friday";
     Task.completed := false; Task.createdAt := 20; Task.updatedAt := 20 |}.

(** Two identities; each owns one task. *)
Definition db : Db :=
  {| users := <[1%positive := ann]> (<[2%positive := bob]> ∅);
     tasks := <[1%positive := milk]> (<[2%positive := rent]> ∅) |}.

(** A server run from the empty database: Carl registers, then creates
    a task with the token he was given. *)
Definition carl_registers : Request :=
  POST_register (Body.mk (Some "carl") (Some "Carl@Example.com") (Some "hunter22")
                         None None None None).

Definition carl_creates : Request :=
  POST_tasks (Some "Bearer 1.2593000.s3cret")
             (Body.mk None None None (Some "  Walk dog ") (Some " twice ") None None).

Definition served : Db :=
  (app (app empty_db env carl_registers).1 env carl_creates).1.


(** A clock that reads an instant before the creation of Ann's task. *)
Definition early : Env := {| now := 5; salt := "NaCl" |}.

(** [req.user] for Ann and Bob. *)
Definition req_ann : positive * User.t := (1%positive, Mongoose.select_minus_password ann).
Definition req_bob : positive * User.t := (2%positive, Mongoose.select_minus_password bob).

End Sample.

(** ** Vocabulary for identities and requests *)

Module JSMore.

(** [s.includes(c)] for a one-character [c]. *)
Fixpoint includes (s : string) (c : ascii) : bool :=
  match s with
  | EmptyString => false
  | String a s' => Ascii.eqb a c || includes s' c
  end.

(** Truthiness of a possibly absent string: [null] and [''] are falsy. *)
Definition truthy (v : option string) : bool :=
  match v with
  | Some s => negb (String.eqb s "")
  | None => false
  end.

End JSMore.

Section IdentityVocabulary.
Context `{Validator, Bcrypt, Jsonwebtoken, Platform}.
Import ExpressValidator.

(** The identity a registration request describes. *)
Definition registered_user (env : Env) (b : Body.t) : User.t :=
  {| User.username := JS.trim (toString (Body.username b));
     User.email := email_key b;
     User.password := Some (bcrypt_hash (toString (Body.password b)) (salt env));
     User.createdAt := now env;
     User.updatedAt := now env |}.

(** No two identities share an e-mail or a username. *)
Definition users_unique (db : Db) : Prop :=
  ∀ i j u v, users db !! i = Some u → users db !! j = Some v →
             User.email u = User.email v ∨ User.username u = User.username v →
             i = j.

(** A stored identity passes the user schema, has a trimmed username and
    holds the output of [bcrypt.hash] as its password. *)
Definition User_ok (u : User.t) : Prop :=
  Mongoose.User_validate u = true ∧
  JS.trimmed (User.username u) ∧
  ∃ password salt, User.password u = Some (bcrypt_hash password salt).

Definition users_ok (db : Db) : Prop :=
  ∀ id u, users db !! id = Some u → User_ok u.

(** The [Authorization] header of a request to a task route. *)
Definition authorization (r : Request) : option (option string) :=
  match r with
  | GET_tasks a | POST_tasks a _ | PUT_tasks a _ _ | DELETE_tasks a _ => Some a
  | POST_register _ | POST_login _ => None
  end.

(** The identity a request to a task route is authenticated as. *)
Definition caller (db : Db) (env : Env) (r : Request) : option positive :=
  match authorization r with
  | Some a =>
      match protect db env a with
      | inr req_user => Some req_user.1
      | inl _ => None
      end
  | None => None
  end.

End IdentityVocabulary.

(** ** The client: [services/api.js], [context/AuthContext.jsx] and the
    handlers of [pages/Dashboard.jsx]

    The browser side is modelled against the server above: an API call
    builds the request through the request interceptor, lets [app] serve
    it, and passes the response through the response interceptor. React
    state is a record, and the updates of a handler are applied in the
    order in which the handler makes them. *)

(** What a settled axios promise carries: the data of a response with a
    2xx status, or the response of an error. *)
Inductive Reply :=
| Fulfilled (data : Json)
| Failed (response : Response).

(** [data.user] of a session response. *)
Record UserInfo := mkUserInfo {
  info_id : positive;
  info_username : string;
  info_email : string
}.

(** [window]: [localStorage] and [location.href]. *)
Record Window := mkWindow {
  localStorage : gmap string string;
  location : string
}.

(** [JSON.stringify] on [data.user]. *)
Class JsonText := {
  JSON_stringify : UserInfo → string
}.

Definition getItem (key : string) (w : Window) : option string :=
  localStorage w !! key.

Definition setItem (key value : string) (w : Window) : Window :=
  {| localStorage := <[key := value]> (localStorage w); location := location w |}.

Definition removeItem (key : string) (w : Window) : Window :=
  {| localStorage := delete key (localStorage w); location := location w |}.

(** Field accesses on response data; a field the data does not have is
    [undefined]. *)
Definition data_message (j : Json) : option string :=
  match j with
  | Message m => Some m
  | Session m _ _ _ _ => Some m
  | TaskDoc _ | TaskDocs _ => None
  end.

Definition data_token (j : Json) : option string :=
  match j with
  | Session _ token _ _ _ => Some token
  | _ => None
  end.

Definition data_user (j : Json) : option UserInfo :=
  match j with
  | Session _ _ id username email => Some (mkUserInfo id username email)
  | _ => None
  end.

Module Api.
Section Api.
Context `{Validator, Bcrypt, Jsonwebtoken, Platform}.

(** The request interceptor: the [Authorization] header of the outgoing
    request. *)
Definition requestInterceptor (w : Window) : option string :=
  match getItem "token" w with
  | Some token => if String.eqb token "" then None else Some ("Bearer " ++ token)
  | None => None
  end.

(** axios resolves on a 2xx status and rejects otherwise. *)
Definition validateStatus (res : Response) : bool :=
  (200 <=? status res)%nat && (status res <? 300)%nat.

(** The response interceptor: on a 401 the stored session is dropped and
    the browser is sent to the login page. *)
Definition responseInterceptor (w : Window) (res : Response) : Window * Reply :=
  if validateStatus res then (w, Fulfilled (json res))
  else if (status res =? 401)%nat then
    ({| localStorage := localStorage (removeItem "user" (removeItem "token" w));
        location := "/login" |},
     Failed res)
  else (w, Failed res).

(** One call through the axios instance, served by the application. *)
Definition call (mk : option string → Request) (w : Window) (db : Db) (env : Env)
  : Db * Window * Reply :=
  let '(db', res) := app db env (mk (requestInterceptor w)) in
  let '(w', reply) := responseInterceptor w res in
  (db', w', reply).

Definition register (userData : Body.t) := call (λ _, POST_register userData).
Definition login (credentials : Body.t) := call (λ _, POST_login credentials).
Definition getTasks := call GET_tasks.
Definition createTask (taskData : Body.t) := call (λ a, POST_tasks a taskData).
Definition updateTask (id : positive) (taskData : Body.t) :=
  call (λ a, PUT_tasks a id taskData).
Definition deleteTask (id : positive) := call (λ a, DELETE_tasks a id).

End Api.
End Api.

Module AuthContext.
Section AuthContext.
Context `{Validator, Bcrypt, Jsonwebtoken, Platform, JsonText}.

(** The state of the provider. *)
Record State := mkState {
  user : option UserInfo;
  loading : bool;
  error : option string
}.

(** What [login] and [register] do with a fulfilled call: token and user
    go to [localStorage], the user to the state. *)
Definition store_session (data : Json) (w : Window) : Window * State :=
  let w := setItem "token" (default "undefined" (data_token data)) w in
  let w := setItem "user" (default "undefined" (JSON_stringify <$> data_user data)) w in
  (w, {| user := data_user data; loading := false; error := None |}).

(** What they do with a failed one: the message of the response, or the
    fallback, becomes the error and is thrown. *)
Definition report_failure (fallback : string) (res : Response) (st : State)
  : State * Outcome bool :=
  let errorMessage := JS.or_else (data_message (json res)) fallback in
  ({| user := user st; loading := false; error := Some errorMessage |},
   Rejected errorMessage).

Definition login (email password : string) (st : State) (w : Window) (db : Db) (env : Env)
  : Db * Window * State * Outcome bool :=
  let credentials := Body.mk None (Some email) (Some password) None None None None in
  let '(db', w', reply) := Api.login credentials w db env in
  match reply with
  | Fulfilled data =>
      let '(w'', st') := store_session data w' in (db', w'', st', Resolved true)
  | Failed res =>
      let '(st', thrown) := report_failure "Login failed" res st in (db', w', st', thrown)
  end.

Definition register (username email password : string) (st : State) (w : Window)
    (db : Db) (env : Env) : Db * Window * State * Outcome bool :=
  let userData := Body.mk (Some username) (Some email) (Some password)
                          None None None None in
  let '(db', w', reply) := Api.register userData w db env in
  match reply with
  | Fulfilled data =>
      let '(w'', st') := store_session data w' in (db', w'', st', Resolved true)
  | Failed res =>
      let '(st', thrown) := report_failure "Registration failed" res st in
      (db', w', st', thrown)
  end.

Definition setError (v : option string) (st : State) : State :=
  {| user := user st; loading := loading st; error := v |}.

Definition logout (st : State) (w : Window) : Window * State :=
  (removeItem "user" (removeItem "token" w),
   {| user := None; loading := loading st; error := None |}).

(** [!!user && !!localStorage.getItem('token')]. *)
Definition isAuthenticated (st : State) (w : Window) : bool :=
  match user st with Some _ => true | None => false end &&
  JSMore.truthy (getItem "token" w).

End AuthContext.
End AuthContext.

Module Dashboard.
Section Dashboard.
Context `{Validator, Bcrypt, Jsonwebtoken, Platform}.

(** The state of the page; [alerted] is the last message shown with
    [alert]. *)
Record State := mkState {
  tasks : list (positive * Task.t);
  loading : bool;
  error : option string;
  alerted : option string
}.

Definition set_tasks (l : list (positive * Task.t)) (st : State) : State :=
  {| tasks := l; loading := loading st; error := error st; alerted := alerted st |}.

Definition alert (message : string) (st : State) : State :=
  {| tasks := tasks st; loading := loading st; error := error st;
     alerted := Some message |}.

Definition fetchTasks (st : State) (w : Window) (db : Db) (env : Env)
  : Db * Window * State :=
  let '(db', w', reply) := Api.getTasks w db env in
  match reply with
  | Fulfilled (TaskDocs data) =>
      (db', w', {| tasks := data; loading := false; error := None;
                   alerted := alerted st |})
  | Fulfilled _ =>
      (db', w', {| tasks := tasks st; loading := false; error := None;
                   alerted := alerted st |})
  | Failed _ =>
      (db', w', {| tasks := tasks st; loading := false;
                   error := Some "Failed to load tasks. Please try again.";
                   alerted := alerted st |})
  end.

(** [setTasks(prev => [newTask, ...prev])], or the alert. The server
    answers 2xx on this route only with the task. *)
Definition handleCreateTask (taskData : Body.t) (st : State) (w : Window) (db : Db)
    (env : Env) : Db * Window * State :=
  let '(db', w', reply) := Api.createTask taskData w db env in
  match reply with
  | Fulfilled (TaskDoc newTask) => (db', w', set_tasks (newTask :: tasks st) st)
  | Fulfilled _ => (db', w', st)
  | Failed res =>
      (db', w', alert (JS.or_else (data_message (json res)) "Failed to create task") st)
  end.

(** [throw err] in the [catch]: the handler re-throws exactly when the
    call failed. *)
Definition handleCreateTask_throws (taskData : Body.t) (w : Window) (db : Db)
    (env : Env) : bool :=
  match (Api.createTask taskData w db env).2 with
  | Fulfilled _ => false
  | Failed _ => true
  end.

(** [prevTasks.map(task => task._id === taskId ? updatedTask : task)]. *)
Definition handleUpdateTask (taskId : positive) (updates : Body.t) (st : State)
    (w : Window) (db : Db) (env : Env) : Db * Window * State :=
  let '(db', w', reply) := Api.updateTask taskId updates w db env in
  match reply with
  | Fulfilled (TaskDoc updatedTask) =>
      (db', w',
       set_tasks (List.map (λ task, if Pos.eqb task.1 taskId then updatedTask else task)
                           (tasks st)) st)
  | Fulfilled _ => (db', w', st)
  | Failed res =>
      (db', w', alert (JS.or_else (data_message (json res)) "Failed to update task") st)
  end.

(** [prevTasks.filter(task => task._id !== taskId)]. *)
Definition handleDeleteTask (taskId : positive) (st : State) (w : Window) (db : Db)
    (env : Env) : Db * Window * State :=
  let '(db', w', reply) := Api.deleteTask taskId w db env in
  match reply with
  | Fulfilled _ =>
      (db', w',
       set_tasks (List.filter (λ task, negb (Pos.eqb task.1 taskId)) (tasks st)) st)
  | Failed res =>
      (db', w', alert (JS.or_else (data_message (json res)) "Failed to delete task") st)
  end.

(** [TaskItem]'s checkbox: [onUpdate(task._id, { completed: !task.completed })]. *)
Definition handleToggleComplete (task : positive * Task.t) :=
  handleUpdateTask task.1
    (Body.mk None None None None None
             (Some (FlagBool (negb (Task.completed task.2)))) None).

End Dashboard.
End Dashboard.

(** ** The forms: [components/TaskForm.jsx], [components/TaskItem.jsx],
    [pages/Register.jsx] and [pages/Login.jsx]

    A submit handler is modelled on the state of its component and on
    what it reaches: the page that renders it, the provider, the browser
    and the server. The alerts of the two task components appear on the
    dashboard that renders them. *)

(** [navigate(path)]. *)
Definition navigate (path : string) (w : Window) : Window :=
  {| localStorage := localStorage w; location := path |}.

(** Regular expressions, as far as the forms use them, matched by
    derivatives. [test r s] is [/^r$/.test(s)]. *)
Module RegExp.

Inductive t :=
| Never
| Empty
| Class (p : ascii → bool)
| Seq (r s : t)
| Alt (r s : t)
| Star (r : t).

(** [r+]. *)
Definition Plus (r : t) : t := Seq r (Star r).

Fixpoint nullable (r : t) : bool :=
  match r with
  | Never => false
  | Empty => true
  | Class _ => false
  | Seq r s => nullable r && nullable s
  | Alt r s => nullable r || nullable s
  | Star _ => true
  end.

Fixpoint derive (c : ascii) (r : t) : t :=
  match r with
  | Never => Never
  | Empty => Never
  | Class p => if p c then Empty else Never
  | Seq r s =>
      if nullable r then Alt (Seq (derive c r) s) (derive c s)
      else Seq (derive c r) s
  | Alt r s => Alt (derive c r) (derive c s)
  | Star r => Seq (derive c r) (Star r)
  end.

Fixpoint test (r : t) (s : string) : bool :=
  match s with
  | EmptyString => nullable r
  | String c s' => test (derive c r) s'
  end.

End RegExp.

(** [/^[^\s@]+@[^\s@]+\.[^\s@]+$/], the pattern of both pages. *)
Definition emailRegex : RegExp.t :=
  let other := RegExp.Class (λ c, negb (JS.isWhitespace c || Ascii.eqb c "@")) in
  RegExp.Seq (RegExp.Plus other)
    (RegExp.Seq (RegExp.Class (Ascii.eqb "@"))
       (RegExp.Seq (RegExp.Plus other)
          (RegExp.Seq (RegExp.Class (Ascii.eqb ".")) (RegExp.Plus other)))).

Module TaskForm.
Section TaskForm.
Context `{Validator, Bcrypt, Jsonwebtoken, Platform}.

Record FormData := mkFormData { title : string; description : string }.

Record State := mkState { formData : FormData; isSubmitting : bool }.

(** [formData] as the body of the request. *)
Definition payload (f : FormData) : Body.t :=
  Body.mk None None None (Some (title f)) (Some (description f)) None None.

(** [handleSubmit], with [onSubmit] the dashboard's [handleCreateTask]:
    the form is cleared when the handler returns and kept when it
    throws. *)
Definition handleSubmit (st : State) (page : Dashboard.State) (w : Window) (db : Db)
    (env : Env) : State * (Db * Window * Dashboard.State) :=
  if String.eqb (JS.trim (title (formData st))) "" then
    (st, (db, w, Dashboard.alert "Please enter a task title" page))
  else
    let result := Dashboard.handleCreateTask (payload (formData st)) page w db env in
    if Dashboard.handleCreateTask_throws (payload (formData st)) w db env then
      ({| formData := formData st; isSubmitting := false |}, result)
    else
      ({| formData := mkFormData "" ""; isSubmitting := false |}, result).

End TaskForm.
End TaskForm.

Module TaskItem.
Section TaskItem.
Context `{Validator, Bcrypt, Jsonwebtoken, Platform}.

Record EditForm := mkEditForm { title : string; description : string }.

Record State := mkState { isEditing : bool; editForm : EditForm }.

(** The edit form starts from the task: [task.description || '']. *)
Definition initialForm (task : positive * Task.t) : EditForm :=
  {| title := Task.title task.2;
     description := JS.or_else (Some (Task.description task.2)) "" |}.

Definition payload (f : EditForm) : Body.t :=
  Body.mk None None None (Some (title f)) (Some (description f)) None None.

(** [handleSave], with [onUpdate] the dashboard's [handleUpdateTask]; the
    update is not awaited, and the editor closes whatever its outcome. *)
Definition handleSave (task : positive * Task.t) (st : State) (page : Dashboard.State)
    (w : Window) (db : Db) (env : Env) : State * (Db * Window * Dashboard.State) :=
  if String.eqb (JS.trim (title (editForm st))) "" then
    (st, (db, w, Dashboard.alert "Task title is required" page))
  else
    ({| isEditing := false; editForm := editForm st |},
     Dashboard.handleUpdateTask task.1 (payload (editForm st)) page w db env).

End TaskItem.
End TaskItem.

Module Register.
Section Register.
Context `{Validator, Bcrypt, Jsonwebtoken, Platform, JsonText}.

Record FormData := mkFormData {
  username : string;
  email : string;
  password : string;
  confirmPassword : string
}.

Record State := mkState { formData : FormData; localError : string; loading : bool }.

Definition setLocalError (message : string) (st : State) : State :=
  {| formData := formData st; localError := message; loading := loading st |}.

Definition setLoading (v : bool) (st : State) : State :=
  {| formData := formData st; localError := localError st; loading := v |}.

(** [!v] on a string. *)
Definition blank (v : string) : bool := negb (JSMore.truthy (Some v)).

Definition handleSubmit (st : State) (auth : AuthContext.State) (w : Window) (db : Db)
    (env : Env) : State * (Db * Window * AuthContext.State) :=
  let st := setLocalError "" st in
  let auth := AuthContext.setError None auth in
  let f := formData st in
  if blank (username f) || blank (email f) || blank (password f)
     || blank (confirmPassword f) then
    (setLocalError "Please fill in all fields" st, (db, w, auth))
  else if (String.length (username f) <? 3)%nat then
    (setLocalError "Username must be at least 3 characters long" st, (db, w, auth))
  else if negb (RegExp.test emailRegex (email f)) then
    (setLocalError "Please enter a valid email address" st, (db, w, auth))
  else if (String.length (password f) <? 6)%nat then
    (setLocalError "Password must be at least 6 characters long" st, (db, w, auth))
  else if negb (String.eqb (password f) (confirmPassword f)) then
    (setLocalError "Passwords do not match" st, (db, w, auth))
  else
    let st := setLoading true st in
    let '(db', w', auth', outcome) :=
      AuthContext.register (username f) (email f) (password f) auth w db env in
    match outcome with
    | Resolved _ => (st, (db', navigate "/dashboard" w', auth'))
    | Rejected _ => (setLoading false st, (db', w', auth'))
    end.

End Register.
End Register.

Module Login.
Section Login.
Context `{Validator, Bcrypt, Jsonwebtoken, Platform, JsonText}.

Record FormData := mkFormData { email : string; password : string }.

Record State := mkState { formData : FormData; localError : string; loading : bool }.

Definition setLocalError (message : string) (st : State) : State :=
  {| formData := formData st; localError := message; loading := loading st |}.

Definition setLoading (v : bool) (st : State) : State :=
  {| formData := formData st; localError := localError st; loading := v |}.

Definition handleSubmit (st : State) (auth : AuthContext.State) (w : Window) (db : Db)
    (env : Env) : State * (Db * Window * AuthContext.State) :=
  let st := setLocalError "" st in
  let auth := AuthContext.setError None auth in
  let f := formData st in
  if Register.blank (email f) || Register.blank (password f) then
    (setLocalError "Please fill in all fields" st, (db, w, auth))
  else if negb (RegExp.test emailRegex (email f)) then
    (setLocalError "Please enter a valid email address" st, (db, w, auth))
  else
    let st := setLoading true st in
    let '(db', w', auth', outcome) :=
      AuthContext.login (email f) (password f) auth w db env in
    match outcome with
    | Resolved _ => (st, (db', navigate "/dashboard" w', auth'))
    | Rejected _ => (setLoading false st, (db', w', auth'))
    end.

End Login.
End Login.

(** ** Vocabulary for the dashboard *)

(** What the list route returns to [owner]. *)
Definition listed (db : Db) (owner : positive) : list (positive * Task.t) :=
  Mongoose.sort_createdAt_desc
    (Mongoose.find (λ d, Pos.eqb (Task.user d.2) owner) (tasks db)).

(** The tasks of [owner] were created at pairwise different instants. *)
Definition distinct_instants (db : Db) (owner : positive) : Prop :=
  ∀ i j t t', tasks db !! i = Some t → tasks db !! j = Some t' →
              Task.user t = owner → Task.user t' = owner →
              Task.createdAt t = Task.createdAt t' → i = j.

(** ** More sample data *)

Module Sample2.

Global Instance json_text : JsonText :=
  {| JSON_stringify := λ u,
       pretty (Npos (info_id u)) ++ "," ++ info_username u ++ "," ++ info_email u |}.

(** A runtime whose e-mail pattern, like the one of the user schema,
    accepts no plus sign. *)
Definition strict_platform : Platform :=
  {| JWT_SECRET := "s3cret"; toLowerCase := Sample.lowercase;
     emailPattern := λ s, Sample.looksLikeEmail s && negb (JSMore.includes s "+") |}.

(** Zed is not registered yet. *)
Definition zed : Body.t :=
  Body.mk (Some " zed ") (Some "Zed@Example.com") (Some "hunter22") None None None None.

Definition zed_plus : Body.t :=
  Body.mk (Some "zed") (Some "zed+tasks@example.com") (Some "hunter22")
          None None None None.

(** Ann's credentials, and the token the sample server signs for her at
    the instant of [Sample.env]. *)
Definition ann_credentials : Body.t :=
  Body.mk None (Some "Ann@Example.com") (Some "hunter22") None None None None.

Definition ann_token : string := "1.2593000.s3cret".

(** A browser that holds Ann's token, a fresh one, and Ann's dashboard. *)
Definition fresh_window : Window := {| localStorage := ∅; location := "/login" |}.

Definition ann_window : Window :=
  {| localStorage := <["token" := ann_token]> ∅; location := "/dashboard" |}.

Definition ann_page : Dashboard.State :=
  {| Dashboard.tasks := [(1%positive, Sample.milk)]; Dashboard.loading := false;
     Dashboard.error := None; Dashboard.alerted := None |}.

Definition signed_out : AuthContext.State :=
  {| AuthContext.user := None; AuthContext.loading := false; AuthContext.error := None |}.

(** A later instant, still within thirty days of [Sample.env]. *)
Definition next_day : Env := {| now := 87400000; salt := "NaCl" |}.

(** A browser whose token expired, Ann's session, a dashboard that has
    not loaded yet, and two payloads of the task form. *)
Definition expired_window : Window :=
  {| localStorage := <["token" := "1.1000.s3cret"]> ∅; location := "/dashboard" |}.

Definition ann_session : AuthContext.State :=
  {| AuthContext.user := Some (mkUserInfo 1 "ann" "ann@example.com");
     AuthContext.loading := false; AuthContext.error := None |}.

Definition blank_page : Dashboard.State :=
  {| Dashboard.tasks := []; Dashboard.loading := true;
     Dashboard.error := None; Dashboard.alerted := None |}.

Definition water_plants : Body.t :=
  Body.mk None None None (Some "Water plants") None None None.

Definition tick : Body.t :=
  Body.mk None None None None None (Some (FlagBool true)) None.

(** Ann's task once ticked, and what is typed into the forms. *)
Definition milk_ticked : Task.t :=
  {| Task.user := 1; Task.title := "Buy milk"; Task.description := "";
     Task.completed := true; Task.createdAt := 10; Task.updatedAt := 1000000 |}.

Definition milk_opened : TaskItem.State :=
  {| TaskItem.isEditing := true; TaskItem.editForm := TaskItem.mkEditForm "Buy milk" "" |}.



Definition padded_registration : Register.State :=
  {| Register.formData := Register.mkFormData " ab " "ab@example.com" "hunter22" "hunter22";
     Register.localError := ""; Register.loading := false |}.

Definition ann_login : Login.State :=
  {| Login.formData := Login.mkFormData "Ann@Example.com" "hunter22";
     Login.localError := ""; Login.loading := false |}.

End Sample2.

(** * Properties *)

Example trim_example : JS.trim "  Buy milk  " = "Buy milk".
Proof. reflexivity. Qed.

Example trim_blank : JS.trim (String (ascii_of_nat 9) " ") = "".
Proof. reflexivity. Qed.

Example split_example : JS.split " " "Bearer abc.def" = ["Bearer"; "abc.def"].
Proof. reflexivity. Qed.


(** ** Trimming *)

Section TrimFacts.
Import JS.

Lemma trimStart_head s c : head (trimStart s) = Some c → isWhitespace c = false.
Proof.
  induction s as [|a s IH]; simpl; [discriminate|].
  destruct (isWhitespace a) eqn:Ha; [exact IH|].
  simpl. intros [= <-]. exact Ha.
Qed.

Lemma trimEnd_cons a s :
  trimEnd (String a s) =
    match trimEnd s with
    | EmptyString => if isWhitespace a then EmptyString else String a EmptyString
    | r => String a r
    end.
Proof. reflexivity. Qed.

Lemma trimEnd_last s c : last (trimEnd s) = Some c → isWhitespace c = false.
Proof.
  revert c. induction s as [|a s IH]; intros c; [discriminate|].
  rewrite trimEnd_cons.
  destruct (trimEnd s) as [|b r] eqn:Hr.
  - destruct (isWhitespace a) eqn:Ha; simpl; [discriminate|].
    intros [= <-]. exact Ha.
  - simpl. intros Hl. apply IH. simpl. exact Hl.
Qed.

Lemma trimEnd_head s c : head (trimEnd s) = Some c → head s = Some c.
Proof.
  destruct s as [|a s]; [discriminate|].
  rewrite trimEnd_cons.
  destruct (trimEnd s); [destruct (isWhitespace a)|]; simpl; congruence.
Qed.

Lemma trim_trimmed s : trimmed (trim s).
Proof.
  split; intros c Hc.
  - apply (trimStart_head s). by apply trimEnd_head.
  - by apply (trimEnd_last (trimStart s)).
Qed.

Lemma length_trimStart s : (String.length (trimStart s) ≤ String.length s)%nat.
Proof.
  induction s as [|a s IH]; simpl; [lia|].
  destruct (isWhitespace a); simpl; lia.
Qed.

Lemma length_trimEnd s : (String.length (trimEnd s) ≤ String.length s)%nat.
Proof.
  induction s as [|a s IH]; [simpl; lia|].
  rewrite trimEnd_cons.
  destruct (trimEnd s); [destruct (isWhitespace a)|]; simpl in *; lia.
Qed.

Lemma length_trim s : (String.length (trim s) ≤ String.length s)%nat.
Proof.
  unfold trim. pose proof (length_trimEnd (trimStart s)).
  pose proof (length_trimStart s). lia.
Qed.

Lemma trimStart_id s :
  (∀ c, head s = Some c → isWhitespace c = false) → trimStart s = s.
Proof.
  destruct s as [|a s]; [done|]. simpl. intros Hh.
  by rewrite (Hh a eq_refl).
Qed.

Lemma trimEnd_id s :
  (∀ c, last s = Some c → isWhitespace c = false) → trimEnd s = s.
Proof.
  induction s as [|a s IH]; [done|]. intros Hl.
  rewrite trimEnd_cons.
  destruct s as [|b s].
  - simpl. by rewrite (Hl a eq_refl).
  - rewrite IH; [done|]. intros c Hc. apply Hl. exact Hc.
Qed.

Lemma trim_id s : trimmed s → trim s = s.
Proof.
  intros [Hh Hl]. unfold trim. rewrite (trimStart_id s Hh). by apply trimEnd_id.
Qed.

Lemma trim_idemp s : trim (trim s) = trim s.
Proof. apply trim_id, trim_trimmed. Qed.

Lemma trimmed_empty : trimmed "".
Proof. split; intros c; discriminate. Qed.

(** A string of whitespace only trims to the empty string. *)
Lemma trim_allWhitespace s : allWhitespace s = true → trim s = "".
Proof.
  unfold trim. induction s as [|a s IH]; [done|]. simpl.
  intros [Ha Hs]%andb_true_iff. rewrite Ha. by apply IH.
Qed.
End TrimFacts.

(** ** Queries on a collection *)

Section QueryFacts.
Context {A : Type}.
Implicit Types (c : gmap positive A) (d : positive * A).

Lemma findOne_Some filter c d :
  Mongoose.findOne filter c = Some d → c !! d.1 = Some d.2 ∧ filter d = true.
Proof.
  unfold Mongoose.findOne. intros [Hin Hf]%find_some. split; [|done].
  apply elem_of_map_to_list. destruct d. by apply list_elem_of_In.
Qed.

Lemma findOne_None filter c id a :
  Mongoose.findOne filter c = None → c !! id = Some a → filter (id, a) = false.
Proof.
  unfold Mongoose.findOne. intros Hnone Hl.
  apply (find_none _ _ Hnone). by apply list_elem_of_In, elem_of_map_to_list.
Qed.

Lemma findOne_None_intro filter c :
  (∀ id a, c !! id = Some a → filter (id, a) = false) → Mongoose.findOne filter c = None.
Proof.
  intros Hall. destruct (Mongoose.findOne filter c) as [[id a]|] eqn:E; [|done].
  apply findOne_Some in E as [Hl Hf]. simpl in *.
  rewrite (Hall _ _ Hl) in Hf. discriminate.
Qed.

Lemma findOne_Some_intro filter c id a :
  c !! id = Some a → filter (id, a) = true → is_Some (Mongoose.findOne filter c).
Proof.
  intros Hl Hf. destruct (Mongoose.findOne filter c) eqn:E; [by eexists|].
  rewrite (findOne_None _ _ _ _ E Hl) in Hf. discriminate.
Qed.

(** A filter that fixes the [_id] is a lookup under that key followed by
    the rest of the filter. *)
Lemma findOne_by_id (g : positive * A → bool) c id :
  Mongoose.findOne (λ d, Pos.eqb d.1 id && g d) c =
    match c !! id with
    | Some a => if g (id, a) then Some (id, a) else None
    | None => None
    end.
Proof.
  destruct (Mongoose.findOne _ c) as [[k a]|] eqn:E.
  - apply findOne_Some in E as [Hl Hf]. simpl in *.
    apply andb_true_iff in Hf as [->%Pos.eqb_eq Hg].
    by rewrite Hl, Hg.
  - destruct (c !! id) as [a|] eqn:Hl; [|done].
    pose proof (findOne_None _ _ _ _ E Hl) as Hf. simpl in Hf.
    rewrite Pos.eqb_refl in Hf. simpl in Hf. by rewrite Hf.
Qed.

Lemma find_extensional (f g : positive * A → bool) (l : list (positive * A)) :
  (∀ d, f d = g d) → List.find f l = List.find g l.
Proof.
  intros Hfg. induction l as [|d l IH]; simpl; [done|].
  by rewrite Hfg, IH.
Qed.

Lemma findById_lookup c id :
  Mongoose.findById id c = (λ a, (id, a)) <$> c !! id.
Proof.
  unfold Mongoose.findById.
  transitivity (Mongoose.findOne (λ d, Pos.eqb d.1 id && true) c).
  - unfold Mongoose.findOne. apply find_extensional. intros d. by rewrite andb_true_r.
  - rewrite (findOne_by_id (λ _, true)). by destruct (c !! id).
Qed.

Lemma elem_of_find filter c d :
  d ∈ Mongoose.find filter c ↔ c !! d.1 = Some d.2 ∧ filter d = true.
Proof.
  unfold Mongoose.find. rewrite list_elem_of_In, filter_In, <- list_elem_of_In.
  destruct d as [id a]. by rewrite elem_of_map_to_list.
Qed.

Lemma NoDup_find filter c : NoDup (Mongoose.find filter c).
Proof.
  unfold Mongoose.find. apply NoDup_ListNoDup, List.NoDup_filter, NoDup_ListNoDup.
  apply NoDup_map_to_list.
Qed.
End QueryFacts.

(** ** The validation chains *)

Section ValidationFacts.
Import ExpressValidator.

Lemma notEmpty_true s : notEmpty s = true ↔ s ≠ "".
Proof.
  unfold notEmpty. rewrite negb_true_iff. split.
  - intros Hne ->. by rewrite String.eqb_refl in Hne.
  - intros Hne. by apply String.eqb_neq.
Qed.

Lemma notEmpty_false s : notEmpty s = false ↔ s = "".
Proof. unfold notEmpty. rewrite negb_false_iff. apply String.eqb_eq. Qed.

Lemma isLength_max_true n s :
  isLength 0 (Some n) s = true ↔ (String.length s ≤ n)%nat.
Proof. unfold isLength. simpl. apply Nat.leb_le. Qed.

Lemma isLength_max_false n s :
  isLength 0 (Some n) s = false ↔ (n < String.length s)%nat.
Proof. unfold isLength. simpl. apply Nat.leb_gt. Qed.

Lemma isLength_min_true n s :
  isLength n None s = true ↔ (n ≤ String.length s)%nat.
Proof. unfold isLength. rewrite andb_true_r. apply Nat.leb_le. Qed.

Local Arguments isLength : simpl never.
Local Arguments notEmpty : simpl never.
Local Arguments isBoolean : simpl never.
Local Arguments JS.trim : simpl never.

(** What the chains of [POST /api/tasks] compute. *)
Lemma post_validation_unfold b :
  post_validation b =
    let t := JS.trim (toString (Body.title b)) in
    (Body.mk (Body.username b) (Body.email b) (Body.password b)
             (Some t) (JS.trim <$> Body.description b)
             (Body.completed b) (Body.user b),
     (if notEmpty t then [] else ["Task title is required"]) ++
     (if isLength 0 (Some 200) t then [] else ["Title cannot exceed 200 characters"]) ++
     match Body.description b with
     | Some d => if isLength 0 (Some 1000) (JS.trim d) then []
                 else ["Description cannot exceed 1000 characters"]
     | None => []
     end)%list.
Proof.
  unfold post_validation.
  destruct b as [u e p [t|] [d|] c o]; simpl;
    repeat match goal with |- context [if ?x then _ else _] => destruct x end;
    reflexivity.
Qed.

Lemma post_validation_valid b :
  valid_task_input b → (post_validation b).2 = [].
Proof.
  intros (Hne & Hlen & Hdesc). rewrite post_validation_unfold. simpl.
  apply notEmpty_true in Hne. apply isLength_max_true in Hlen.
  rewrite Hne, Hlen. simpl.
  destruct (Body.description b) as [d|]; [|done].
  specialize (Hdesc d eq_refl). apply isLength_max_true in Hdesc. by rewrite Hdesc.
Qed.

Lemma post_validation_passed b :
  (post_validation b).2 = [] → valid_task_input b.
Proof.
  rewrite post_validation_unfold. simpl. intros Herr.
  destruct (notEmpty _) eqn:Hne; [|discriminate].
  destruct (isLength 0 (Some 200) _) eqn:Hlen; [|discriminate].
  simpl in Herr. split_and!.
  - by apply notEmpty_true.
  - by apply isLength_max_true.
  - intros d Hd. rewrite Hd in Herr.
    destruct (isLength 0 (Some 1000) _) eqn:Hdl; [|discriminate].
    by apply isLength_max_true.
Qed.

(** What the chains of [PUT /api/tasks/:id] compute. *)
Lemma put_validation_unfold b :
  put_validation b =
    (Body.mk (Body.username b) (Body.email b) (Body.password b)
             (JS.trim <$> Body.title b) (JS.trim <$> Body.description b)
             (Body.completed b) (Body.user b),
     match Body.title b with
     | Some v =>
         (if notEmpty (JS.trim v) then [] else ["Title cannot be empty"]) ++
         (if isLength 0 (Some 200) (JS.trim v) then []
          else ["Title cannot exceed 200 characters"])
     | None => []
     end ++
     match Body.description b with
     | Some d => if isLength 0 (Some 1000) (JS.trim d) then []
                 else ["Description cannot exceed 1000 characters"]
     | None => []
     end ++
     match Body.completed b with
     | Some f => if isBoolean (flagToString f) then []
                 else ["Completed must be true or false"]
     | None => []
     end)%list.
Proof.
  unfold put_validation.
  destruct b as [u e p [t|] [d|] [f|] o]; simpl;
    repeat match goal with |- context [if ?x then _ else _] => destruct x end;
    reflexivity.
Qed.

Lemma put_validation_valid b :
  valid_update_payload b → (put_validation b).2 = [].
Proof.
  intros (Ht & Hd & Hc). rewrite put_validation_unfold. simpl.
  destruct (Body.title b) as [v|].
  - destruct (Ht v eq_refl) as [Hne Hlen].
    apply notEmpty_true in Hne. apply isLength_max_true in Hlen.
    rewrite Hne, Hlen. simpl.
    destruct (Body.description b) as [d|].
    + specialize (Hd d eq_refl). apply isLength_max_true in Hd. rewrite Hd. simpl.
      destruct (Body.completed b) as [f|]; [|done]. by rewrite (Hc f eq_refl).
    + simpl. destruct (Body.completed b) as [f|]; [|done]. by rewrite (Hc f eq_refl).
  - simpl. destruct (Body.description b) as [d|].
    + specialize (Hd d eq_refl). apply isLength_max_true in Hd. rewrite Hd. simpl.
      destruct (Body.completed b) as [f|]; [|done]. by rewrite (Hc f eq_refl).
    + simpl. destruct (Body.completed b) as [f|]; [|done]. by rewrite (Hc f eq_refl).
Qed.

Lemma put_validation_passed b :
  (put_validation b).2 = [] → valid_update_payload b.
Proof.
  rewrite put_validation_unfold. simpl. intros Herr.
  apply app_eq_nil in Herr as [Ht Herr]. apply app_eq_nil in Herr as [Hd Hc].
  split_and!.
  - intros v Hv. rewrite Hv in Ht.
    destruct (notEmpty _) eqn:Hne; [|discriminate].
    destruct (isLength 0 (Some 200) _) eqn:Hlen; [|discriminate].
    split; [by apply notEmpty_true | by apply isLength_max_true].
  - intros d Hdd. rewrite Hdd in Hd.
    destruct (isLength 0 (Some 1000) _) eqn:Hlen; [|discriminate].
    by apply isLength_max_true.
  - intros f Hf. rewrite Hf in Hc.
    by destruct (isBoolean _).
Qed.

(** A boolean-like [completed] always casts. *)
Lemma castBoolean_isBoolean f :
  isBoolean (flagToString f) = true → is_Some (Mongoose.castBoolean f).
Proof.
  destruct f as [b|s]; [by eexists|]. unfold isBoolean, Mongoose.castBoolean. simpl.
  intros Hb.
  destruct (String.eqb s "true"); simpl; [by eexists|].
  destruct (String.eqb s "1"); simpl; [by eexists|].
  destruct (String.eqb s "yes"); simpl; [by eexists|].
  destruct (String.eqb s "false"); simpl; [by eexists|].
  destruct (String.eqb s "0"); simpl; [by eexists|].
  discriminate.
Qed.
End ValidationFacts.

(** ** The task handlers *)

Section TaskFacts.
Import ExpressValidator.

Local Arguments isLength : simpl never.
Local Arguments notEmpty : simpl never.
Local Arguments isBoolean : simpl never.
Local Arguments JS.trim : simpl never.

Lemma findOwnedTask_lookup id owner (c : gmap positive Task.t) :
  findOwnedTask id owner c =
    match c !! id with
    | Some t => if Pos.eqb (Task.user t) owner then Some (id, t) else None
    | None => None
    end.
Proof.
  unfold findOwnedTask.
  by rewrite (findOne_by_id (λ d, Pos.eqb (Task.user d.2) owner)).
Qed.

Lemma findOwnedTask_none id owner db :
  no_owned_task id owner db ↔ findOwnedTask id owner (tasks db) = None.
Proof.
  rewrite findOwnedTask_lookup. unfold no_owned_task. split.
  - intros [-> | (t & -> & Hne)]; [done|].
    by apply Pos.eqb_neq in Hne as ->.
  - destruct (tasks db !! id) as [t|]; [|by left].
    destruct (Pos.eqb_spec (Task.user t) owner); [discriminate|].
    intros _. right. by exists t.
Qed.

Lemma Task_validate_true t :
  Mongoose.Task_validate t = true ↔
    Task.title t ≠ "" ∧ (String.length (Task.title t) ≤ 200)%nat ∧
    (String.length (Task.description t) ≤ 1000)%nat.
Proof.
  unfold Mongoose.Task_validate.
  rewrite !andb_true_iff, !Nat.leb_le.
  change (negb (String.eqb (Task.title t) "")) with (notEmpty (Task.title t)).
  rewrite notEmpty_true. tauto.
Qed.

Lemma or_else_trim (d : option string) :
  JS.trim (JS.or_else (JS.trim <$> d) "") =
    match d with Some d => JS.trim d | None => "" end.
Proof.
  destruct d as [d|]; [|done]. simpl. unfold JS.or_else.
  destruct (String.eqb_spec (JS.trim d) "") as [E|_].
  - by rewrite E.
  - apply trim_idemp.
Qed.

Lemma created_task_ok now owner b :
  valid_task_input b → Task_ok (created_task now owner b).
Proof.
  intros (Hne & Hlen & Hdesc). unfold Task_ok. split_and!.
  - apply trim_trimmed.
  - simpl. destruct (Body.description b); [apply trim_trimmed | apply trimmed_empty].
  - apply Task_validate_true. simpl. split_and!; [done..|].
    destruct (Body.description b) as [d|]; [by apply Hdesc | simpl; lia].
Qed.

(** On a valid input the create handler stores and returns the
    described task under a fresh id. *)
Lemma post_tasks_valid db env u b :
  valid_task_input b →
  post_tasks db env u b =
    let id := fresh (dom (tasks db)) in
    let doc := created_task (now env) u.1 b in
    ({| users := users db; tasks := <[id := doc]> (tasks db) |},
     {| status := 201; json := TaskDoc (id, doc) |}).
Proof.
  intros Hv. unfold post_tasks.
  pose proof (post_validation_valid b Hv) as He.
  rewrite post_validation_unfold in He |- *. simpl in He |- *. rewrite He.
  unfold Mongoose.Task_create.
  rewrite trim_idemp, or_else_trim.
  fold (created_task (now env) u.1 b).
  destruct (created_task_ok (now env) u.1 b Hv) as (_ & _ & ->). done.
Qed.


Lemma fresh_id_unused (c : gmap positive Task.t) : c !! fresh (dom c) = None.
Proof. apply not_elem_of_dom, is_fresh. Qed.

(** On an invalid input the create handler answers 400 with the first
    message and leaves the database alone. *)
Lemma post_tasks_invalid db env u b :
  ¬ valid_task_input b →
  ∃ msg rest, (post_validation b).2 = msg :: rest ∧
              post_tasks db env u b = (db, send 400 msg).
Proof.
  intros Hinv. unfold post_tasks.
  destruct (post_validation b) as [b' errors] eqn:E.
  destruct errors as [|msg rest].
  - exfalso. apply Hinv, post_validation_passed. by rewrite E.
  - by exists msg, rest.
Qed.

(** The conditional assignments on a sanitized payload. *)
Lemma assign_fields_sanitized b task task' :
  assign_fields (put_validation b).1 task = Some task' →
  Task.user task' = Task.user task ∧
  Task.createdAt task' = Task.createdAt task ∧
  Task.updatedAt task' = Task.updatedAt task ∧
  Task.title task' = match Body.title b with
                     | Some v => JS.trim v
                     | None => Task.title task
                     end ∧
  Task.description task' = match Body.description b with
                           | Some d => JS.trim d
                           | None => Task.description task
                           end ∧
  match Body.completed b with
  | Some f => Mongoose.castBoolean f = Some (Task.completed task')
  | None => Task.completed task' = Task.completed task
  end.
Proof.
  rewrite put_validation_unfold. unfold assign_fields. simpl.
  destruct (Body.completed b) as [f|]; simpl.
  - destruct (Mongoose.castBoolean f) as [c|]; simpl; [|discriminate].
    intros [= <-]. simpl.
    destruct (Body.title b), (Body.description b); simpl;
      rewrite ?trim_idemp; done.
  - intros [= <-].
    destruct (Body.title b), (Body.description b); simpl;
      rewrite ?trim_idemp; done.
Qed.

Lemma assign_fields_valid b task :
  valid_update_payload b → is_Some (assign_fields (put_validation b).1 task).
Proof.
  intros (_ & _ & Hc). rewrite put_validation_unfold. unfold assign_fields. simpl.
  destruct (Body.completed b) as [f|]; [|by eexists].
  destruct (castBoolean_isBoolean f (Hc f eq_refl)) as [c ->]. by eexists.
Qed.

Lemma set_updatedAt_validate v t :
  Mongoose.Task_validate (Mongoose.set_updatedAt v t) = Mongoose.Task_validate t.
Proof. done. Qed.

Lemma saved_fields now old doc :
  Task.user (saved now old doc) = Task.user doc ∧
  Task.title (saved now old doc) = Task.title doc ∧
  Task.description (saved now old doc) = Task.description doc ∧
  Task.completed (saved now old doc) = Task.completed doc ∧
  Task.createdAt (saved now old doc) = Task.createdAt doc.
Proof. unfold saved. by destruct (Mongoose.isModified old doc). Qed.

(** An id that fails the cast. *)
Lemma put_tasks_malformed db env u text b :
  (∃ msg rest, (put_validation b).2 = msg :: rest ∧
               put_tasks db env u (Malformed text) b = (db, send 400 msg)) ∨
  ((put_validation b).2 = [] ∧
   put_tasks db env u (Malformed text) b =
     (db, send 500 "Server error while updating task")).
Proof.
  unfold put_tasks. destruct (put_validation b) as [b' [|msg rest]]; simpl.
  - by right.
  - left. by exists msg, rest.
Qed.

(** Validation answers before the parameter is looked at. *)
Lemma put_tasks_rejected db env u (id : Param) b :
  ¬ valid_update_payload b →
  ∃ msg rest, (put_validation b).2 = msg :: rest ∧
              put_tasks db env u id b = (db, send 400 msg).
Proof.
  intros Hinv. unfold put_tasks.
  destruct (put_validation b) as [b' [|msg rest]] eqn:E; simpl.
  - exfalso. apply Hinv, put_validation_passed. by rewrite E.
  - by exists msg, rest.
Qed.

Lemma delete_tasks_malformed db u text :
  delete_tasks db u (Malformed text) = (db, send 500 "Server error while deleting task").
Proof. done. Qed.

(** The update handler, case by case. *)
Lemma put_tasks_cases db env u (id : positive) b :
  (∃ msg rest, (put_validation b).2 = msg :: rest ∧
               put_tasks db env u id b = (db, send 400 msg)) ∨
  ((put_validation b).2 = [] ∧
   findOwnedTask id u.1 (tasks db) = None ∧
   put_tasks db env u id b = (db, send 404 "Task not found")) ∨
  ((put_validation b).2 = [] ∧
   ∃ task, tasks db !! id = Some task ∧ Task.user task = u.1 ∧
     ((put_tasks db env u id b = (db, send 500 "Server error while updating task")) ∨
      (∃ task', assign_fields (put_validation b).1 task = Some task' ∧
         Mongoose.Task_validate task' = true ∧
         put_tasks db env u id b =
           ({| users := users db;
               tasks := <[id := saved (now env) task task']> (tasks db) |},
            {| status := 200;
               json := TaskDoc (id, saved (now env) task task') |})))).
Proof.
  unfold put_tasks.
  destruct (put_validation b) as [b' errors] eqn:E. simpl.
  destruct errors as [|msg rest]; [right | left; by exists msg, rest].
  rewrite findOwnedTask_lookup.
  destruct (tasks db !! id) as [task|] eqn:Hl; [|left; done].
  destruct (Pos.eqb_spec (Task.user task) u.1) as [Hu|Hu]; [|left; done].
  right. split; [done|]. exists task. split_and!; [done..|].
  destruct (assign_fields b' task) as [task'|]; [|by left].
  unfold Mongoose.Task_save.
  destruct (Mongoose.Task_validate task') eqn:Hv; [|by left].
  right. exists task'. done.
Qed.

(** A valid payload on an owned, schema-valid task is applied. *)
Lemma put_tasks_valid db env u (id : positive) b task :
  tasks db !! id = Some task → Task.user task = u.1 →
  Mongoose.Task_validate task = true →
  valid_update_payload b →
  ∃ task', assign_fields (put_validation b).1 task = Some task' ∧
    put_tasks db env u id b =
      ({| users := users db;
          tasks := <[id := saved (now env) task task']> (tasks db) |},
       {| status := 200; json := TaskDoc (id, saved (now env) task task') |}).
Proof.
  intros Hl Hu Hv Hp.
  destruct (assign_fields_valid b task Hp) as [task' Ha].
  exists task'. split; [done|].
  pose proof (put_validation_valid b Hp) as He.
  unfold put_tasks.
  destruct (put_validation b) as [b' errors] eqn:E. simpl in *. subst errors.
  rewrite findOwnedTask_lookup, Hl.
  apply Pos.eqb_eq in Hu as ->. rewrite Ha.
  unfold Mongoose.Task_save.
  assert (Mongoose.Task_validate task' = true) as ->; [|done].
  pose proof (assign_fields_sanitized b task task') as Hf.
  rewrite E in Hf. simpl in Hf.
  destruct (Hf Ha) as (_ & _ & _ & Ht & Hd & _).
  apply Task_validate_true in Hv as (Hv1 & Hv2 & Hv3).
  destruct Hp as (Hpt & Hpd & _).
  apply Task_validate_true. rewrite Ht, Hd. split_and!.
  - destruct (Body.title b) as [v|]; [by apply Hpt | done].
  - destruct (Body.title b) as [v|]; [by apply Hpt | done].
  - destruct (Body.description b) as [d|]; [by apply Hpd | done].
Qed.

Lemma delete_tasks_cases db u id :
  (findOwnedTask id u.1 (tasks db) = None ∧
   delete_tasks db u id = (db, send 404 "Task not found")) ∨
  (∃ task, tasks db !! id = Some task ∧ Task.user task = u.1 ∧
     delete_tasks db u id =
       ({| users := users db; tasks := delete id (tasks db) |},
        send 200 "Task deleted successfully")).
Proof.
  unfold delete_tasks. cbn [Mongoose.castObjectId]. rewrite findOwnedTask_lookup.
  destruct (tasks db !! id) as [task|] eqn:Hl; [|by left].
  destruct (Pos.eqb_spec (Task.user task) u.1) as [Hu|Hu]; [|by left].
  right. by exists task.
Qed.

Lemma post_tasks_cases db env u b :
  (¬ valid_task_input b ∧
   ∃ msg rest, (post_validation b).2 = msg :: rest ∧
               post_tasks db env u b = (db, send 400 msg)) ∨
  (valid_task_input b ∧
   post_tasks db env u b =
     ({| users := users db;
         tasks := <[fresh (dom (tasks db)) := created_task (now env) u.1 b]> (tasks db) |},
      {| status := 201;
         json := TaskDoc (fresh (dom (tasks db)), created_task (now env) u.1 b) |})).
Proof.
  destruct (post_validation b).2 as [|msg rest] eqn:E.
  - right. apply post_validation_passed in E. split; [done|].
    by apply post_tasks_valid.
  - left. assert (¬ valid_task_input b) as Hinv.
    { intros Hv%post_validation_valid. congruence. }
    split; [done|]. destruct (post_tasks_invalid db env u b Hinv) as (m & r & Hm & Hp).
    rewrite E in Hm. exists m, r. done.
Qed.

(** *** The schema invariant of the task collection *)

Lemma saved_ok now old doc : Task_ok doc → Task_ok (saved now old doc).
Proof. unfold saved. by destruct (Mongoose.isModified old doc). Qed.

Lemma post_tasks_ok db env u b : db_ok db → db_ok (post_tasks db env u b).1.
Proof.
  intros Hok.
  destruct (post_tasks_cases db env u b) as [(_ & m & r & _ & ->) | (Hv & ->)]; [done|].
  intros id t. simpl. rewrite lookup_insert. case_decide.
  - intros [= <-]. by apply created_task_ok.
  - apply Hok.
Qed.

Lemma put_tasks_ok db env u id b : db_ok db → db_ok (put_tasks db env u id b).1.
Proof.
  intros Hok. destruct id as [id|text];
    [|by destruct (put_tasks_malformed db env u text b) as [(m & r & _ & ->) | (_ & ->)]].
  destruct (put_tasks_cases db env u id b)
    as [(m & r & _ & ->) | [(_ & _ & ->) | (_ & task & Hl & _ & [-> | (task' & Ha & Hv & ->)])]];
    [done..|].
  intros k t. simpl. rewrite lookup_insert. case_decide; [|apply Hok].
  intros [= <-]. apply saved_ok.
  destruct (assign_fields_sanitized b task task' Ha) as (_ & _ & _ & Ht & Hd & _).
  destruct (Hok id task Hl) as (Htt & Htd & _).
  unfold Task_ok. rewrite Ht, Hd. split_and!; [| |done].
  - destruct (Body.title b); [apply trim_trimmed | done].
  - destruct (Body.description b); [apply trim_trimmed | done].
Qed.

Lemma delete_tasks_ok db u id : db_ok db → db_ok (delete_tasks db u id).1.
Proof.
  intros Hok. destruct id as [id|text]; [|done].
  destruct (delete_tasks_cases db u id) as [(_ & ->) | (task & _ & _ & ->)]; [done|].
  intros k t. simpl. rewrite lookup_delete. case_decide; [done|]. apply Hok.
Qed.
End TaskFacts.

(** ** The authentication handlers *)

Section AuthFacts.
Context `{Validator, Bcrypt, Jsonwebtoken, Platform}.
Import ExpressValidator.

Local Arguments isLength : simpl never.
Local Arguments notEmpty : simpl never.
Local Arguments JS.trim : simpl never.

Lemma register_validation_unfold b :
  register_validation b =
    (Body.mk (Some (JS.trim (toString (Body.username b))))
             (Some (normalizeEmail (toString (Body.email b))))
             (Body.password b) (Body.title b) (Body.description b)
             (Body.completed b) (Body.user b),
     (if isLength 3 None (JS.trim (toString (Body.username b))) then []
      else ["Username must be at least 3 characters long"]) ++
     (if isEmail (toString (Body.email b)) then []
      else ["Please provide a valid email"]) ++
     (if isLength 6 None (toString (Body.password b)) then []
      else ["Password must be at least 6 characters long"]))%list.
Proof.
  unfold register_validation.
  destruct b as [[u|] [e|] [p|] t d c o]; simpl;
    repeat match goal with |- context [if ?x then _ else _] => destruct x end;
    reflexivity.
Qed.

Lemma register_validation_valid b :
  valid_registration b ↔ (register_validation b).2 = [].
Proof.
  rewrite register_validation_unfold. simpl. unfold valid_registration.
  rewrite <- !isLength_min_true.
  destruct (isLength 3 None _), (isEmail _), (isLength 6 None _); simpl;
    split; try done; intros (? & ? & ?); done.
Qed.

Lemma login_validation_unfold b :
  login_validation b =
    (Body.mk (Body.username b)
             (Some (normalizeEmail (toString (Body.email b))))
             (Body.password b) (Body.title b) (Body.description b)
             (Body.completed b) (Body.user b),
     (if isEmail (toString (Body.email b)) then []
      else ["Please provide a valid email"]) ++
     (if notEmpty (toString (Body.password b)) then []
      else ["Password is required"]))%list.
Proof.
  unfold login_validation.
  destruct b as [u [e|] [p|] t d c o]; simpl;
    repeat match goal with |- context [if ?x then _ else _] => destruct x end;
    reflexivity.
Qed.

Lemma login_validation_valid b :
  valid_login b ↔ (login_validation b).2 = [].
Proof.
  rewrite login_validation_unfold. simpl. unfold valid_login.
  rewrite <- notEmpty_true.
  destruct (isEmail _), (notEmpty _); simpl; split; try done; intros (? & ?); done.
Qed.

(** Lookups by e-mail and by username. *)
Lemma User_findOne_email_None e (c : gmap positive User.t) :
  Mongoose.User_findOne_email e c = None ↔
    ∀ id u, c !! id = Some u → User.email u ≠ Mongoose.email_setter e.
Proof.
  unfold Mongoose.User_findOne_email. split.
  - intros Hnone id u Hl Heq.
    pose proof (findOne_None _ _ _ _ Hnone Hl) as Hf. simpl in Hf.
    rewrite Heq, String.eqb_refl in Hf. discriminate.
  - intros Hall. apply findOne_None_intro. intros id u Hl. simpl.
    apply String.eqb_neq. by apply (Hall id).
Qed.

Lemma User_findOne_email_Some e (c : gmap positive User.t) d :
  Mongoose.User_findOne_email e c = Some d →
  c !! d.1 = Some d.2 ∧ User.email d.2 = Mongoose.email_setter e.
Proof.
  unfold Mongoose.User_findOne_email. intros [Hl Hf]%findOne_Some.
  split; [done|]. by apply String.eqb_eq.
Qed.

Lemma User_findOne_username_None n (c : gmap positive User.t) :
  Mongoose.User_findOne_username n c = None ↔
    ∀ id u, c !! id = Some u → User.username u ≠ JS.trim n.
Proof.
  unfold Mongoose.User_findOne_username. split.
  - intros Hnone id u Hl Heq.
    pose proof (findOne_None _ _ _ _ Hnone Hl) as Hf. simpl in Hf.
    rewrite Heq, String.eqb_refl in Hf. discriminate.
  - intros Hall. apply findOne_None_intro. intros id u Hl. simpl.
    apply String.eqb_neq. by apply (Hall id).
Qed.

Lemma email_taken_found b db :
  email_taken (email_key b) db ↔
    is_Some (Mongoose.User_findOne_email (normalizeEmail (toString (Body.email b)))
                                         (users db)).
Proof.
  unfold email_taken, email_key. split.
  - intros (id & u & Hl & He).
    destruct (Mongoose.User_findOne_email _ _) eqn:E; [by eexists|].
    exfalso. by eapply User_findOne_email_None.
  - intros [d Hd]. apply User_findOne_email_Some in Hd as [Hl He].
    by exists d.1, d.2.
Qed.

Lemma username_taken_found n db :
  username_taken (JS.trim n) db ↔
    is_Some (Mongoose.User_findOne_username n (users db)).
Proof.
  unfold username_taken. split.
  - intros (id & u & Hl & He).
    destruct (Mongoose.User_findOne_username _ _) eqn:E; [by eexists|].
    exfalso. by eapply User_findOne_username_None.
  - intros [d Hd]. unfold Mongoose.User_findOne_username in Hd.
    apply findOne_Some in Hd as [Hl Hf]. simpl in Hf.
    apply String.eqb_eq in Hf. by exists d.1, d.2.
Qed.

(** Neither authentication handler touches the tasks; login touches
    nothing. *)
Lemma register_tasks db env b : tasks (register db env b).1 = tasks db.
Proof.
  unfold register. destruct (register_validation b) as [b' errors].
  destruct errors; [|done].
  destruct (Mongoose.User_findOne_email _ _); [done|].
  destruct (Mongoose.User_findOne_username _ _); [done|].
  destruct (Body.password b'); [|done].
  destruct (Mongoose.User_create _ _ _ _ _) as [[users' [id user]]|]; done.
Qed.

Lemma login_db db env b : (login db env b).1 = db.
Proof.
  unfold login. destruct (login_validation b) as [b' errors].
  destruct errors; [|done].
  destruct (Mongoose.User_findOne_email _ _) as [[id user]|]; [|done].
  destruct (Body.password b'), (User.password user); try done.
  by destruct (negb _).
Qed.

Lemma reachable_ok db : reachable db → db_ok db.
Proof.
  induction 1 as [|db env r Hr IH]; [intros id t; simpl; by rewrite lookup_empty|].
  destruct r as [b|b|a|a b|a id b|a id]; simpl.
  - intros id t. rewrite register_tasks. apply IH.
  - by rewrite login_db.
  - unfold protected. by destruct (protect db env a).
  - unfold protected. destruct (protect db env a); [done|]. by apply post_tasks_ok.
  - unfold protected. destruct (protect db env a); [done|]. by apply put_tasks_ok.
  - unfold protected. destruct (protect db env a); [done|]. by apply delete_tasks_ok.
Qed.
End AuthFacts.

(** ** Listing *)

Section ListFacts.

Lemma sort_createdAt_desc_perm l : Mongoose.sort_createdAt_desc l ≡ₚ l.
Proof. apply merge_sort_Permutation. Qed.

Lemma sort_createdAt_desc_sorted l :
  StronglySorted Mongoose.newer_first (Mongoose.sort_createdAt_desc l).
Proof. apply StronglySorted_merge_sort; apply _. Qed.

(** In a list sorted newest first, an element strictly newer than every
    other one is at the head. *)
Lemma newest_is_head (l : list (positive * Task.t)) d :
  StronglySorted Mongoose.newer_first l → d ∈ l →
  (∀ d', d' ∈ l → d' ≠ d → (Task.createdAt d'.2 < Task.createdAt d.2)%Z) →
  ∃ rest, l = d :: rest.
Proof.
  intros Hs Hin Hnew. destruct l as [|y rest]; [by apply elem_of_nil in Hin|].
  exists rest. f_equal.
  destruct (decide (y = d)) as [|Hne]; [done|exfalso].
  apply StronglySorted_cons in Hs as [Hall _].
  apply elem_of_cons in Hin as [->|Hin]; [done|].
  rewrite Forall_forall in Hall. specialize (Hall d Hin).
  unfold Mongoose.newer_first in Hall.
  assert (y ∈ y :: rest) as Hy by (apply elem_of_cons; by left).
  specialize (Hnew y Hy Hne). lia.
Qed.

Lemma get_tasks_docs db u :
  get_tasks db u =
    (db, {| status := 200;
            json := TaskDocs (Mongoose.sort_createdAt_desc
                      (Mongoose.find (λ d, Pos.eqb (Task.user d.2) u.1) (tasks db))) |}).
Proof. done. Qed.

Lemma elem_of_listed db (u : positive * User.t) d :
  d ∈ Mongoose.sort_createdAt_desc
        (Mongoose.find (λ d, Pos.eqb (Task.user d.2) u.1) (tasks db)) ↔
  tasks db !! d.1 = Some d.2 ∧ Task.user d.2 = u.1.
Proof.
  rewrite sort_createdAt_desc_perm, elem_of_find.
  by rewrite Pos.eqb_eq.
Qed.
End ListFacts.

(** * The claims *)

(** ** Ownership-scoped update and delete *)

Section TaskClaims.
Import ExpressValidator.

(** C1 (as amended). For every identity and every task id that spells
    an [ObjectId], [delete] and every [update] whose payload passes the
    route's validation resolve the task by one lookup filtered on both
    the id and the owner, and answer 404 "Task not found" when nothing
    matches: in the same way when no task has the id and when the task
    with the id belongs to someone else, and without changing the
    database. An update whose payload fails validation is answered 400
    before the lookup, whatever the id, also without changing the
    database. For a parameter that does not spell an [ObjectId] the
    lookup throws on the cast, and the answer is that of the [catch]:
    500 "Server error while deleting task", or, for an update whose
    payload passes validation, 500 "Server error while updating task";
    nothing changes. *)
Theorem scoped_lookup_not_found db env (u : positive * User.t) id :
  no_owned_task id u.1 db →
  findOwnedTask id u.1 (tasks db) = None ∧
  delete_tasks db u id = (db, send 404 "Task not found") ∧
  (∀ b, valid_update_payload b →
        put_tasks db env u id b = (db, send 404 "Task not found")) ∧
  (∀ b, ¬ valid_update_payload b →
        ∃ msg, put_tasks db env u id b = (db, send 400 msg)) ∧
  (∀ text,
     delete_tasks db u (Malformed text)
       = (db, send 500 "Server error while deleting task") ∧
     (∀ b, valid_update_payload b →
           put_tasks db env u (Malformed text) b
             = (db, send 500 "Server error while updating task")) ∧
     (∀ b, ¬ valid_update_payload b →
           ∃ msg, put_tasks db env u (Malformed text) b = (db, send 400 msg))).
Proof.
  intros Hno. apply findOwnedTask_none in Hno.
  assert (∀ text,
     delete_tasks db u (Malformed text)
       = (db, send 500 "Server error while deleting task") ∧
     (∀ b, valid_update_payload b →
           put_tasks db env u (Malformed text) b
             = (db, send 500 "Server error while updating task")) ∧
     (∀ b, ¬ valid_update_payload b →
           ∃ msg, put_tasks db env u (Malformed text) b = (db, send 400 msg)))
    as Hmalformed.
  { intros text. split_and!; [done| |].
    - intros b Hv. apply put_validation_valid in Hv.
      destruct (put_tasks_malformed db env u text b) as [(m & r & He & _) | (_ & ->)];
        [congruence | done].
    - intros b Hinv.
      destruct (put_tasks_malformed db env u text b) as [(m & r & _ & ->) | (He & _)];
        [by exists m|]. exfalso. by apply Hinv, put_validation_passed. }
  split_and!; [done| | | |exact Hmalformed].
  - destruct (delete_tasks_cases db u id) as [[_ ->] | (task & Hl & Hu & _)]; [done|].
    rewrite findOwnedTask_lookup, Hl in Hno.
    apply Pos.eqb_eq in Hu. rewrite Hu in Hno. discriminate.
  - intros b Hv. apply put_validation_valid in Hv.
    destruct (put_tasks_cases db env u id b)
      as [(m & r & He & _) | [(_ & _ & ->) | (_ & task & Hl & Hu & _)]]; [congruence|done|].
    rewrite findOwnedTask_lookup, Hl in Hno.
    apply Pos.eqb_eq in Hu. rewrite Hu in Hno. discriminate.
  - intros b Hinv.
    destruct (put_tasks_cases db env u id b)
      as [(m & r & _ & ->) | [(He & _) | (He & _)]]; [by exists m| |];
      exfalso; by apply Hinv, put_validation_passed.
Qed.

(** Ann asks for task 2, which is Bob's, for task 9, which nobody has,
    and for the task "abc". *)
Lemma scoped_lookup_not_found_witness :
  (no_owned_task 2 Sample.req_ann.1 Sample.db ∧
   (delete_tasks Sample.db Sample.req_ann 2).2 = send 404 "Task not found") ∧
  (no_owned_task 9 Sample.req_ann.1 Sample.db ∧
   (delete_tasks Sample.db Sample.req_ann 9).2 = send 404 "Task not found") ∧
  delete_tasks Sample.db Sample.req_ann (Malformed "abc")
    = (Sample.db, send 500 "Server error while deleting task").
Proof.
  assert (no_owned_task 2 Sample.req_ann.1 Sample.db) as H2.
  { right. exists Sample.rent. split; [reflexivity | discriminate]. }
  assert (no_owned_task 9 Sample.req_ann.1 Sample.db) as H9.
  { left. reflexivity. }
  split; [|split]; [split; [assumption|] | split; [assumption|] |].
  - destruct (scoped_lookup_not_found Sample.db Sample.env Sample.req_ann 2 H2)
      as (_ & -> & _). reflexivity.
  - destruct (scoped_lookup_not_found Sample.db Sample.env Sample.req_ann 9 H9)
      as (_ & -> & _). reflexivity.
  - destruct (scoped_lookup_not_found Sample.db Sample.env Sample.req_ann 9 H9)
      as (_ & _ & _ & _ & Hmal). apply (Hmal "abc").
Defined.

(** C1 as stated fails: Ann updates Bob's task 2 with an empty title.
    No task matches the scoped lookup, yet the answer is the validation
    error, not 404. And Ann deletes the task "abc": no task has that id,
    yet the answer is 500, not 404. *)
Lemma update_not_found_counterexample :
  let b := Body.mk None None None (Some "") None None None in
  no_owned_task 2 Sample.req_ann.1 Sample.db ∧
  put_tasks Sample.db Sample.env Sample.req_ann 2 b
    = (Sample.db, send 400 "Title cannot be empty") ∧
  put_tasks Sample.db Sample.env Sample.req_ann 2 b
    ≠ (Sample.db, send 404 "Task not found") ∧
  delete_tasks Sample.db Sample.req_ann (Malformed "abc")
    = (Sample.db, send 500 "Server error while deleting task") ∧
  delete_tasks Sample.db Sample.req_ann (Malformed "abc")
    ≠ (Sample.db, send 404 "Task not found").
Proof.
  simpl. split_and!.
  - right. exists Sample.rent. split; [reflexivity | discriminate].
  - reflexivity.
  - discriminate.
  - reflexivity.
  - discriminate.
Qed.
End TaskClaims.

(** ** Creating a task *)

Section CreateClaims.
Import ExpressValidator.



(** C8 (as amended). [create] answers 400 with the message of the first
    violated constraint, and stores nothing, whenever the title is empty
    after trimming, the trimmed title is longer than 200 characters, or
    a supplied description is longer than 1000 characters after
    trimming. *)
Theorem create_rejects_invalid db env (u : positive * User.t) b :
  JS.trim (toString (Body.title b)) = "" ∨
  (200 < String.length (JS.trim (toString (Body.title b))))%nat ∨
  (∃ d, Body.description b = Some d ∧ (1000 < String.length (JS.trim d))%nat) →
  ∃ msg,
    post_tasks db env u b = (db, send 400 msg) ∧
    (JS.trim (toString (Body.title b)) = "" → msg = "Task title is required") ∧
    (JS.trim (toString (Body.title b)) ≠ "" →
     (200 < String.length (JS.trim (toString (Body.title b))))%nat →
     msg = "Title cannot exceed 200 characters") ∧
    (JS.trim (toString (Body.title b)) ≠ "" →
     (String.length (JS.trim (toString (Body.title b))) ≤ 200)%nat →
     msg = "Description cannot exceed 1000 characters").
Proof.
  intros Hbad.
  assert (¬ valid_task_input b) as Hinv.
  { intros (Hne & Hlen & Hd). destruct Hbad as [E | [Hl | (d & Hdd & Hl)]].
    - done.
    - lia.
    - specialize (Hd d Hdd). lia. }
  destruct (post_tasks_invalid db env u b Hinv) as (msg & rest & Herr & Hp).
  exists msg. split; [done|].
  rewrite post_validation_unfold in Herr. simpl in Herr.
  destruct (notEmpty (JS.trim (toString (Body.title b)))) eqn:Hne.
  - apply notEmpty_true in Hne.
    destruct (isLength 0 (Some 200) (JS.trim (toString (Body.title b)))) eqn:Hlen.
    + apply isLength_max_true in Hlen. simpl in Herr.
      destruct Hbad as [E | [Hl | (d & Hdd & Hl)]]; [done | lia |].
      rewrite Hdd in Herr. apply isLength_max_false in Hl. rewrite Hl in Herr.
      injection Herr as <- _. split_and!; [done | lia | done].
    + apply isLength_max_false in Hlen. simpl in Herr. injection Herr as <- _.
      split_and!; [done | done | lia].
  - apply notEmpty_false in Hne. simpl in Herr. injection Herr as <- _.
    split_and!; done.
Qed.

(** An empty title, a title of 201 letters and a description of 1001. *)
Lemma create_rejects_invalid_witness :
  (post_tasks Sample.db Sample.env Sample.req_ann
     (Body.mk None None None (Some "") None None None)
   = (Sample.db, send 400 "Task title is required")) ∧
  (post_tasks Sample.db Sample.env Sample.req_ann
     (Body.mk None None None (Some (Sample.repeat "x" 201)) None None None)
   = (Sample.db, send 400 "Title cannot exceed 200 characters")) ∧
  (post_tasks Sample.db Sample.env Sample.req_ann
     (Body.mk None None None (Some "Buy milk") (Some (Sample.repeat "y" 1001)) None None)
   = (Sample.db, send 400 "Description cannot exceed 1000 characters")).
Proof.
  split_and!.
  - destruct (create_rejects_invalid Sample.db Sample.env Sample.req_ann
                (Body.mk None None None (Some "") None None None))
      as (msg & Hp & H1 & _).
    { left. reflexivity. }
    rewrite Hp, H1; reflexivity.
  - destruct (create_rejects_invalid Sample.db Sample.env Sample.req_ann
                (Body.mk None None None (Some (Sample.repeat "x" 201)) None None None))
      as (msg & Hp & _ & H2 & _).
    { right. left. vm_compute. lia. }
    rewrite Hp, H2; [reflexivity | vm_compute; discriminate | vm_compute; lia].
  - destruct (create_rejects_invalid Sample.db Sample.env Sample.req_ann
                (Body.mk None None None (Some "Buy milk")
                         (Some (Sample.repeat "y" 1001)) None None))
      as (msg & Hp & _ & _ & H3).
    { right. right. eexists. split; [reflexivity | vm_compute; lia]. }
    rewrite Hp, H3; [reflexivity | vm_compute; discriminate | vm_compute; lia].
Defined.

(** C8 as stated fails: a title of 201 characters, 199 letters followed
    by two spaces, exceeds 200 characters and is accepted, because the
    length is checked after trimming. *)
Lemma create_long_title_counterexample :
  let title := (Sample.repeat "x" 199 ++ "  ")%string in
  let b := Body.mk None None None (Some title) None None None in
  String.length title = 201%nat ∧
  status (post_tasks Sample.db Sample.env Sample.req_ann b).2 = 201%nat ∧
  tasks (post_tasks Sample.db Sample.env Sample.req_ann b).1 !! 3%positive
    = Some (created_task (now Sample.env) 1 b) ∧
  Task.title (created_task (now Sample.env) 1 b) = Sample.repeat "x" 199.
Proof. vm_compute. split_and!; reflexivity. Qed.
End CreateClaims.

(** ** Updating a task *)

Section UpdateClaims.
Context `{Validator, Bcrypt, Jsonwebtoken, Platform}.
Import ExpressValidator.

End UpdateClaims.

(** ** Listing tasks *)

Section ListClaims.

(** C4 (as amended). For every identity, [list] returns exactly the
    tasks the caller owns, each once, newest first. Consequently, when a
    valid [create] happens at an instant later than the creation of
    every task the caller already has, the next [list] has the created
    task as its first element, with the title and description it was
    stored with: the submitted ones without their surrounding
    whitespace, the description empty when none was sent. *)
Theorem list_own_tasks_newest_first db (u : positive * User.t) :
  (∃ docs,
     get_tasks db u = (db, {| status := 200; json := TaskDocs docs |}) ∧
     (∀ d, d ∈ docs ↔ tasks db !! d.1 = Some d.2 ∧ Task.user d.2 = u.1) ∧
     NoDup docs ∧
     StronglySorted Mongoose.newer_first docs) ∧
  (∀ env b,
     valid_task_input b →
     (∀ id t, tasks db !! id = Some t → Task.user t = u.1 →
              (Task.createdAt t < now env)%Z) →
     ∃ doc rest,
       (post_tasks db env u b).2 = {| status := 201; json := TaskDoc doc |} ∧
       (get_tasks (post_tasks db env u b).1 u).2 =
         {| status := 200; json := TaskDocs (doc :: rest) |} ∧
       Task.title doc.2 = JS.trim (ExpressValidator.toString (Body.title b)) ∧
       Task.description doc.2 = match Body.description b with
                                | Some d => JS.trim d
                                | None => ""
                                end).
Proof.
  split.
  - eexists. split; [apply get_tasks_docs|]. split_and!.
    + apply elem_of_listed.
    + rewrite sort_createdAt_desc_perm. apply NoDup_find.
    + apply sort_createdAt_desc_sorted.
  - intros env b Hv Hclock.
    rewrite (post_tasks_valid db env u b Hv). cbv zeta. simpl fst. simpl snd.
    set (id := fresh (dom (tasks db))).
    set (doc := created_task (now env) u.1 b).
    set (db' := {| users := users db; tasks := <[id := doc]> (tasks db) |}).
    destruct (newest_is_head
                (Mongoose.sort_createdAt_desc
                   (Mongoose.find (λ d, Pos.eqb (Task.user d.2) u.1) (tasks db')))
                (id, doc)) as [rest Hrest].
    + apply sort_createdAt_desc_sorted.
    + apply elem_of_listed. simpl. split; [apply lookup_insert_eq | done].
    + intros d' [Hl' Hu']%elem_of_listed Hne. simpl in Hl'.
      rewrite lookup_insert in Hl'. case_decide as Hid.
      * exfalso. apply Hne. destruct d' as [k t]. simpl in *. congruence.
      * simpl. by apply (Hclock d'.1).
    + exists (id, doc), rest. split_and!; [done| |done|done].
      by rewrite <- Hrest.
Qed.

(** Ann creates " Walk dog " after "Buy milk"; her list then starts with
    "Walk dog". *)
Lemma list_own_tasks_newest_first_witness :
  let b := Body.mk None None None (Some " Walk dog ") None None None in
  ∃ doc rest,
    (get_tasks (post_tasks Sample.db Sample.env Sample.req_ann b).1 Sample.req_ann).2 =
      {| status := 200; json := TaskDocs (doc :: rest) |} ∧
    Task.title doc.2 = "Walk dog".
Proof.
  simpl.
  destruct (list_own_tasks_newest_first Sample.db Sample.req_ann) as [_ Hcreate].
  destruct (Hcreate Sample.env
              (Body.mk None None None (Some " Walk dog ") None None None))
    as (doc & rest & _ & Hlist & Ht & _).
  - split_and!; [vm_compute; discriminate | vm_compute; lia | discriminate].
  - intros id t Hl Hu. unfold Sample.db in Hl. simpl in Hl.
    rewrite lookup_insert in Hl. case_decide.
    { injection Hl as <-. reflexivity. }
    rewrite lookup_insert in Hl. case_decide.
    { injection Hl as <-. discriminate Hu. }
    rewrite lookup_empty in Hl. discriminate.
  - exists doc, rest. split; [exact Hlist | exact Ht].
Defined.
End ListClaims.

(** ** Login and registration *)

Section AuthClaims.
Context `{Validator, Bcrypt, Jsonwebtoken, Platform}.
Import ExpressValidator.

Local Arguments isLength : simpl never.
Local Arguments notEmpty : simpl never.
Local Arguments JS.trim : simpl never.

Lemma login_valid_unfold db env b :
  valid_login b →
  ∃ password, Body.password b = Some password ∧
    login db env b =
      match Mongoose.User_findOne_email (normalizeEmail (toString (Body.email b)))
                                        (users db) with
      | None => (db, send 401 "Invalid email or password")
      | Some (id, user) =>
          match User.password user with
          | Some hash =>
              if negb (bcrypt_compare password hash) then
                (db, send 401 "Invalid email or password")
              else
                (db, {| status := 200;
                        json := Session "Login successful"
                                        (jwt_sign id JWT_SECRET (now env)) id
                                        (User.username user) (User.email user) |})
          | None => (db, send 500 "Server error during login")
          end
      end.
Proof.
  intros Hv. pose proof Hv as [_ Hp].
  destruct (Body.password b) as [password|] eqn:Epw; [|done].
  exists password. split; [done|].
  apply login_validation_valid in Hv.
  unfold login. rewrite login_validation_unfold in Hv |- *. simpl in Hv |- *.
  rewrite Hv, Epw. done.
Qed.

Lemma login_unknown_email db env b :
  valid_login b → ¬ email_taken (email_key b) db →
  login db env b = (db, send 401 "Invalid email or password").
Proof.
  intros Hv Hnone.
  destruct (login_valid_unfold db env b Hv) as (password & Epw & ->).
  destruct (Mongoose.User_findOne_email _ _) as [[id user]|] eqn:E; [|done].
  exfalso. apply Hnone, email_taken_found. by eexists.
Qed.

(** C2 (as amended). A login whose e-mail is well-formed and whose
    password is not empty fails with status 401 and the one message
    "Invalid email or password" both when no identity has the e-mail and
    when one has it but the password does not verify against its hash;
    the database is not changed. *)
Theorem login_failures_indistinguishable db env b :
  valid_login b →
  (¬ email_taken (email_key b) db) ∨
  (email_taken (email_key b) db ∧
   ∀ id u, users db !! id = Some u → User.email u = email_key b →
           ∃ hash, User.password u = Some hash ∧
                   bcrypt_compare (toString (Body.password b)) hash = false) →
  login db env b = (db, send 401 "Invalid email or password").
Proof.
  intros Hv [Hnone | [_ Hbad]]; [by apply login_unknown_email|].
  destruct (login_valid_unfold db env b Hv) as (password & Epw & ->).
  destruct (Mongoose.User_findOne_email _ _) as [[id user]|] eqn:E; [|done].
  apply User_findOne_email_Some in E as [Hl He]. simpl in *.
  destruct (Hbad id user Hl He) as (hash & -> & Hcmp).
  rewrite Epw in Hcmp. simpl in Hcmp. by rewrite Hcmp.
Qed.

(** C9. Login checks the shape of the e-mail before any credential: a
    request whose e-mail is not well-formed is answered 400 "Please
    provide a valid email", whatever else it carries, while a
    well-formed request whose e-mail no identity has is answered 401
    "Invalid email or password"; the two answers differ. *)
Theorem login_rejects_malformed_email db env b :
  isEmail (toString (Body.email b)) = false →
  login db env b = (db, send 400 "Please provide a valid email") ∧
  (∀ b', valid_login b' → ¬ email_taken (email_key b') db →
         login db env b' = (db, send 401 "Invalid email or password")) ∧
  send 400 "Please provide a valid email" ≠ send 401 "Invalid email or password".
Proof.
  intros Hbad. split_and!.
  - unfold login. rewrite login_validation_unfold. simpl. by rewrite Hbad.
  - intros b' Hv Hnone. by apply login_unknown_email.
  - discriminate.
Qed.

Lemma register_valid_unfold db env b :
  valid_registration b →
  register db env b =
    match Mongoose.User_findOne_email (normalizeEmail (toString (Body.email b)))
                                      (users db) with
    | Some _ => (db, send 400 "User already exists with this email")
    | None =>
        match Mongoose.User_findOne_username (JS.trim (toString (Body.username b)))
                                             (users db) with
        | Some _ => (db, send 400 "Username already taken")
        | None => register db env b
        end
    end.
Proof.
  intros Hv. apply register_validation_valid in Hv.
  unfold register at 1. rewrite register_validation_unfold in Hv |- *.
  simpl in Hv |- *. rewrite Hv.
  destruct (Mongoose.User_findOne_email _ _) eqn:Ee; [done|].
  destruct (Mongoose.User_findOne_username _ _) eqn:Eu; [done|].
  unfold register. rewrite register_validation_unfold. simpl. rewrite Hv.
  simpl. by rewrite Ee, Eu.
Qed.

(** C7 (as amended). A registration whose fields pass validation fails
    with the conflict message of the e-mail when an identity already has
    that e-mail, whether or not the username is taken too, and with the
    conflict message of the username when no identity has the e-mail but
    one has the username; both checks are queries of their own, the
    e-mail first, and on either failure no identity is stored. *)
Theorem register_conflicts db env b :
  valid_registration b →
  (email_taken (email_key b) db →
   register db env b = (db, send 400 "User already exists with this email")) ∧
  (¬ email_taken (email_key b) db →
   username_taken (JS.trim (toString (Body.username b))) db →
   register db env b = (db, send 400 "Username already taken")).
Proof.
  intros Hv. rewrite (register_valid_unfold db env b Hv). split.
  - intros [d ->]%email_taken_found. done.
  - intros Hfree Htaken.
    destruct (Mongoose.User_findOne_email _ _) eqn:Ee.
    { exfalso. apply Hfree, email_taken_found. by eexists. }
    rewrite <- (trim_idemp (toString (Body.username b))) in Htaken.
    apply username_taken_found in Htaken as [d ->]. done.
Qed.
End AuthClaims.

(** ** The [protect] middleware *)

Section ProtectClaims.
Context `{Validator, Bcrypt, Jsonwebtoken, Platform}.

Lemma jwt_verify_rejected token now :
  token_rejected token now → ∃ e, jwt_verify token JWT_SECRET now = Rejected e.
Proof.
  unfold jwt_verify.
  intros [-> | (t & -> & Hwhy)]; [by eexists|].
  destruct (String.eqb_spec t "") as [|Hne]; [by eexists|].
  destruct Hwhy as [? | [-> | [Hsig | (p & e & -> & He & Hexp)]]]; [done|by eexists| |].
  - destruct (jwt_decode t); [|by eexists]. rewrite Hsig. by eexists.
  - destruct (jwt_signature_valid t JWT_SECRET); simpl; [|by eexists].
    rewrite He. apply Z.leb_le in Hexp. rewrite Hexp. by eexists.
Qed.

Lemma jwt_verify_accepted token now p :
  token_accepted token now p → jwt_verify token JWT_SECRET now = Resolved p.
Proof.
  intros (t & -> & Hne & Hd & Hsig & Hexp). unfold jwt_verify.
  apply String.eqb_neq in Hne. rewrite Hne, Hd, Hsig. simpl.
  destruct (Jwt.exp p) as [e|]; [|done].
  specialize (Hexp e eq_refl). apply Z.leb_gt in Hexp. by rewrite Hexp.
Qed.

(** C3. For every request that presents a token in a Bearer header:
    [protect] answers 401 "Not authorized, token failed" when the token
    is missing from the header or malformed, when its signature is
    invalid, or when its expiry instant is reached, however valid the
    signature; when the token verifies but no identity has the id it
    carries, the answer is 401 "User not found"; otherwise [protect]
    yields that identity without its password hash. The route handler
    runs only in the last case: in the others the response is the one of
    [protect] and the database is untouched. *)
Theorem protect_validates_token db env header :
  JS.startsWith header "Bearer" = true →
  (token_rejected (JS.split " " header !! 1%nat) (now env) →
   protect db env (Some header) = inl (send 401 "Not authorized, token failed")) ∧
  (∀ p, token_accepted (JS.split " " header !! 1%nat) (now env) p →
        users db !! Jwt.id p = None →
        protect db env (Some header) = inl (send 401 "User not found")) ∧
  (∀ p u, token_accepted (JS.split " " header !! 1%nat) (now env) p →
          users db !! Jwt.id p = Some u →
          ∃ u', protect db env (Some header) = inr (Jwt.id p, u') ∧
                User.password u' = None ∧
                User.username u' = User.username u ∧
                User.email u' = User.email u) ∧
  (∀ res handler, protect db env (Some header) = inl res →
                  protected db env (Some header) handler = (db, res)) ∧
  (∀ req_user handler, protect db env (Some header) = inr req_user →
                       protected db env (Some header) handler = handler req_user).
Proof.
  intros Hbearer. unfold protected, protect. rewrite Hbearer. split_and!.
  - intros [e ->]%jwt_verify_rejected. done.
  - intros p ->%jwt_verify_accepted Hl. by rewrite findById_lookup, Hl.
  - intros p u ->%jwt_verify_accepted Hl. rewrite findById_lookup, Hl. simpl.
    by eexists.
  - by intros res handler ->.
  - by intros req_user handler ->.
Qed.

(** C10. Titles and descriptions are trimmed before they are validated
    and stored. In every database the server can reach, no stored title
    or description has whitespace at either end; there, a [create] whose
    title is made of whitespace only is answered 400 "Task title is
    required" and stores nothing, a [create] is accepted exactly when the
    trimmed values satisfy the constraints, and a [create] that is
    accepted stores the trimmed title and description. *)
Theorem titles_and_descriptions_trimmed db :
  reachable db →
  (∀ id t, tasks db !! id = Some t →
           JS.trimmed (Task.title t) ∧ JS.trimmed (Task.description t)) ∧
  (∀ env u b, JS.allWhitespace (ExpressValidator.toString (Body.title b)) = true →
              post_tasks db env u b = (db, send 400 "Task title is required")) ∧
  (∀ env u b, status (post_tasks db env u b).2 = 201%nat ↔ valid_task_input b) ∧
  (∀ env u b id t,
     valid_task_input b →
     tasks (post_tasks db env u b).1 !! id = Some t →
     tasks db !! id = None →
     Task.title t = JS.trim (ExpressValidator.toString (Body.title b)) ∧
     Task.description t = JS.trim (default "" (Body.description b))).
Proof.
  intros Hr. split_and!.
  - intros id t Hl. destruct (reachable_ok db Hr id t Hl) as (Ht & Hd & _). done.
  - intros env u b Hws. apply trim_allWhitespace in Hws.
    unfold post_tasks. rewrite post_validation_unfold. cbv zeta.
    rewrite Hws. reflexivity.
  - intros env u b.
    destruct (post_tasks_cases db env u b) as [(Hinv & m & r & _ & ->) | (Hv & ->)];
      simpl; split; done.
  - intros env u b id t Hv Hl Hnew.
    rewrite (post_tasks_valid db env u b Hv) in Hl. simpl in Hl.
    rewrite lookup_insert in Hl. case_decide; [|congruence].
    injection Hl as <-. simpl. split; [done|].
    by destruct (Body.description b).
Qed.
End ProtectClaims.

(** ** The claims on concrete requests *)

Section Runs.
Import ExpressValidator.

Lemma sample_users id u :
  users Sample.db !! id = Some u →
  (id = 1%positive ∧ u = Sample.ann) ∨ (id = 2%positive ∧ u = Sample.bob).
Proof.
  unfold Sample.db. simpl. rewrite lookup_insert. case_decide as H1.
  - intros [= <-]. left. done.
  - rewrite lookup_insert. case_decide as H2.
    + intros [= <-]. right. done.
    + rewrite lookup_empty. discriminate.
Defined.

(** An unknown e-mail, and Ann's e-mail with Bob's password. *)
Lemma login_failures_indistinguishable_witness :
  login Sample.db Sample.env
        (Body.mk None (Some "zed@example.com") (Some "hunter22") None None None None)
    = (Sample.db, send 401 "Invalid email or password") ∧
  login Sample.db Sample.env
        (Body.mk None (Some "ann@example.com") (Some "letmein") None None None None)
    = (Sample.db, send 401 "Invalid email or password").
Proof.
  split; apply login_failures_indistinguishable.
  - split; [reflexivity | discriminate].
  - left. intros (id & u & Hl & He).
    destruct (sample_users id u Hl) as [[_ ->] | [_ ->]]; discriminate He.
  - split; [reflexivity | discriminate].
  - right. split.
    + exists 1%positive, Sample.ann. split; reflexivity.
    + intros id u Hl He.
      destruct (sample_users id u Hl) as [[_ ->] | [_ ->]]; [|discriminate He].
      exists "NaCl:hunter22". split; reflexivity.
Defined.

(** C2 as stated fails: no identity has the e-mail "nobody", and Ann's
    e-mail comes with a password that does not verify, the empty one;
    both logins are answered 400, not 401. *)
Lemma login_gate_counterexample :
  let unknown := Body.mk None (Some "nobody") (Some "hunter22") None None None None in
  let wrong := Body.mk None (Some "ann@example.com") (Some "") None None None None in
  ¬ email_taken (email_key unknown) Sample.db ∧
  login Sample.db Sample.env unknown
    = (Sample.db, send 400 "Please provide a valid email") ∧
  email_taken (email_key wrong) Sample.db ∧
  bcrypt_compare "" "NaCl:hunter22" = false ∧
  login Sample.db Sample.env wrong = (Sample.db, send 400 "Password is required") ∧
  status (login Sample.db Sample.env unknown).2 ≠ 401%nat ∧
  status (login Sample.db Sample.env wrong).2 ≠ 401%nat.
Proof.
  simpl. split_and!.
  - intros (id & u & Hl & He).
    destruct (sample_users id u Hl) as [[_ ->] | [_ ->]]; discriminate He.
  - reflexivity.
  - exists 1%positive, Sample.ann. split; reflexivity.
  - reflexivity.
  - reflexivity.
  - vm_compute. discriminate.
  - vm_compute. discriminate.
Qed.

(** A malformed e-mail against a well-formed unknown one. *)
Lemma login_rejects_malformed_email_witness :
  login Sample.db Sample.env
        (Body.mk None (Some "nobody") (Some "hunter22") None None None None)
    = (Sample.db, send 400 "Please provide a valid email").
Proof.
  apply (login_rejects_malformed_email Sample.db Sample.env
           (Body.mk None (Some "nobody") (Some "hunter22") None None None None)).
  reflexivity.
Defined.

(** Ann's e-mail under a new username, and Bob's username under a new
    e-mail. *)
Lemma register_conflicts_witness :
  register Sample.db Sample.env
           (Body.mk (Some "bob") (Some "Ann@Example.com") (Some "hunter22")
                    None None None None)
    = (Sample.db, send 400 "User already exists with this email") ∧
  register Sample.db Sample.env
           (Body.mk (Some " bob ") (Some "zed@example.com") (Some "hunter22")
                    None None None None)
    = (Sample.db, send 400 "Username already taken").
Proof.
  split.
  - apply register_conflicts.
    + split_and!; [vm_compute; lia | reflexivity | vm_compute; lia].
    + exists 1%positive, Sample.ann. split; reflexivity.
  - apply register_conflicts.
    + split_and!; [vm_compute; lia | reflexivity | vm_compute; lia].
    + intros (id & u & Hl & He).
      destruct (sample_users id u Hl) as [[_ ->] | [_ ->]]; discriminate He.
    + exists 2%positive, Sample.bob. split; reflexivity.
Defined.

(** C7 as stated fails: an identity has the e-mail, and the request,
    whose username is too short, is answered with the validation
    message, not with the conflict. *)
Lemma register_gate_counterexample :
  let b := Body.mk (Some "ab") (Some "ann@example.com") (Some "hunter22")
                   None None None None in
  email_taken (email_key b) Sample.db ∧
  register Sample.db Sample.env b
    = (Sample.db, send 400 "Username must be at least 3 characters long") ∧
  register Sample.db Sample.env b
    ≠ (Sample.db, send 400 "User already exists with this email").
Proof.
  simpl. split_and!.
  - exists 1%positive, Sample.ann. split; reflexivity.
  - reflexivity.
  - vm_compute. discriminate.
Qed.

(** A token that is still valid, for Ann. *)
Lemma protect_validates_token_witness :
  JS.startsWith "Bearer 1.2000.s3cret" "Bearer" = true ∧
  ∃ u', protect Sample.db Sample.env (Some "Bearer 1.2000.s3cret") = inr (1%positive, u') ∧
        User.password u' = None ∧
        User.username u' = "ann".
Proof.
  split; [reflexivity|].
  destruct (protect_validates_token Sample.db Sample.env "Bearer 1.2000.s3cret" eq_refl)
    as (_ & _ & Hok & _).
  destruct (Hok {| Jwt.id := 1; Jwt.iat := (2000 - 2592000)%Z; Jwt.exp := Some 2000%Z |}
                Sample.ann) as (u' & Hp & Hpw & Hn & _).
  - exists "1.2000.s3cret". split_and!; [reflexivity | discriminate | reflexivity
                                          | reflexivity |].
    intros e [= <-]. vm_compute. reflexivity.
  - reflexivity.
  - exists u'. split_and!; [exact Hp | exact Hpw | exact Hn].
Defined.

(** The database after Carl's two requests. *)
Lemma titles_and_descriptions_trimmed_witness :
  reachable Sample.served ∧
  tasks Sample.served !! 1%positive =
    Some {| Task.user := 1; Task.title := "Walk dog"; Task.description := "twice";
            Task.completed := false;
            Task.createdAt := 1000000; Task.updatedAt := 1000000 |} ∧
  ∀ id t, tasks Sample.served !! id = Some t →
          JS.trimmed (Task.title t) ∧ JS.trimmed (Task.description t).
Proof.
  assert (reachable Sample.served) as Hr.
  { unfold Sample.served. apply reachable_step, reachable_step, reachable_empty. }
  split_and!; [exact Hr | reflexivity |].
  apply (titles_and_descriptions_trimmed Sample.served Hr).
Defined.


(** C4 as stated fails. Ann creates " Walk dog ": the first element of
    her list then has the title "Walk dog", not the one she sent. And a
    create served when the clock reads an instant before the creation of
    an earlier task of hers does not come first. *)
Lemma list_roundtrip_counterexample :
  let b := Body.mk None None None (Some " Walk dog ") None None None in
  status (post_tasks Sample.db Sample.env Sample.req_ann b).2 = 201%nat ∧
  (∃ doc rest,
     (get_tasks (post_tasks Sample.db Sample.env Sample.req_ann b).1 Sample.req_ann).2 =
       {| status := 200; json := TaskDocs (doc :: rest) |} ∧
     Task.title doc.2 = "Walk dog" ∧
     Task.title doc.2 ≠ " Walk dog ") ∧
  status (post_tasks Sample.db Sample.early Sample.req_ann b).2 = 201%nat ∧
  (∃ rest,
     (get_tasks (post_tasks Sample.db Sample.early Sample.req_ann b).1 Sample.req_ann).2 =
       {| status := 200; json := TaskDocs ((1%positive, Sample.milk) :: rest) |}).
Proof.
  simpl. split_and!.
  - reflexivity.
  - eexists _, _. split_and!; [vm_compute; reflexivity | reflexivity | discriminate].
  - reflexivity.
  - eexists. vm_compute. reflexivity.
Qed.
End Runs.


(** * Further properties of the handlers *)

(** ** Registration *)

Section RegistrationFacts.
Context `{Validator, Bcrypt, Jsonwebtoken, Platform}.
Import ExpressValidator.

Local Arguments isLength : simpl never.
Local Arguments notEmpty : simpl never.
Local Arguments JS.trim : simpl never.

(** What [User.create] does when it resolves. *)
Lemma User_create_resolved now username email password (c c' : gmap positive User.t) id doc :
  Mongoose.User_create now username email password c = Resolved (c', (id, doc)) →
  doc = {| User.username := JS.trim username;
           User.email := Mongoose.email_setter email;
           User.password := Some password;
           User.createdAt := now; User.updatedAt := now |} ∧
  id = fresh (dom c) ∧ c' = <[id := doc]> c ∧ c !! id = None ∧
  Mongoose.User_validate doc = true ∧
  ∀ k u, c !! k = Some u →
         User.username u ≠ User.username doc ∧ User.email u ≠ User.email doc.
Proof.
  unfold Mongoose.User_create.
  destruct (Mongoose.User_validate _) eqn:Hv; [|discriminate].
  destruct (Mongoose.findOne _ c) eqn:Hf; [discriminate|].
  intros [= <- <- <-]. split_and!; try done.
  - apply not_elem_of_dom, is_fresh.
  - intros k u Hl. pose proof (findOne_None _ _ _ _ Hf Hl) as Hno. simpl in Hno.
    apply orb_false_iff in Hno as [Hn He].
    apply String.eqb_neq in Hn. apply String.eqb_neq in He. done.
Qed.

Lemma User_create_fresh now username email password (c : gmap positive User.t) :
  let doc := {| User.username := JS.trim username;
                User.email := Mongoose.email_setter email;
                User.password := Some password;
                User.createdAt := now; User.updatedAt := now |} in
  Mongoose.User_validate doc = true →
  (∀ k u, c !! k = Some u →
          User.username u ≠ User.username doc ∧ User.email u ≠ User.email doc) →
  Mongoose.User_create now username email password c =
    Resolved (<[fresh (dom c) := doc]> c, (fresh (dom c), doc)).
Proof.
  intros doc Hv Hfree. unfold Mongoose.User_create. fold doc. rewrite Hv.
  rewrite findOne_None_intro; [done|].
  intros k u Hl. destruct (Hfree k u Hl) as [Hn He]. subst doc. simpl in *.
  apply String.eqb_neq in Hn. apply String.eqb_neq in He. by rewrite Hn, He.
Qed.

(** The registration handler, case by case. *)
Lemma register_cases db env b :
  (register db env b).1 = db ∧ (400 ≤ status (register db env b).2)%nat ∨
  (valid_registration b ∧
   ¬ email_taken (email_key b) db ∧
   ¬ username_taken (JS.trim (toString (Body.username b))) db ∧
   Mongoose.User_validate (registered_user env b) = true ∧
   register db env b =
     let id := fresh (dom (users db)) in
     ({| users := <[id := registered_user env b]> (users db); tasks := tasks db |},
      {| status := 201;
         json := Session "User registered successfully"
                         (jwt_sign id JWT_SECRET (now env)) id
                         (JS.trim (toString (Body.username b))) (email_key b) |})).
Proof.
  destruct (register_validation b).2 as [|msg rest] eqn:Ev.
  2:{ left. unfold register. destruct (register_validation b) as [b' errors].
      simpl in Ev. subst errors. simpl. split; [done|lia]. }
  pose proof (proj2 (register_validation_valid b) Ev) as Hv.
  rewrite (register_valid_unfold db env b Hv).
  destruct (Mongoose.User_findOne_email _ _) eqn:Ee; [left; simpl; split; [done|lia]|].
  destruct (Mongoose.User_findOne_username _ _) eqn:Eu; [left; simpl; split; [done|lia]|].
  assert (¬ email_taken (email_key b) db) as Hfe.
  { intros [d Hd]%email_taken_found. congruence. }
  assert (¬ username_taken (JS.trim (toString (Body.username b))) db) as Hfu.
  { rewrite <- (trim_idemp (toString (Body.username b))).
    intros [d Hd]%username_taken_found. congruence. }
  unfold register. rewrite register_validation_unfold in Ev |- *.
  simpl in Ev |- *. rewrite Ev. simpl. rewrite Ee, Eu.
  pose proof Hv as (_ & _ & Hpw).
  destruct (Body.password b) as [password|] eqn:Epw; [|simpl in Hpw; lia].
  destruct (Mongoose.User_create _ _ _ _ _) as [[users' [id user]]|e] eqn:Ec.
  - right. apply User_create_resolved in Ec as (-> & -> & -> & _ & Hval & _).
    unfold registered_user, email_key. rewrite Epw. simpl.
    rewrite trim_idemp in Hval |- *.
    split_and!; done.
  - left. simpl. split; [done|lia].
Qed.
End RegistrationFacts.

Section RegistrationProperties.
Context `{Validator, Bcrypt, Jsonwebtoken, Platform}.
Import ExpressValidator.

Local Arguments isLength : simpl never.
Local Arguments notEmpty : simpl never.
Local Arguments JS.trim : simpl never.

Lemma register_proceeds db env b :
  valid_registration b →
  ¬ email_taken (email_key b) db →
  ¬ username_taken (JS.trim (toString (Body.username b))) db →
  ∃ password, Body.password b = Some password ∧
    register db env b =
      match Mongoose.User_create (now env) (JS.trim (toString (Body.username b)))
                                 (normalizeEmail (toString (Body.email b)))
                                 (bcrypt_hash password (salt env)) (users db) with
      | Rejected _ => (db, send 500 "Server error during registration")
      | Resolved (users', (id, user)) =>
          ({| users := users'; tasks := tasks db |},
           {| status := 201;
              json := Session "User registered successfully"
                              (jwt_sign id JWT_SECRET (now env)) id
                              (User.username user) (User.email user) |})
      end.
Proof.
  intros Hv Hfe Hfu. pose proof Hv as (_ & _ & Hpw).
  destruct (Body.password b) as [password|] eqn:Epw; [|simpl in Hpw; lia].
  exists password. split; [done|].
  pose proof (proj1 (register_validation_valid b) Hv) as Ev.
  unfold register. rewrite register_validation_unfold in Ev |- *.
  simpl in Ev |- *. rewrite Ev. simpl.
  destruct (Mongoose.User_findOne_email _ _) eqn:Ee.
  { exfalso. apply Hfe, email_taken_found. by eexists. }
  destruct (Mongoose.User_findOne_username _ _) eqn:Eu.
  { exfalso. apply Hfu. rewrite <- (trim_idemp (toString (Body.username b))).
    apply username_taken_found. by eexists. }
  by rewrite Epw.
Qed.

Lemma register_creates_identity_aux db env b :
  valid_registration b →
  ¬ email_taken (email_key b) db →
  ¬ username_taken (JS.trim (toString (Body.username b))) db →
  Mongoose.User_validate (registered_user env b) = true →
  ∃ id,
    users db !! id = None ∧
    register db env b =
      ({| users := <[id := registered_user env b]> (users db); tasks := tasks db |},
       {| status := 201;
          json := Session "User registered successfully"
                          (jwt_sign id JWT_SECRET (now env)) id
                          (JS.trim (toString (Body.username b))) (email_key b) |}).
Proof.
  intros Hv Hfe Hfu Hok.
  destruct (register_proceeds db env b Hv Hfe Hfu) as (password & Epw & Hreg).
  exists (fresh (dom (users db))).
  assert (users db !! fresh (dom (users db)) = None) as Hfresh
    by apply not_elem_of_dom, is_fresh.
  assert (registered_user env b =
          {| User.username := JS.trim (JS.trim (toString (Body.username b)));
             User.email := Mongoose.email_setter (normalizeEmail (toString (Body.email b)));
             User.password := Some (bcrypt_hash password (salt env));
             User.createdAt := now env; User.updatedAt := now env |}) as Hdoc.
  { unfold registered_user, email_key. by rewrite Epw, trim_idemp. }
  rewrite User_create_fresh in Hreg.
  - rewrite <- Hdoc in Hreg. by rewrite Hreg.
  - by rewrite <- Hdoc.
  - rewrite <- Hdoc. simpl. intros k u Hl. split.
    + intros Hn. apply Hfu. by exists k, u.
    + intros He. apply Hfe. by exists k, u.
Qed.

(** X1. A registration that passes validation, whose e-mail and username
    no identity has and whose document the user schema accepts, is
    answered 201 with a token signed for the new id; it stores exactly
    one new identity, under an id that was unused, with the trimmed
    username, the normalized e-mail and the bcrypt hash of the password,
    and leaves every other identity and every task as it was. *)
Theorem register_creates_identity db env b :
  valid_registration b →
  ¬ email_taken (email_key b) db →
  ¬ username_taken (JS.trim (toString (Body.username b))) db →
  Mongoose.User_validate (registered_user env b) = true →
  ∃ id,
    users db !! id = None ∧
    register db env b =
      ({| users := <[id := registered_user env b]> (users db); tasks := tasks db |},
       {| status := 201;
          json := Session "User registered successfully"
                          (jwt_sign id JWT_SECRET (now env)) id
                          (JS.trim (toString (Body.username b))) (email_key b) |}) ∧
    (∀ k, k ≠ id → users (register db env b).1 !! k = users db !! k).
Proof.
  intros Hv Hfe Hfu Hok.
  destruct (register_creates_identity_aux db env b Hv Hfe Hfu Hok) as (id & Hnew & Hreg).
  exists id. rewrite Hreg. split_and!; [done|done|].
  intros k Hk. simpl. by rewrite lookup_insert_ne.
Qed.

(** X2. A registration that passes validation and both conflict checks,
    but whose document the user schema rejects (an e-mail outside the
    pattern of the schema, a hash shorter than six characters), is
    answered 500 "Server error during registration" and stores nothing. *)
Theorem register_schema_rejection db env b :
  valid_registration b →
  ¬ email_taken (email_key b) db →
  ¬ username_taken (JS.trim (toString (Body.username b))) db →
  Mongoose.User_validate (registered_user env b) = false →
  register db env b = (db, send 500 "Server error during registration").
Proof.
  intros Hv Hfe Hfu Hbad.
  destruct (register_proceeds db env b Hv Hfe Hfu) as (password & Epw & ->).
  unfold Mongoose.User_create.
  unfold registered_user, email_key in Hbad. rewrite Epw in Hbad. simpl in Hbad.
  rewrite trim_idemp. by rewrite Hbad.
Qed.

(** Only registration touches the identities. *)
Lemma app_users db env r :
  (∀ b, r ≠ POST_register b) → users (app db env r).1 = users db.
Proof.
  intros Hnot. destruct r as [b|b|a|a b|a id b|a id]; simpl.
  - by destruct (Hnot b).
  - by rewrite login_db.
  - unfold protected. by destruct (protect db env a).
  - unfold protected. destruct (protect db env a) as [|u]; [done|].
    by destruct (post_tasks_cases db env u b) as [(_ & m & r & _ & ->) | (_ & ->)].
  - unfold protected. destruct (protect db env a) as [|u]; [done|].
    destruct id as [id|text];
      [|by destruct (put_tasks_malformed db env u text b)
             as [(m & r & _ & ->) | (_ & ->)]].
    by destruct (put_tasks_cases db env u id b)
      as [(m & r & _ & ->) | [(_ & _ & ->) | (_ & t & _ & _ & [-> | (t' & _ & _ & ->)])]].
  - unfold protected. destruct (protect db env a) as [|u]; [done|].
    destruct id as [id|text]; [|done].
    by destruct (delete_tasks_cases db u id) as [(_ & ->) | (t & _ & _ & ->)].
Qed.

Lemma registered_user_ok env b :
  Mongoose.User_validate (registered_user env b) = true → User_ok (registered_user env b).
Proof.
  intros Hv. split_and!; [done | apply trim_trimmed | by eexists _, _].
Qed.

Lemma reachable_users db : reachable db → users_unique db ∧ users_ok db.
Proof.
  induction 1 as [|db env r Hr [IHu IHo]].
  { split; intros i; intros; simpl in *; by rewrite lookup_empty in *. }
  assert ((∃ b, r = POST_register b) ∨ users (app db env r).1 = users db) as [[b ->]|Eq].
  { destruct r; [left; by eexists | right; by apply app_users..]. }
  2:{ split.
      - intros i j u v. rewrite Eq. apply IHu.
      - intros i u. rewrite Eq. apply IHo. }
  simpl. destruct (register_cases db env b) as [[-> _] | (Hv & Hfe & Hfu & Hok & ->)];
    [done|]. unfold users_unique, users_ok. simpl. split.
  - intros i j u v. rewrite !lookup_insert. repeat case_decide; subst.
    + done.
    + intros [= <-] Hl [He | Hn]; exfalso.
      * apply Hfe. exists j, v. done.
      * apply Hfu. exists j, v. done.
    + intros Hl [= <-] [He | Hn]; exfalso.
      * apply Hfe. exists i, u. done.
      * apply Hfu. exists i, u. done.
    + apply IHu.
  - intros i u. rewrite lookup_insert. case_decide.
    + intros [= <-]. by apply registered_user_ok.
    + apply IHo.
Qed.

(** X3. In every database the server can reach, no two identities share
    an e-mail or a username, and every identity passes the user schema,
    has a trimmed username and stores as its password an output of
    [bcrypt.hash]. With a bcrypt whose hash is never equal to the
    password it is given, no identity stores the password its hash was
    made of. *)
Theorem identities_unique_and_hashed db :
  reachable db →
  users_unique db ∧ users_ok db ∧
  ((∀ password salt, bcrypt_hash password salt ≠ password) →
   ∀ id u, users db !! id = Some u →
           ∃ password salt,
             User.password u = Some (bcrypt_hash password salt) ∧
             User.password u ≠ Some password).
Proof.
  intros Hr. destruct (reachable_users db Hr) as [Hu Ho]. split_and!; [done..|].
  intros Hhash id u Hl. destruct (Ho id u Hl) as (_ & _ & password & salt & Hp).
  exists password, salt. split; [done|]. rewrite Hp. intros [= E]. by apply Hhash in E.
Qed.
End RegistrationProperties.

(** ** Login and the issued token *)

Section SessionProperties.
Context `{Validator, Bcrypt, Jsonwebtoken, Platform}.
Import ExpressValidator.

Local Arguments isLength : simpl never.
Local Arguments notEmpty : simpl never.
Local Arguments JS.trim : simpl never.

Lemma login_succeeds db env b id u hash :
  valid_login b →
  users db !! id = Some u → User.email u = email_key b →
  (∀ k v, users db !! k = Some v → User.email v = email_key b → k = id) →
  User.password u = Some hash →
  bcrypt_compare (toString (Body.password b)) hash = true →
  login db env b =
    (db, {| status := 200;
            json := Session "Login successful" (jwt_sign id JWT_SECRET (now env)) id
                            (User.username u) (User.email u) |}).
Proof.
  intros Hv Hl He Honly Hpw Hcmp.
  destruct (login_valid_unfold db env b Hv) as (password & Epw & ->).
  destruct (Mongoose.User_findOne_email _ _) as [[k v]|] eqn:E.
  - apply User_findOne_email_Some in E as [Hk Hke]. simpl in *.
    assert (k = id) as -> by by apply (Honly k v).
    assert (v = u) as -> by congruence.
    rewrite Hpw. rewrite Epw in Hcmp. simpl in Hcmp. by rewrite Hcmp.
  - exfalso. eapply User_findOne_email_None in E; [|exact Hl]. done.
Qed.

(** X4. Where no two identities share an e-mail (as in every database
    the server can reach), a well-formed login whose e-mail an identity
    has and whose password verifies against that identity's hash is
    answered 200 "Login successful" with the identity's id, username and
    e-mail and a token signed for that id; the database is not changed. *)
Theorem login_returns_session db env b id u hash :
  users_unique db →
  valid_login b →
  users db !! id = Some u → User.email u = email_key b →
  User.password u = Some hash →
  bcrypt_compare (toString (Body.password b)) hash = true →
  login db env b =
    (db, {| status := 200;
            json := Session "Login successful" (jwt_sign id JWT_SECRET (now env)) id
                            (User.username u) (User.email u) |}).
Proof.
  intros Huniq Hv Hl He Hpw Hcmp.
  apply (login_succeeds db env b id u hash); try done.
  intros k v Hk Hke. apply (Huniq k id v u Hk Hl). left. congruence.
Qed.

(** X5. Registration followed by login. When bcrypt verifies the
    password against the hash it made of it, a successful registration
    can be followed, at any later time, by a login with the same e-mail
    and password: it is answered 200 with the id, username and e-mail that
    the registration returned. *)
Theorem register_then_login db env env' b :
  valid_registration b →
  ¬ email_taken (email_key b) db →
  ¬ username_taken (JS.trim (toString (Body.username b))) db →
  Mongoose.User_validate (registered_user env b) = true →
  bcrypt_compare (toString (Body.password b))
                 (bcrypt_hash (toString (Body.password b)) (salt env)) = true →
  ∃ id,
    (register db env b).2 =
      {| status := 201;
         json := Session "User registered successfully"
                         (jwt_sign id JWT_SECRET (now env)) id
                         (JS.trim (toString (Body.username b))) (email_key b) |} ∧
    login (register db env b).1 env' b =
      ((register db env b).1,
       {| status := 200;
          json := Session "Login successful" (jwt_sign id JWT_SECRET (now env')) id
                          (JS.trim (toString (Body.username b))) (email_key b) |}).
Proof.
  intros Hv Hfe Hfu Hok Hcmp.
  destruct (register_creates_identity_aux db env b Hv Hfe Hfu Hok) as (id & Hnew & Hreg).
  exists id. rewrite Hreg. split; [done|]. simpl.
  apply (login_succeeds _ env' b id (registered_user env b)
           (bcrypt_hash (toString (Body.password b)) (salt env))); try done.
  - destruct Hv as (_ & He & Hp). split; [done|].
    intros E. rewrite E in Hp. simpl in Hp. lia.
  - simpl. apply lookup_insert_eq.
  - simpl. intros k v. rewrite lookup_insert. case_decide; [done|].
    intros Hk Hke. exfalso. apply Hfe. by exists k, v.
Qed.
End SessionProperties.

(** ** The Bearer header *)

Section BearerFacts.

Lemma split_without_separator s c : JSMore.includes s c = false → JS.split c s = [s].
Proof.
  induction s as [|a s IH]; [done|]. simpl.
  intros [Ha Hs]%orb_false_iff. rewrite Ha, (IH Hs). done.
Qed.

Lemma split_cons c a s :
  JS.split c (String a s) =
    if Ascii.eqb a c then EmptyString :: JS.split c s
    else match JS.split c s with
         | x :: xs => String a x :: xs
         | [] => [String a EmptyString]
         end.
Proof. reflexivity. Qed.

(** The header [`Bearer ${token}`] splits into the scheme and the token. *)
Lemma split_bearer token :
  JSMore.includes token " " = false →
  JS.split " " ("Bearer " ++ token) = ["Bearer"; token].
Proof.
  intros Hns.
  change ("Bearer " ++ token)
    with (String "B" (String "e" (String "a" (String "r" (String "e" (String "r"
           (String " " token))))))).
  rewrite !split_cons.
  by rewrite (split_without_separator token " " Hns).
Qed.

Lemma startsWith_bearer token : JS.startsWith ("Bearer " ++ token) "Bearer" = true.
Proof.
  change ("Bearer " ++ token)
    with (String "B" (String "e" (String "a" (String "r" (String "e" (String "r"
           (String " " token))))))).
  reflexivity.
Qed.
End BearerFacts.

Section TokenProperties.
Context `{Validator, Bcrypt, Jsonwebtoken, Platform}.

Lemma issued_token_accepted db env env' id u :
  jwt_decode (jwt_sign id JWT_SECRET (now env)) =
    Some {| Jwt.id := id; Jwt.iat := now env / 1000;
            Jwt.exp := Some (now env / 1000 + thirty_days)%Z |} →
  jwt_signature_valid (jwt_sign id JWT_SECRET (now env)) JWT_SECRET = true →
  JSMore.includes (jwt_sign id JWT_SECRET (now env)) " " = false →
  jwt_sign id JWT_SECRET (now env) ≠ "" →
  users db !! id = Some u →
  (now env' / 1000 < now env / 1000 + thirty_days)%Z →
  protect db env' (Some ("Bearer " ++ jwt_sign id JWT_SECRET (now env)))
    = inr (id, Mongoose.select_minus_password u).
Proof.
  intros Hdec Hsig Hns Hne Hl Ht.
  set (token := jwt_sign id JWT_SECRET (now env)) in *.
  unfold protect. rewrite startsWith_bearer, (split_bearer token Hns).
  change (["Bearer"; token] !! 1%nat) with (Some token).
  unfold jwt_verify. apply String.eqb_neq in Hne. rewrite Hne, Hdec, Hsig. simpl.
  apply Z.leb_gt in Ht. rewrite Ht. rewrite findById_lookup. simpl. by rewrite Hl.
Qed.

(** X6. The validity window of an issued token. Let a token be signed for
    an identity at some instant, and let jsonwebtoken read back what it
    wrote: the token decodes to its payload, carries a valid signature,
    and is a non-empty string without spaces. While the identity exists,
    [protect] accepts the header [Bearer <token>] and yields that
    identity, without its password, at every instant less than thirty
    days (counted in whole seconds) after the signature; from thirty days
    on it answers 401 "Not authorized, token failed". *)
Theorem issued_token_window db env env' id u :
  jwt_decode (jwt_sign id JWT_SECRET (now env)) =
    Some {| Jwt.id := id; Jwt.iat := now env / 1000;
            Jwt.exp := Some (now env / 1000 + thirty_days)%Z |} →
  jwt_signature_valid (jwt_sign id JWT_SECRET (now env)) JWT_SECRET = true →
  JSMore.includes (jwt_sign id JWT_SECRET (now env)) " " = false →
  jwt_sign id JWT_SECRET (now env) ≠ "" →
  users db !! id = Some u →
  ((now env' / 1000 < now env / 1000 + thirty_days)%Z →
   protect db env' (Some ("Bearer " ++ jwt_sign id JWT_SECRET (now env)))
     = inr (id, Mongoose.select_minus_password u)) ∧
  ((now env / 1000 + thirty_days ≤ now env' / 1000)%Z →
   protect db env' (Some ("Bearer " ++ jwt_sign id JWT_SECRET (now env)))
     = inl (send 401 "Not authorized, token failed")).
Proof.
  intros Hdec Hsig Hns Hne Hl. split; [by apply issued_token_accepted|].
  intros Ht. set (token := jwt_sign id JWT_SECRET (now env)) in *.
  unfold protect. rewrite startsWith_bearer, (split_bearer token Hns).
  change (["Bearer"; token] !! 1%nat) with (Some token).
  unfold jwt_verify. apply String.eqb_neq in Hne. rewrite Hne, Hdec, Hsig. simpl.
  apply Z.leb_le in Ht. by rewrite Ht.
Qed.

Lemma protect_no_bearer db env a :
  a = None ∨ (∃ h, a = Some h ∧ JS.startsWith h "Bearer" = false) →
  protect db env a = inl (send 401 "Not authorized, no token").
Proof.
  unfold protect. intros [-> | (h & -> & Hs)]; [done|]. by rewrite Hs.
Qed.

(** X7. A request to a task route that carries no [Authorization]
    header, an empty one, or one that does not start with "Bearer" is
    answered 401 "Not authorized, no token", and the database stays as it
    was. *)
Theorem task_routes_require_bearer db env r a :
  authorization r = Some a →
  a = None ∨ (∃ h, a = Some h ∧ JS.startsWith h "Bearer" = false) →
  app db env r = (db, send 401 "Not authorized, no token").
Proof.
  intros Ha Hbad. pose proof (protect_no_bearer db env a Hbad) as Hp.
  destruct r; simpl in Ha; try discriminate; injection Ha as ->;
    simpl; unfold protected; by rewrite Hp.
Qed.

Lemma protect_failure_status db env a res :
  protect db env a = inl res → status res = 401%nat.
Proof.
  unfold protect. destruct a as [h|]; [|by intros [= <-]].
  destruct (JS.startsWith h "Bearer"); [|by intros [= <-]].
  destruct (jwt_verify _ _ _); [|by intros [= <-]].
  destruct (Mongoose.findById _ _) as [[k v]|]; [done | by intros [= <-]].
Qed.

(** X8. Whatever a request to a task route carries, when it is not
    authenticated (the header is missing or malformed, the token does not
    verify, or its identity is gone) the status is 401 and the database
    stays as it was: no handler runs. *)
Theorem unauthenticated_request_rejected db env r :
  authorization r ≠ None → caller db env r = None →
  (app db env r).1 = db ∧ status (app db env r).2 = 401%nat.
Proof.
  intros Hroute Hcaller. unfold caller in Hcaller.
  destruct r as [b|b|a|a b|a id b|a id]; simpl in *; try done;
    unfold protected;
    destruct (protect db env a) as [res|u] eqn:Hp; try done;
    (split; [done | by apply (protect_failure_status db env a)]).
Qed.
End TokenProperties.

(** ** Isolation and frame of the task routes *)

Section IsolationProperties.
Context `{Validator, Bcrypt, Jsonwebtoken, Platform}.
Import ExpressValidator.

Lemma post_tasks_frame db env u b id t :
  tasks db !! id = Some t → tasks (post_tasks db env u b).1 !! id = Some t.
Proof.
  intros Hl.
  destruct (post_tasks_cases db env u b) as [(_ & m & r & _ & ->) | (_ & ->)]; [done|].
  simpl. rewrite lookup_insert_ne; [done|].
  intros E. rewrite <- E, fresh_id_unused in Hl. discriminate.
Qed.

Lemma put_tasks_frame db env u (id0 : Param) b (id : positive) t :
  tasks db !! id = Some t →
  (tasks (put_tasks db env u id0 b).1 !! id = Some t) ∨
  (id0 = Oid id ∧ Task.user t = u.1 ∧
   ∃ t', tasks (put_tasks db env u id0 b).1 !! id = Some t' ∧
         Task.user t' = Task.user t ∧ Task.createdAt t' = Task.createdAt t).
Proof.
  intros Hl. destruct id0 as [id0|text];
    [|left; by destruct (put_tasks_malformed db env u text b)
                 as [(m & r & _ & ->) | (_ & ->)]].
  destruct (put_tasks_cases db env u id0 b)
    as [(m & r & _ & ->) | [(_ & _ & ->) | (_ & task & Hl0 & Hu & [-> | (task' & Ha & _ & ->)])]];
    [by left..|].
  simpl. destruct (decide (id = id0)) as [->|Hne].
  - right. assert (task = t) as -> by congruence. split_and!; [done..|].
    exists (saved (now env) t task'). rewrite lookup_insert_eq. split; [done|].
    destruct (assign_fields_sanitized b t task' Ha) as (F1 & F2 & _).
    destruct (saved_fields (now env) t task') as (S1 & _ & _ & _ & S5).
    by rewrite S1, S5.
  - left. by rewrite lookup_insert_ne.
Qed.

Lemma delete_tasks_frame db u (id0 : Param) (id : positive) t :
  tasks db !! id = Some t →
  (tasks (delete_tasks db u id0).1 !! id = Some t) ∨
  (id0 = Oid id ∧ Task.user t = u.1 ∧ tasks (delete_tasks db u id0).1 !! id = None).
Proof.
  intros Hl. destruct id0 as [id0|text]; [|by left].
  destruct (delete_tasks_cases db u id0) as [(_ & ->) | (task & Hl0 & Hu & ->)];
    [by left|].
  simpl. destruct (decide (id = id0)) as [->|Hne].
  - right. assert (task = t) as -> by congruence. by rewrite lookup_delete_eq.
  - left. by rewrite lookup_delete_ne.
Qed.

(** X9. A request changes or removes only tasks of the identity it is
    authenticated as: every task whose owner is not the caller of the
    request (and every task at all, when the request is not
    authenticated or is a registration or a login) is stored unchanged
    afterwards. *)
Theorem other_owners_tasks_untouched db env r id t :
  tasks db !! id = Some t →
  caller db env r ≠ Some (Task.user t) →
  tasks (app db env r).1 !! id = Some t.
Proof.
  intros Hl Hother. unfold caller in Hother.
  destruct r as [b|b|a|a b|a id0 b|a id0]; simpl in *.
  - by rewrite register_tasks.
  - by rewrite login_db.
  - unfold protected. by destruct (protect db env a).
  - unfold protected. destruct (protect db env a) as [|u]; [done|].
    by apply post_tasks_frame.
  - unfold protected. destruct (protect db env a) as [|u]; [done|].
    destruct (put_tasks_frame db env u id0 b id t Hl) as [?|(_ & Hu & _)]; [done|].
    exfalso. apply Hother. by rewrite Hu.
  - unfold protected. destruct (protect db env a) as [|u]; [done|].
    destruct (delete_tasks_frame db u id0 id t Hl) as [?|(_ & Hu & _)]; [done|].
    exfalso. apply Hother. by rewrite Hu.
Qed.

(** X10. No request moves a task to another owner or changes its
    creation time: a task that is stored before and after a request has
    the same owner and the same [createdAt]. *)
Theorem owner_and_creation_time_fixed db env r id t t' :
  tasks db !! id = Some t →
  tasks (app db env r).1 !! id = Some t' →
  Task.user t' = Task.user t ∧ Task.createdAt t' = Task.createdAt t.
Proof.
  intros Hl Hl'.
  assert (tasks (app db env r).1 !! id = Some t ∨
          ∃ t'', tasks (app db env r).1 !! id = Some t'' ∧
                 Task.user t'' = Task.user t ∧ Task.createdAt t'' = Task.createdAt t ∨
          tasks (app db env r).1 !! id = None) as Hcases.
  { destruct r as [b|b|a|a b|a id0 b|a id0]; simpl in *.
    - left. by rewrite register_tasks.
    - left. by rewrite login_db.
    - left. unfold protected. by destruct (protect db env a).
    - left. unfold protected. destruct (protect db env a) as [|u]; [done|].
      by apply post_tasks_frame.
    - unfold protected. destruct (protect db env a) as [|u]; [by left|].
      destruct (put_tasks_frame db env u id0 b id t Hl)
        as [?|(_ & _ & t'' & ? & ? & ?)]; [by left|].
      right. exists t''. by left.
    - unfold protected. destruct (protect db env a) as [|u]; [by left|].
      destruct (delete_tasks_frame db u id0 id t Hl) as [?|(_ & _ & ?)]; [by left|].
      right. exists t. by right. }
  destruct Hcases as [E | (t'' & [(E & ? & ?) | E])]; rewrite E in Hl'.
  - by injection Hl' as <-.
  - by injection Hl' as <-.
  - discriminate.
Qed.

(** X11. Every response with an error status (400 and above) leaves the
    database exactly as it was: validation errors, conflicts, failed
    authentication, missing tasks and server errors store nothing. *)
Theorem error_responses_store_nothing db env r :
  (400 ≤ status (app db env r).2)%nat → (app db env r).1 = db.
Proof.
  destruct r as [b|b|a|a b|a id b|a id]; simpl.
  - destruct (register_cases db env b) as [[E _] | (_ & _ & _ & _ & ->)]; [done|].
    simpl. lia.
  - intros _. apply login_db.
  - intros _. unfold protected. by destruct (protect db env a).
  - unfold protected. destruct (protect db env a) as [|u]; [done|].
    destruct (post_tasks_cases db env u b) as [(_ & m & r & _ & ->) | (_ & ->)]; [done|].
    simpl. lia.
  - unfold protected. destruct (protect db env a) as [|u]; [done|].
    destruct id as [id|text];
      [|by destruct (put_tasks_malformed db env u text b)
             as [(m & r & _ & ->) | (_ & ->)]].
    destruct (put_tasks_cases db env u id b)
      as [(m & r & _ & ->) | [(_ & _ & ->) | (_ & t & _ & _ & [-> | (t' & _ & _ & ->)])]];
      [done..|].
    simpl. lia.
  - unfold protected. destruct (protect db env a) as [|u]; [done|].
    destruct id as [id|text]; [|done].
    destruct (delete_tasks_cases db u id) as [(_ & ->) | (t & _ & _ & ->)]; [done|].
    simpl. lia.
Qed.
End IsolationProperties.

(** ** Deleting and repeating *)

Section RepeatProperties.
Import ExpressValidator.

Local Arguments isLength : simpl never.
Local Arguments notEmpty : simpl never.
Local Arguments isBoolean : simpl never.
Local Arguments JS.trim : simpl never.

(** X12. Deleting a task the caller owns is answered 200 "Task deleted
    successfully"; afterwards the task is gone, it is no longer in the
    caller's list, every other task and every identity is as before, and
    a second delete of the same id is answered 404 "Task not found"
    without changing anything. *)
Theorem delete_removes_owned_task db (u : positive * User.t) (id : positive) task :
  tasks db !! id = Some task → Task.user task = u.1 →
  delete_tasks db u id =
    ({| users := users db; tasks := delete id (tasks db) |},
     send 200 "Task deleted successfully") ∧
  tasks (delete_tasks db u id).1 !! id = None ∧
  (∀ k, k ≠ id → tasks (delete_tasks db u id).1 !! k = tasks db !! k) ∧
  (∀ docs, (get_tasks (delete_tasks db u id).1 u).2
             = {| status := 200; json := TaskDocs docs |} →
           (id, task) ∉ docs) ∧
  delete_tasks (delete_tasks db u id).1 u id =
    ((delete_tasks db u id).1, send 404 "Task not found").
Proof.
  intros Hl Hu.
  assert (delete_tasks db u id =
          ({| users := users db; tasks := delete id (tasks db) |},
           send 200 "Task deleted successfully")) as Hd.
  { destruct (delete_tasks_cases db u id) as [(Hnone & _) | (t & _ & _ & ->)]; [|done].
    rewrite findOwnedTask_lookup, Hl in Hnone.
    apply Pos.eqb_eq in Hu. rewrite Hu in Hnone. discriminate. }
  rewrite Hd. simpl. split_and!.
  - done.
  - apply lookup_delete_eq.
  - intros k Hk. by apply lookup_delete_ne.
  - intros docs [= <-] Hin.
    apply (elem_of_listed {| users := users db; tasks := delete id (tasks db) |} u)
      in Hin as [Hin _].
    simpl in Hin. by rewrite lookup_delete_eq in Hin.
  - destruct (delete_tasks_cases {| users := users db; tasks := delete id (tasks db) |} u id)
      as [(_ & ->) | (t & Hl' & _)]; [done|].
    simpl in Hl'. rewrite lookup_delete_eq in Hl'. discriminate.
Qed.

(** Ann deletes her task 1; nothing else of the sample database moves. *)
Lemma delete_removes_owned_task_witness :
  delete_tasks Sample.db Sample.req_ann 1 =
    ({| users := users Sample.db; tasks := delete 1%positive (tasks Sample.db) |},
     send 200 "Task deleted successfully") ∧
  tasks (delete_tasks Sample.db Sample.req_ann 1).1 !! 2%positive = Some Sample.rent.
Proof.
  destruct (delete_removes_owned_task Sample.db Sample.req_ann 1 Sample.milk)
    as (Hd & _ & Hframe & _); [reflexivity | reflexivity |].
  split; [exact Hd|]. rewrite Hframe; [reflexivity | discriminate].
Defined.

Lemma isModified_same t : Mongoose.isModified t t = false.
Proof.
  unfold Mongoose.isModified. rewrite !String.eqb_refl. by destruct (Task.completed t).
Qed.

Lemma saved_same now t : saved now t t = t.
Proof. unfold saved. by rewrite isModified_same. Qed.

Lemma task_eta (t t' : Task.t) :
  Task.user t' = Task.user t → Task.title t' = Task.title t →
  Task.description t' = Task.description t → Task.completed t' = Task.completed t →
  Task.createdAt t' = Task.createdAt t → Task.updatedAt t' = Task.updatedAt t →
  t' = t.
Proof. destruct t, t'. simpl. by intros -> -> -> -> -> ->. Qed.

(** An update whose present fields already have the stored values. *)
Lemma put_tasks_same db env (u : positive * User.t) (id : positive) b task :
  tasks db !! id = Some task → Task.user task = u.1 →
  Mongoose.Task_validate task = true →
  valid_update_payload b →
  (∀ v, Body.title b = Some v → JS.trim v = Task.title task) →
  (∀ d, Body.description b = Some d → JS.trim d = Task.description task) →
  (∀ f, Body.completed b = Some f →
        Mongoose.castBoolean f = Some (Task.completed task)) →
  put_tasks db env u id b = (db, {| status := 200; json := TaskDoc (id, task) |}).
Proof.
  intros Hl Hu Hv Hp Ht Hd Hc.
  destruct (put_tasks_valid db env u id b task Hl Hu Hv Hp) as (task' & Ha & ->).
  destruct (assign_fields_sanitized b task task' Ha) as (F1 & F2 & F3 & F4 & F5 & F6).
  assert (task' = task) as ->.
  { apply task_eta; try done.
    - rewrite F4. destruct (Body.title b) as [v|]; [by apply Ht | done].
    - rewrite F5. destruct (Body.description b) as [d|]; [by apply Hd | done].
    - destruct (Body.completed b) as [f|]; [|done].
      rewrite (Hc f eq_refl) in F6. by injection F6. }
  rewrite saved_same, (insert_id _ _ _ Hl). by destruct db.
Qed.

(** X13. Updates are idempotent. In a database whose stored task passes
    the schema, applying a valid payload to an owned task twice gives,
    the second time, the same response as the first and no further
    change: not even [updatedAt] moves. In particular an empty payload
    returns the task as stored and changes nothing. *)
Theorem update_is_idempotent db env env' (u : positive * User.t) (id : positive) b task :
  tasks db !! id = Some task → Task.user task = u.1 →
  Mongoose.Task_validate task = true →
  valid_update_payload b →
  put_tasks (put_tasks db env u id b).1 env' u id b = put_tasks db env u id b ∧
  put_tasks db env u id Body.empty =
    (db, {| status := 200; json := TaskDoc (id, task) |}).
Proof.
  intros Hl Hu Hv Hp. split.
  - destruct (put_tasks_valid db env u id b task Hl Hu Hv Hp) as (task' & Ha & Hput).
    rewrite Hput. simpl.
    destruct (assign_fields_sanitized b task task' Ha) as (F1 & F2 & F3 & F4 & F5 & F6).
    destruct (saved_fields (now env) task task') as (S1 & S2 & S3 & S4 & S5).
    set (t1 := saved (now env) task task') in *.
    rewrite (put_tasks_same _ env' u id b t1).
    + done.
    + simpl. apply lookup_insert_eq.
    + by rewrite S1, F1.
    + apply Task_validate_true. rewrite S2, S3, F4, F5.
      apply Task_validate_true in Hv as (Hv1 & Hv2 & Hv3).
      destruct Hp as (Hpt & Hpd & _). split_and!.
      * destruct (Body.title b) as [v|]; [by apply Hpt | done].
      * destruct (Body.title b) as [v|]; [by apply Hpt | done].
      * destruct (Body.description b) as [d|]; [by apply Hpd | done].
    + done.
    + intros v Hb. by rewrite S2, F4, Hb.
    + intros d Hb. by rewrite S3, F5, Hb.
    + intros f Hb. rewrite S4. by rewrite Hb in F6.
  - apply put_tasks_same; done.
Qed.

(** Ann marks "Buy milk" as done twice, at two different instants. *)
Lemma update_is_idempotent_witness :
  let b := Body.mk None None None None None (Some (FlagBool true)) None in
  put_tasks (put_tasks Sample.db Sample.env Sample.req_ann 1 b).1 Sample.early
            Sample.req_ann 1 b
    = put_tasks Sample.db Sample.env Sample.req_ann 1 b ∧
  put_tasks Sample.db Sample.env Sample.req_ann 1 Body.empty =
    (Sample.db, {| status := 200; json := TaskDoc (1%positive, Sample.milk) |}).
Proof.
  apply (update_is_idempotent Sample.db Sample.env Sample.early Sample.req_ann 1
           (Body.mk None None None None None (Some (FlagBool true)) None) Sample.milk).
  - reflexivity.
  - reflexivity.
  - reflexivity.
  - split_and!; [by intros ? [=] | by intros ? [=] | by intros f [= <-]].
Defined.
End RepeatProperties.

(** ** Messages of the request validation *)

Section MessageProperties.
Context `{Validator, Bcrypt, Jsonwebtoken, Platform}.
Import ExpressValidator.

Local Arguments isLength : simpl never.
Local Arguments notEmpty : simpl never.
Local Arguments isBoolean : simpl never.
Local Arguments JS.trim : simpl never.

(** X14. A registration that fails validation is answered 400 with the
    message of the first violated field, in the order username, e-mail,
    password, and stores nothing: a username shorter than 3 characters
    after trimming (or missing) gives the username message whatever the
    other fields are; otherwise a malformed e-mail gives the e-mail
    message; otherwise the password is shorter than 6 characters (or
    missing) and gives the password message. *)
Theorem register_reports_first_field db env b :
  ¬ valid_registration b →
  ∃ msg,
    register db env b = (db, send 400 msg) ∧
    ((String.length (JS.trim (toString (Body.username b))) < 3)%nat →
     msg = "Username must be at least 3 characters long") ∧
    ((3 ≤ String.length (JS.trim (toString (Body.username b))))%nat →
     isEmail (toString (Body.email b)) = false →
     msg = "Please provide a valid email") ∧
    ((3 ≤ String.length (JS.trim (toString (Body.username b))))%nat →
     isEmail (toString (Body.email b)) = true →
     msg = "Password must be at least 6 characters long").
Proof.
  intros Hinv.
  assert ((register_validation b).2 ≠ []) as Herr.
  { intros E. by apply Hinv, register_validation_valid. }
  unfold register. rewrite register_validation_unfold in Herr |- *. simpl in Herr |- *.
  destruct (isLength 3 None (JS.trim (toString (Body.username b)))) eqn:Hu.
  - apply isLength_min_true in Hu.
    destruct (isEmail (toString (Body.email b))) eqn:He.
    + destruct (isLength 6 None (toString (Body.password b))) eqn:Hp; [done|].
      simpl. eexists. split; [done|]. split_and!; [lia | done | done].
    + simpl. eexists. split; [done|]. split_and!; [lia | done | done].
  - assert ((String.length (JS.trim (toString (Body.username b))) < 3)%nat) as Hlt.
    { destruct (Nat.lt_ge_cases (String.length (JS.trim (toString (Body.username b)))) 3)
        as [?|Hge]; [done|].
      apply isLength_min_true in Hge. congruence. }
    simpl. eexists. split; [done|]. split_and!; [done | lia | lia].
Qed.

(** X15. A login whose e-mail is well-formed but whose password is
    missing or empty is answered 400 "Password is required" before any
    identity is looked up; the database is not changed. *)
Theorem login_requires_password db env b :
  isEmail (toString (Body.email b)) = true →
  toString (Body.password b) = "" →
  login db env b = (db, send 400 "Password is required").
Proof.
  intros He Hp. unfold login. rewrite login_validation_unfold. simpl.
  by rewrite He, Hp.
Qed.

(** X16. An update whose payload fails validation is answered 400 with
    the message of the first violation, in the order title, description,
    completed, whether or not the task exists or is owned, and changes
    nothing: a present title that is empty after trimming gives "Title
    cannot be empty", one longer than 200 characters "Title cannot exceed
    200 characters"; with an acceptable or absent title, a present
    description longer than 1000 characters after trimming gives its
    message; with both acceptable, a [completed] that is not boolean-like
    gives "Completed must be true or false". *)
Theorem update_reports_first_violation db env (u : positive * User.t) id b :
  ¬ valid_update_payload b →
  ∃ msg,
    put_tasks db env u id b = (db, send 400 msg) ∧
    (∀ v, Body.title b = Some v → JS.trim v = "" → msg = "Title cannot be empty") ∧
    (∀ v, Body.title b = Some v → JS.trim v ≠ "" →
          (200 < String.length (JS.trim v))%nat →
          msg = "Title cannot exceed 200 characters") ∧
    ((∀ v, Body.title b = Some v →
           JS.trim v ≠ "" ∧ (String.length (JS.trim v) ≤ 200)%nat) →
     ∀ d, Body.description b = Some d → (1000 < String.length (JS.trim d))%nat →
          msg = "Description cannot exceed 1000 characters") ∧
    ((∀ v, Body.title b = Some v →
           JS.trim v ≠ "" ∧ (String.length (JS.trim v) ≤ 200)%nat) →
     (∀ d, Body.description b = Some d → (String.length (JS.trim d) ≤ 1000)%nat) →
     msg = "Completed must be true or false").
Proof.
  intros Hinv.
  destruct (put_tasks_rejected db env u id b Hinv) as (m & r & He & ->).
  exists m. split; [done|].
  rewrite put_validation_unfold in He. simpl in He.
  assert ((∀ v, Body.title b = Some v →
             JS.trim v ≠ "" ∧ (String.length (JS.trim v) ≤ 200)%nat) →
          match Body.title b with
          | Some v =>
              ((if notEmpty (JS.trim v) then [] else ["Title cannot be empty"]) ++
               (if isLength 0 (Some 200) (JS.trim v) then []
                else ["Title cannot exceed 200 characters"]))%list
          | None => []
          end = []) as Htitle.
  { intros Hok. destruct (Body.title b) as [v|]; [|done].
    destruct (Hok v eq_refl) as [Hne Hlen].
    apply notEmpty_true in Hne. apply isLength_max_true in Hlen.
    by rewrite Hne, Hlen. }
  split_and!.
  - intros v Et Hv. rewrite Et in He. apply notEmpty_false in Hv.
    rewrite Hv in He. simpl in He. by injection He.
  - intros v Et Hne Hlen. rewrite Et in He.
    apply notEmpty_true in Hne. apply isLength_max_false in Hlen.
    rewrite Hne, Hlen in He. simpl in He. by injection He.
  - intros Hok d Ed Hlen. rewrite (Htitle Hok), Ed in He.
    apply isLength_max_false in Hlen. rewrite Hlen in He. simpl in He.
    by injection He.
  - intros Hokt Hokd. rewrite (Htitle Hokt) in He.
    assert (match Body.description b with
            | Some d => if isLength 0 (Some 1000) (JS.trim d) then []
                        else ["Description cannot exceed 1000 characters"]
            | None => []
            end = []) as Hdesc.
    { destruct (Body.description b) as [d|]; [|done].
      specialize (Hokd d eq_refl). apply isLength_max_true in Hokd. by rewrite Hokd. }
    rewrite Hdesc in He. simpl in He.
    destruct (Body.completed b) as [f|]; [|discriminate].
    destruct (isBoolean (flagToString f)); [discriminate|]. by injection He.
Qed.
End MessageProperties.

(** * Properties of the client *)

Section ApiProperties.
Context `{Validator, Bcrypt, Jsonwebtoken, Platform, JsonText}.

Lemma call_unfold mk w db env :
  Api.call mk w db env =
    ((app db env (mk (Api.requestInterceptor w))).1,
     (Api.responseInterceptor w (app db env (mk (Api.requestInterceptor w))).2).1,
     (Api.responseInterceptor w (app db env (mk (Api.requestInterceptor w))).2).2).
Proof.
  unfold Api.call. destruct (app db env _) as [db' res]. simpl.
  by destruct (Api.responseInterceptor w res).
Qed.

(** X17. The header the request interceptor builds is the one the
    [protect] middleware reads: for a stored token that is not empty and
    contains no space, the request carries a header that starts with
    "Bearer" and whose second space-separated part is exactly the stored
    token; with no stored token, or an empty one, the request carries no
    [Authorization] header at all. *)
Theorem request_header_carries_token w :
  (∀ token, getItem "token" w = Some token → token ≠ "" →
            JSMore.includes token " " = false →
            ∃ header, Api.requestInterceptor w = Some header ∧
                      JS.startsWith header "Bearer" = true ∧
                      JS.split " " header !! 1%nat = Some token) ∧
  (JSMore.truthy (getItem "token" w) = false → Api.requestInterceptor w = None).
Proof.
  unfold Api.requestInterceptor. split.
  - intros token -> Hne Hns. apply String.eqb_neq in Hne. rewrite Hne.
    eexists. split; [done|]. split; [apply startsWith_bearer|].
    by rewrite (split_bearer token Hns).
  - destruct (getItem "token" w) as [token|]; [|done]. simpl.
    by intros ->%negb_false_iff.
Qed.

Lemma no_token_call mk w db env :
  JSMore.truthy (getItem "token" w) = false →
  (∀ a, authorization (mk a) = Some a) →
  Api.call mk w db env =
    (db,
     {| localStorage := delete "user" (delete "token" (localStorage w));
        location := "/login" |},
     Failed (send 401 "Not authorized, no token")).
Proof.
  intros Hno Hroute. rewrite call_unfold.
  assert (Api.requestInterceptor w = None) as ->.
  { unfold Api.requestInterceptor. destruct (getItem "token" w) as [token|]; [|done].
    simpl in Hno. by apply negb_false_iff in Hno as ->. }
  assert (app db env (mk None) = (db, send 401 "Not authorized, no token")) as ->; [|done].
  specialize (Hroute None).
  destruct (mk None); simpl in Hroute; try discriminate; injection Hroute as ->;
    simpl; unfold protected; by rewrite (protect_no_bearer db env None (or_introl eq_refl)).
Qed.

(** X18. The response interceptor ends the session on a 401 and only
    then. After any call through the API: if the reply is a failure with
    status 401, [localStorage] holds neither token nor user, the browser
    is at "/login", and every later call to a task route from that
    browser is answered 401 "Not authorized, no token" without touching
    the database; in every other case, fulfilled or failed,
    [localStorage] and the location are what they were. *)
Theorem unauthorized_reply_ends_session mk w db env :
  match (Api.call mk w db env).2 with
  | Fulfilled _ => (Api.call mk w db env).1.2 = w
  | Failed res =>
      if (status res =? 401)%nat then
        getItem "token" (Api.call mk w db env).1.2 = None ∧
        getItem "user" (Api.call mk w db env).1.2 = None ∧
        location (Api.call mk w db env).1.2 = "/login" ∧
        ∀ mk' db' env', (∀ a, authorization (mk' a) = Some a) →
          (Api.call mk' (Api.call mk w db env).1.2 db' env').1.1 = db' ∧
          (Api.call mk' (Api.call mk w db env).1.2 db' env').2
            = Failed (send 401 "Not authorized, no token")
      else (Api.call mk w db env).1.2 = w
  end.
Proof.
  rewrite call_unfold. simpl. unfold Api.responseInterceptor.
  destruct (Api.validateStatus _) eqn:Hok; [done|]. simpl.
  destruct (status _ =? 401)%nat eqn:H401; simpl; [|by rewrite H401].
  rewrite H401.
  assert (getItem "token"
            {| localStorage := delete "user" (delete "token" (localStorage w));
               location := "/login" |} = None) as Htok.
  { unfold getItem. simpl. rewrite lookup_delete_ne by done. apply lookup_delete_eq. }
  split_and!.
  - done.
  - unfold getItem. simpl. apply lookup_delete_eq.
  - done.
  - intros mk' db' env' Hroute. rewrite no_token_call; [done | by rewrite Htok | done].
Qed.

(** X19. Logging out ends the session on both sides: afterwards
    [isAuthenticated] is false, the stored token and user are gone, and
    every call to a task route is answered 401 "Not authorized, no token"
    by the server, which stores nothing. *)
Theorem logout_ends_session st w db env :
  AuthContext.isAuthenticated (AuthContext.logout st w).2 (AuthContext.logout st w).1
    = false ∧
  getItem "token" (AuthContext.logout st w).1 = None ∧
  getItem "user" (AuthContext.logout st w).1 = None ∧
  ∀ mk, (∀ a, authorization (mk a) = Some a) →
        (Api.call mk (AuthContext.logout st w).1 db env).1.1 = db ∧
        (Api.call mk (AuthContext.logout st w).1 db env).2 =
          Failed (send 401 "Not authorized, no token").
Proof.
  unfold AuthContext.logout. simpl.
  assert (getItem "token" (removeItem "user" (removeItem "token" w)) = None) as Htok.
  { unfold getItem, removeItem. simpl. rewrite lookup_delete_ne by done.
    apply lookup_delete_eq. }
  split_and!.
  - done.
  - done.
  - unfold getItem, removeItem. simpl. apply lookup_delete_eq.
  - intros mk Hroute. rewrite no_token_call; [done | by rewrite Htok | done].
Qed.
End ApiProperties.


(** ** Sessions *)

Section SessionClientProperties.
Context `{Validator, Bcrypt, Jsonwebtoken, Platform, JsonText}.
Import ExpressValidator.

Lemma responseInterceptor_fulfilled w res :
  Api.validateStatus res = true →
  Api.responseInterceptor w res = (w, Fulfilled (json res)).
Proof. unfold Api.responseInterceptor. by intros ->. Qed.

(** X20. Logging in through the provider and then loading the dashboard.
    Let no two identities share an e-mail, let an identity have the
    (normalized) e-mail of the credentials and a hash that the password
    verifies against, and let jsonwebtoken read back the token it signs
    for that identity (it decodes to its payload, has a valid signature,
    is not empty and has no space). Then [login] resolves to true, stores
    that token under "token", puts the identity's id, username and e-mail
    in the state, clears the error, and leaves the database alone;
    [isAuthenticated] holds; and at any instant within thirty days
    [fetchTasks] from that browser loads exactly what the list route
    returns for that identity, with no error. *)
Theorem login_then_fetch db env env' st dst w email password id u hash :
  let credentials := Body.mk None (Some email) (Some password) None None None None in
  let token := jwt_sign id JWT_SECRET (now env) in
  users_unique db →
  valid_login credentials →
  users db !! id = Some u → User.email u = email_key credentials →
  User.password u = Some hash → bcrypt_compare password hash = true →
  jwt_decode token =
    Some {| Jwt.id := id; Jwt.iat := now env / 1000;
            Jwt.exp := Some (now env / 1000 + thirty_days)%Z |} →
  jwt_signature_valid token JWT_SECRET = true →
  JSMore.includes token " " = false → token ≠ "" →
  (now env' / 1000 < now env / 1000 + thirty_days)%Z →
  ∃ w',
    AuthContext.login email password st w db env =
      (db, w',
       {| AuthContext.user := Some (mkUserInfo id (User.username u) (User.email u));
          AuthContext.loading := false; AuthContext.error := None |},
       Resolved true) ∧
    getItem "token" w' = Some token ∧
    AuthContext.isAuthenticated
      {| AuthContext.user := Some (mkUserInfo id (User.username u) (User.email u));
         AuthContext.loading := false; AuthContext.error := None |} w' = true ∧
    Dashboard.fetchTasks dst w' db env' =
      (db, w',
       {| Dashboard.tasks :=
            Mongoose.sort_createdAt_desc
              (Mongoose.find (λ d, Pos.eqb (Task.user d.2) id) (tasks db));
          Dashboard.loading := false; Dashboard.error := None;
          Dashboard.alerted := Dashboard.alerted dst |}).
Proof.
  intros credentials token Huniq Hv Hl He Hpw Hcmp Hdec Hsig Hns Hne Hwin.
  assert (login db env credentials =
          (db, {| status := 200;
                  json := Session "Login successful" (jwt_sign id JWT_SECRET (now env)) id
                                  (User.username u) (User.email u) |})) as Hlogin.
  { apply (login_succeeds db env credentials id u hash); try done.
    intros k v Hk Hke. apply (Huniq k id v u Hk Hl). left. congruence. }
  fold token in Hlogin.
  set (w1 := setItem "user" (JSON_stringify (mkUserInfo id (User.username u) (User.email u)))
               (setItem "token" token w)).
  exists w1.
  assert (getItem "token" w1 = Some token) as Htok.
  { unfold w1, getItem, setItem. simpl. rewrite lookup_insert_ne by done.
    apply lookup_insert_eq. }
  split_and!.
  - unfold AuthContext.login, Api.login. fold credentials. rewrite call_unfold.
    simpl. rewrite Hlogin. simpl. done.
  - done.
  - unfold AuthContext.isAuthenticated. simpl. rewrite Htok. simpl.
    apply String.eqb_neq in Hne. by rewrite Hne.
  - unfold Dashboard.fetchTasks, Api.getTasks. rewrite call_unfold.
    unfold Api.requestInterceptor. rewrite Htok.
    apply String.eqb_neq in Hne. rewrite Hne. simpl. unfold protected.
    pose proof (issued_token_accepted db env env' id u Hdec Hsig Hns
                  (proj1 (String.eqb_neq _ _) Hne) Hl Hwin) as Hin.
    fold token in Hin. rewrite Hin. simpl. done.
Qed.

(** X21. A failed login shows the server's message. Whenever the server
    answers a login with an error status and a non-empty message, the
    provider's [login] throws that message and sets it as the error,
    keeps the user of the state, and the database is unchanged; on a 401
    (unknown e-mail or wrong password) the stored session is dropped and
    [isAuthenticated] is false afterwards, on any other error status
    [localStorage] is untouched. *)
Theorem failed_login_shows_message db env st w email password s m :
  let credentials := Body.mk None (Some email) (Some password) None None None None in
  (app db env (POST_login credentials)).2 = send s m →
  (400 ≤ s)%nat → m ≠ "" →
  ∃ w',
    AuthContext.login email password st w db env =
      (db, w',
       {| AuthContext.user := AuthContext.user st;
          AuthContext.loading := false; AuthContext.error := Some m |},
       Rejected m) ∧
    (s = 401%nat →
     getItem "token" w' = None ∧
     ∀ st', AuthContext.isAuthenticated st' w' = false) ∧
    (s ≠ 401%nat → w' = w).
Proof.
  intros credentials Hres Hs Hm.
  assert (Api.validateStatus (send s m) = false) as Hbad.
  { unfold Api.validateStatus. simpl. apply andb_false_iff. right.
    apply Nat.ltb_ge. lia. }
  assert ((app db env (POST_login credentials)).1 = db) as Hdb by apply login_db.
  unfold AuthContext.login, Api.login. fold credentials. rewrite call_unfold.
  rewrite Hres, Hdb. unfold Api.responseInterceptor. rewrite Hbad. simpl.
  apply String.eqb_neq in Hm.
  destruct (s =? 401)%nat eqn:H401; simpl; unfold JS.or_else; rewrite Hm.
  - eexists. split; [done|]. split.
    + intros _.
      assert (getItem "token"
                {| localStorage := delete "user" (delete "token" (localStorage w));
                   location := "/login" |} = None) as Htok.
      { unfold getItem. simpl. rewrite lookup_delete_ne by done. apply lookup_delete_eq. }
      split; [done|]. intros st'. unfold AuthContext.isAuthenticated.
      rewrite Htok. simpl. apply andb_false_r.
    + intros Hne. apply Nat.eqb_eq in H401. done.
  - exists w. split; [done|]. split; [|done].
    intros ->. by rewrite Nat.eqb_refl in H401.
Qed.
End SessionClientProperties.


(** ** The dashboard and the list route *)

Section ListedFacts.

Lemma elem_of_listed_iff db owner d :
  d ∈ listed db owner ↔ tasks db !! d.1 = Some d.2 ∧ Task.user d.2 = owner.
Proof.
  unfold listed. rewrite sort_createdAt_desc_perm, elem_of_find.
  by rewrite Pos.eqb_eq.
Qed.

Lemma NoDup_listed db owner : NoDup (listed db owner).
Proof. unfold listed. rewrite sort_createdAt_desc_perm. apply NoDup_find. Qed.

Lemma listed_sorted db owner : StronglySorted Mongoose.newer_first (listed db owner).
Proof. apply sort_createdAt_desc_sorted. Qed.

(** With pairwise different creation instants there is one way to list:
    a duplicate-free list, newest first, of exactly the owner's tasks is
    the list of the route. *)
Lemma listed_unique db owner l :
  distinct_instants db owner →
  StronglySorted Mongoose.newer_first l → NoDup l →
  (∀ d, d ∈ l ↔ tasks db !! d.1 = Some d.2 ∧ Task.user d.2 = owner) →
  l = listed db owner.
Proof.
  intros Hdist Hsorted Hnd Hmem.
  apply (StronglySorted_unique_strong Mongoose.newer_first); [|done|apply listed_sorted|].
  - intros x1 x2 [Hl1 Hu1]%Hmem [Hl2 Hu2]%elem_of_listed_iff H12 H21.
    unfold Mongoose.newer_first in *.
    assert (x1.1 = x2.1) as Hk.
    { apply (Hdist x1.1 x2.1 x1.2 x2.2); try done. lia. }
    destruct x1 as [k1 t1], x2 as [k2 t2]. simpl in *. subst k2. congruence.
  - apply NoDup_Permutation; [done | apply NoDup_listed |].
    intros d. by rewrite Hmem, elem_of_listed_iff.
Qed.

Lemma StronglySorted_filter_bool {A} (R : relation A) (f : A → bool) l :
  StronglySorted R l → StronglySorted R (List.filter f l).
Proof.
  induction 1 as [|x l Hs IH Hall]; simpl; [constructor|].
  destruct (f x); [|done]. constructor; [done|].
  rewrite Forall_forall in Hall |- *. intros y Hy.
  apply Hall. apply list_elem_of_In in Hy. apply filter_In in Hy as [Hy _].
  by apply list_elem_of_In.
Qed.

Lemma StronglySorted_map_same_instant (f : positive * Task.t → positive * Task.t) l :
  (∀ x, x ∈ l → Task.createdAt (f x).2 = Task.createdAt x.2) →
  StronglySorted Mongoose.newer_first l →
  StronglySorted Mongoose.newer_first (List.map f l).
Proof.
  intros Hf Hs. induction Hs as [|x l Hs IH Hall]; simpl; [constructor|].
  constructor.
  - apply IH. intros y Hy. apply Hf. apply elem_of_cons. by right.
  - rewrite Forall_forall in Hall |- *. intros y Hy.
    apply list_elem_of_In, in_map_iff in Hy as (z & <- & Hz).
    apply list_elem_of_In in Hz. specialize (Hall z Hz).
    unfold Mongoose.newer_first in *.
    rewrite (Hf x), (Hf z); [done | apply elem_of_cons; by right | apply elem_of_cons; by left].
Qed.
End ListedFacts.

Section DashboardProperties.
Context `{Validator, Bcrypt, Jsonwebtoken, Platform}.
Import ExpressValidator.

Lemma distinct_instants_insert_new db owner id doc :
  distinct_instants db owner → tasks db !! id = None →
  (∀ k t, tasks db !! k = Some t → Task.user t = owner →
          (Task.createdAt t < Task.createdAt doc)%Z) →
  distinct_instants {| users := users db; tasks := <[id := doc]> (tasks db) |} owner.
Proof.
  intros Hd Hnew Hlater i j t t'. simpl. rewrite !lookup_insert.
  repeat case_decide; subst; try done.
  - intros [= <-] Hl _ Hu He. specialize (Hlater j t' Hl Hu). lia.
  - intros Hl [= <-] Hu _ He. specialize (Hlater i t Hl Hu). lia.
  - apply Hd.
Qed.

(** X22. Creating a task from the dashboard keeps the page in step with
    the server. Let the browser be authenticated as an identity, let the
    page show what the list route returns for it, let its tasks have
    pairwise different creation instants, and let the clock read a later
    instant than all of them. After [handleCreateTask], accepted or
    rejected by the server, the page shows exactly what the list route
    returns on the new database (the new task first when it was
    accepted), the creation instants are still pairwise different, and
    the stored session is untouched. *)
Theorem dashboard_create_in_sync db env st w u taskData :
  protect db env (Api.requestInterceptor w) = inr u →
  Dashboard.tasks st = listed db u.1 →
  distinct_instants db u.1 →
  (∀ id t, tasks db !! id = Some t → Task.user t = u.1 →
           (Task.createdAt t < now env)%Z) →
  Dashboard.tasks (Dashboard.handleCreateTask taskData st w db env).2
    = listed (Dashboard.handleCreateTask taskData st w db env).1.1 u.1 ∧
  distinct_instants (Dashboard.handleCreateTask taskData st w db env).1.1 u.1 ∧
  (Dashboard.handleCreateTask taskData st w db env).1.2 = w.
Proof.
  intros Hauth Hsync Hdist Hclock.
  unfold Dashboard.handleCreateTask, Api.createTask. rewrite call_unfold.
  simpl app. unfold protected. rewrite Hauth.
  destruct (post_tasks_cases db env u taskData) as [(_ & m & r & _ & ->) | (Hv & ->)].
  - simpl. done.
  - simpl.
    set (id := fresh (dom (tasks db))). set (doc := created_task (now env) u.1 taskData).
    assert (tasks db !! id = None) as Hnew by apply fresh_id_unused.
    split_and!; [|by apply distinct_instants_insert_new|done].
    apply listed_unique.
    + by apply distinct_instants_insert_new.
    + rewrite Hsync. constructor; [apply listed_sorted|].
      rewrite Forall_forall. intros d [Hl Hu]%elem_of_listed_iff.
      unfold Mongoose.newer_first. simpl. specialize (Hclock d.1 d.2 Hl Hu). lia.
    + rewrite Hsync. constructor; [|apply NoDup_listed].
      intros [Hl _]%elem_of_listed_iff. simpl in Hl. congruence.
    + intros d. rewrite elem_of_cons, Hsync, elem_of_listed_iff. simpl.
      rewrite lookup_insert. case_decide as Hk.
      * split.
        -- intros [-> | [Hl _]]; [done|]. rewrite <- Hk in Hl. congruence.
        -- intros [[= Hd] _]. left. destruct d as [k t]. simpl in *. by subst.
      * split.
        -- intros [-> | ?]; [done|done].
        -- intros ?. by right.
Qed.

Lemma distinct_instants_delete db owner id :
  distinct_instants db owner →
  distinct_instants {| users := users db; tasks := delete id (tasks db) |} owner.
Proof.
  intros Hd i j t t'. simpl. rewrite !lookup_delete.
  repeat case_decide; try done. apply Hd.
Qed.

Lemma distinct_instants_replace db owner id old doc :
  distinct_instants db owner → tasks db !! id = Some old →
  Task.user doc = Task.user old → Task.createdAt doc = Task.createdAt old →
  distinct_instants {| users := users db; tasks := <[id := doc]> (tasks db) |} owner.
Proof.
  intros Hd Hold Hu Hc i j t t'. simpl. rewrite !lookup_insert.
  repeat case_decide; subst; try done.
  - intros [= <-] Hl Hu1 Hu2 He. apply (Hd i j old t'); try done; congruence.
  - intros Hl [= <-] Hu1 Hu2 He. apply (Hd i j t old); try done; congruence.
  - apply Hd.
Qed.

(** X23. Deleting a task from the dashboard keeps the page in step with
    the server. Under the same conditions as for creating (any clock),
    after [handleDeleteTask] of any id, whether the server deletes the
    task or answers 404, the page shows exactly what the list route
    returns on the new database, and the stored session is untouched. *)
Theorem dashboard_delete_in_sync db env st w u taskId :
  protect db env (Api.requestInterceptor w) = inr u →
  Dashboard.tasks st = listed db u.1 →
  distinct_instants db u.1 →
  Dashboard.tasks (Dashboard.handleDeleteTask taskId st w db env).2
    = listed (Dashboard.handleDeleteTask taskId st w db env).1.1 u.1 ∧
  distinct_instants (Dashboard.handleDeleteTask taskId st w db env).1.1 u.1 ∧
  (Dashboard.handleDeleteTask taskId st w db env).1.2 = w.
Proof.
  intros Hauth Hsync Hdist.
  unfold Dashboard.handleDeleteTask, Api.deleteTask. rewrite call_unfold.
  simpl app. unfold protected. rewrite Hauth.
  destruct (delete_tasks_cases db u taskId) as [(_ & ->) | (task & Hl & Hu & ->)].
  - simpl. done.
  - simpl. split_and!; [|by apply distinct_instants_delete|done].
    apply listed_unique.
    + by apply distinct_instants_delete.
    + rewrite Hsync. apply StronglySorted_filter_bool, listed_sorted.
    + rewrite Hsync. apply NoDup_ListNoDup, List.NoDup_filter, NoDup_ListNoDup, NoDup_listed.
    + intros d. rewrite list_elem_of_In, filter_In, <- list_elem_of_In.
      rewrite Hsync, elem_of_listed_iff. simpl.
      rewrite negb_true_iff, Pos.eqb_neq, lookup_delete. case_decide as Hk.
      * split; [intros [_ ?]; congruence | intros [? _]; done].
      * split; [intros [? _]; done | intros ?; split; [done | congruence]].
Qed.

(** X24. Updating a task from the dashboard keeps the page in step with
    the server. Under the same conditions (any clock), after
    [handleUpdateTask] of any id with any payload, whether the server
    applies it or answers 400, 404 or 500, the page shows exactly what the
    list route returns on the new database: the updated task takes the
    place of the old one, since an update moves neither the owner nor the
    creation instant. *)
Theorem dashboard_update_in_sync db env st w u taskId updates :
  protect db env (Api.requestInterceptor w) = inr u →
  Dashboard.tasks st = listed db u.1 →
  distinct_instants db u.1 →
  Dashboard.tasks (Dashboard.handleUpdateTask taskId updates st w db env).2
    = listed (Dashboard.handleUpdateTask taskId updates st w db env).1.1 u.1 ∧
  distinct_instants (Dashboard.handleUpdateTask taskId updates st w db env).1.1 u.1 ∧
  (Dashboard.handleUpdateTask taskId updates st w db env).1.2 = w.
Proof.
  intros Hauth Hsync Hdist.
  unfold Dashboard.handleUpdateTask, Api.updateTask. rewrite call_unfold.
  simpl app. unfold protected. rewrite Hauth.
  destruct (put_tasks_cases db env u taskId updates)
    as [(m & r & _ & ->) | [(_ & _ & ->) | (_ & task & Hl & Hu & [-> | (task' & Ha & _ & ->)])]];
    [simpl; done..|].
  simpl.
  set (doc := saved (now env) task task').
  assert (Task.user doc = Task.user task ∧ Task.createdAt doc = Task.createdAt task)
    as [Hdu Hdc].
  { destruct (assign_fields_sanitized updates task task' Ha) as (F1 & F2 & _).
    destruct (saved_fields (now env) task task') as (S1 & _ & _ & _ & S5).
    unfold doc. by rewrite S1, S5. }
  split_and!; [|by apply (distinct_instants_replace db u.1 taskId task)|done].
  set (f := λ x : positive * Task.t, if Pos.eqb x.1 taskId then (taskId, doc) else x).
  assert (∀ x, (f x).1 = x.1) as Hkey.
  { intros x. unfold f. destruct (Pos.eqb_spec x.1 taskId); done. }
  assert (∀ x, x ∈ listed db u.1 → x.1 = taskId → x = (taskId, task)) as Hat.
  { intros [k t] [Hx _]%elem_of_listed_iff Hk. simpl in *. subst k. congruence. }
  apply listed_unique.
  - by apply (distinct_instants_replace db u.1 taskId task).
  - rewrite Hsync. apply StronglySorted_map_same_instant; [|apply listed_sorted].
    intros x Hx. unfold f. destruct (Pos.eqb_spec x.1 taskId) as [E|]; [|done].
    rewrite (Hat x Hx E). done.
  - rewrite Hsync. change (List.map f (listed db u.1)) with (f <$> listed db u.1).
    apply NoDup_fmap_2_strong; [|apply NoDup_listed].
    intros x y Hx Hy Hxy.
    assert (x.1 = y.1) as Hk by (rewrite <- (Hkey x), <- (Hkey y); by rewrite Hxy).
    apply elem_of_listed_iff in Hx as [Hx _]. apply elem_of_listed_iff in Hy as [Hy _].
    destruct x as [k1 t1], y as [k2 t2]. simpl in *. subst k2. congruence.
  - intros d. change (List.map f (listed db u.1)) with (f <$> listed db u.1) in Hsync.
    rewrite Hsync, list_elem_of_fmap. simpl. rewrite lookup_insert. split.
    + intros (x & -> & Hx). pose proof Hx as [Hlx Hux]%elem_of_listed_iff.
      unfold f. destruct (Pos.eqb_spec x.1 taskId) as [E|Hne]; simpl.
      * rewrite decide_True by done. split; [done|]. by rewrite Hdu.
      * rewrite decide_False by done. done.
    + case_decide as Hk.
      * intros [[= Hd] Hud]. exists (taskId, task). split.
        -- unfold f. simpl. rewrite Pos.eqb_refl. destruct d as [k t]. simpl in *. by subst.
        -- apply elem_of_listed_iff. done.
      * intros [Hld Hud]. exists d. split.
        -- unfold f. destruct (Pos.eqb_spec d.1 taskId); [congruence | done].
        -- by apply elem_of_listed_iff.
Qed.
End DashboardProperties.

(** ** The further properties on concrete requests *)

Section MoreRuns.
Import ExpressValidator.

Lemma sample_users_unique : users_unique Sample.db.
Proof.
  intros i j u v Hi Hj Hsame.
  destruct (sample_users i u Hi) as [[-> ->] | [-> ->]];
    destruct (sample_users j v Hj) as [[-> ->] | [-> ->]]; try reflexivity;
    destruct Hsame as [E | E]; discriminate E.
Defined.

Lemma sample_zed_free :
  ¬ email_taken (email_key Sample2.zed) Sample.db ∧
  ¬ username_taken (JS.trim (toString (Body.username Sample2.zed))) Sample.db.
Proof.
  split; intros (id & u & Hl & He);
    destruct (sample_users id u Hl) as [[_ ->] | [_ ->]]; discriminate He.
Defined.

(** Zed registers on the sample database. *)
Lemma register_creates_identity_witness :
  ∃ id,
    users Sample.db !! id = None ∧
    (register Sample.db Sample.env Sample2.zed).2 =
      {| status := 201;
         json := Session "User registered successfully"
                         (jwt_sign id JWT_SECRET (now Sample.env)) id
                         "zed" "zed@example.com" |}.
Proof.
  destruct sample_zed_free as [Hfe Hfu].
  destruct (register_creates_identity Sample.db Sample.env Sample2.zed)
    as (id & Hnew & Hreg & _); [|exact Hfe|exact Hfu|reflexivity|].
  - split_and!; [vm_compute; lia | reflexivity | vm_compute; lia].
  - exists id. split; [exact Hnew|]. rewrite Hreg. reflexivity.
Defined.

(** An address with a plus sign passes the request validation and is
    refused by the stricter pattern of the schema. *)
Lemma register_schema_rejection_witness :
  @register Sample.validator Sample.bcrypt Sample.jsonwebtoken Sample2.strict_platform
            Sample.db Sample.env Sample2.zed_plus
    = (Sample.db, send 500 "Server error during registration").
Proof.
  apply (@register_schema_rejection Sample.validator Sample.bcrypt Sample.jsonwebtoken
           Sample2.strict_platform).
  - split_and!; [vm_compute; lia | reflexivity | vm_compute; lia].
  - intros (id & u & Hl & He).
    destruct (sample_users id u Hl) as [[_ ->] | [_ ->]]; discriminate He.
  - intros (id & u & Hl & He).
    destruct (sample_users id u Hl) as [[_ ->] | [_ ->]]; discriminate He.
  - reflexivity.
Defined.

Lemma length_append (s1 s2 : string) :
  String.length (s1 ++ s2) = (String.length s1 + String.length s2)%nat.
Proof. induction s1 as [|c s1 IH]; simpl; [done | by rewrite IH]. Qed.

Lemma sample_hash_differs password salt :
  @bcrypt_hash Sample.bcrypt password salt ≠ password.
Proof.
  simpl. intros E. apply (f_equal String.length) in E.
  rewrite !length_append in E. simpl in E. lia.
Defined.

(** The database after Carl's two requests. *)
Lemma identities_unique_and_hashed_witness :
  reachable Sample.served ∧ users_unique Sample.served ∧ users_ok Sample.served ∧
  ∀ id u, users Sample.served !! id = Some u →
          ∃ password salt,
            User.password u = Some (bcrypt_hash password salt) ∧
            User.password u ≠ Some password.
Proof.
  assert (reachable Sample.served) as Hr.
  { unfold Sample.served. apply reachable_step, reachable_step, reachable_empty. }
  destruct (identities_unique_and_hashed Sample.served Hr) as (Hu & Ho & Hh).
  split_and!; [exact Hr | exact Hu | exact Ho | exact (Hh sample_hash_differs)].
Defined.

(** Ann logs in. *)
Lemma login_returns_session_witness :
  login Sample.db Sample.env Sample2.ann_credentials =
    (Sample.db,
     {| status := 200;
        json := Session "Login successful" Sample2.ann_token 1 "ann" "ann@example.com" |}).
Proof.
  etransitivity.
  - apply (login_returns_session Sample.db Sample.env Sample2.ann_credentials
             1%positive Sample.ann "NaCl:hunter22");
      [exact sample_users_unique | split; [reflexivity | discriminate]
      | reflexivity | reflexivity | reflexivity | reflexivity].
  - vm_compute. reflexivity.
Defined.

(** Zed registers and, a day later, logs in. *)
Lemma register_then_login_witness :
  ∃ id,
    status (register Sample.db Sample.env Sample2.zed).2 = 201%nat ∧
    (login (register Sample.db Sample.env Sample2.zed).1 Sample2.next_day Sample2.zed).2 =
      {| status := 200;
         json := Session "Login successful"
                         (jwt_sign id JWT_SECRET (now Sample2.next_day)) id
                         "zed" "zed@example.com" |}.
Proof.
  destruct sample_zed_free as [Hfe Hfu].
  destruct (register_then_login Sample.db Sample.env Sample2.next_day Sample2.zed)
    as (id & Hreg & Hlogin); [|exact Hfe|exact Hfu|reflexivity|reflexivity|].
  - split_and!; [vm_compute; lia | reflexivity | vm_compute; lia].
  - exists id. rewrite Hreg, Hlogin. split; reflexivity.
Defined.

(** Ann's token a day after it was signed, and thirty days after. *)
Lemma issued_token_window_witness :
  protect Sample.db Sample2.next_day (Some ("Bearer " ++ Sample2.ann_token))
    = inr (1%positive, Mongoose.select_minus_password Sample.ann) ∧
  protect Sample.db {| now := 1000000 + 2592000000; salt := "" |}
          (Some ("Bearer " ++ Sample2.ann_token))
    = inl (send 401 "Not authorized, token failed").
Proof.
  split.
  - destruct (issued_token_window Sample.db Sample.env Sample2.next_day 1 Sample.ann)
      as [Hin _];
      [reflexivity | reflexivity | reflexivity | discriminate | reflexivity |].
    etransitivity; [apply Hin; vm_compute; reflexivity | vm_compute; reflexivity].
  - destruct (issued_token_window Sample.db Sample.env
                {| now := 1000000 + 2592000000; salt := "" |} 1 Sample.ann)
      as [_ Hout];
      [reflexivity | reflexivity | reflexivity | discriminate | reflexivity |].
    etransitivity; [apply Hout; vm_compute; discriminate | vm_compute; reflexivity].
Defined.

(** A list request without a header, and one with a Basic header. *)
Lemma task_routes_require_bearer_witness :
  app Sample.db Sample.env (GET_tasks None)
    = (Sample.db, send 401 "Not authorized, no token") ∧
  app Sample.db Sample.env (DELETE_tasks (Some "Basic YW5uOmh1bnRlcjIy") 1)
    = (Sample.db, send 401 "Not authorized, no token").
Proof.
  split.
  - apply (task_routes_require_bearer Sample.db Sample.env (GET_tasks None) None);
      [reflexivity | left; reflexivity].
  - apply (task_routes_require_bearer Sample.db Sample.env
             (DELETE_tasks (Some "Basic YW5uOmh1bnRlcjIy") 1)
             (Some "Basic YW5uOmh1bnRlcjIy"));
      [reflexivity | right; eexists; split; reflexivity].
Defined.

(** An expired token on the delete route. *)
Lemma unauthenticated_request_rejected_witness :
  (app Sample.db Sample.env (DELETE_tasks (Some "Bearer 1.1000.s3cret") 1)).1 = Sample.db ∧
  status (app Sample.db Sample.env (DELETE_tasks (Some "Bearer 1.1000.s3cret") 1)).2
    = 401%nat.
Proof.
  apply (unauthenticated_request_rejected Sample.db Sample.env
           (DELETE_tasks (Some "Bearer 1.1000.s3cret") 1));
    [discriminate | reflexivity].
Defined.

(** Ann, authenticated, asks to delete and to update Bob's task. *)
Lemma other_owners_tasks_untouched_witness :
  tasks (app Sample.db Sample.env (DELETE_tasks (Some "Bearer 1.2000.s3cret") 2)).1
    !! 2%positive = Some Sample.rent ∧
  tasks (app Sample.db Sample.env
           (PUT_tasks (Some "Bearer 1.2000.s3cret") 2
                      (Body.mk None None None (Some "Mine now") None None None))).1
    !! 2%positive = Some Sample.rent.
Proof.
  split; apply other_owners_tasks_untouched;
    [reflexivity | vm_compute; discriminate | reflexivity | vm_compute; discriminate].
Defined.

(** Ann renames her task. *)
Lemma owner_and_creation_time_fixed_witness :
  ∃ t', tasks (app Sample.db Sample.env
                 (PUT_tasks (Some "Bearer 1.2000.s3cret") 1
                            (Body.mk None None None (Some "Buy oat milk") None None None))).1
          !! 1%positive = Some t' ∧
        Task.title t' = "Buy oat milk" ∧
        Task.user t' = 1%positive ∧ Task.createdAt t' = 10%Z.
Proof.
  eexists. split; [reflexivity|]. split; [reflexivity|].
  apply (owner_and_creation_time_fixed Sample.db Sample.env
           (PUT_tasks (Some "Bearer 1.2000.s3cret") 1
                      (Body.mk None None None (Some "Buy oat milk") None None None))
           1%positive Sample.milk); reflexivity.
Defined.

(** A delete of a task that does not exist. *)
Lemma error_responses_store_nothing_witness :
  status (app Sample.db Sample.env (DELETE_tasks (Some "Bearer 1.2000.s3cret") 9)).2
    = 404%nat ∧
  (app Sample.db Sample.env (DELETE_tasks (Some "Bearer 1.2000.s3cret") 9)).1 = Sample.db.
Proof.
  split; [reflexivity|].
  apply error_responses_store_nothing. vm_compute. lia.
Defined.

(** A registration with a short username and a malformed e-mail. *)
Lemma register_reports_first_field_witness :
  register Sample.db Sample.env
           (Body.mk (Some " ab ") (Some "nobody") (Some "pw") None None None None)
    = (Sample.db, send 400 "Username must be at least 3 characters long").
Proof.
  destruct (register_reports_first_field Sample.db Sample.env
              (Body.mk (Some " ab ") (Some "nobody") (Some "pw") None None None None))
    as (msg & Hreg & Hmsg & _).
  - intros (Hu & _). vm_compute in Hu. lia.
  - rewrite Hreg, Hmsg; [reflexivity | vm_compute; lia].
Defined.

(** Ann's e-mail without a password. *)
Lemma login_requires_password_witness :
  login Sample.db Sample.env
        (Body.mk None (Some "ann@example.com") None None None None None)
    = (Sample.db, send 400 "Password is required").
Proof. apply login_requires_password; reflexivity. Defined.

(** A description of 1001 characters and a flag that is no boolean. *)
Lemma update_reports_first_violation_witness :
  put_tasks Sample.db Sample.env Sample.req_ann 1
            (Body.mk None None None (Some "Buy milk") (Some (Sample.repeat "y" 1001))
                     (Some (FlagString "maybe")) None)
    = (Sample.db, send 400 "Description cannot exceed 1000 characters").
Proof.
  destruct (update_reports_first_violation Sample.db Sample.env Sample.req_ann 1
              (Body.mk None None None (Some "Buy milk") (Some (Sample.repeat "y" 1001))
                       (Some (FlagString "maybe")) None))
    as (msg & Hput & _ & _ & Hdesc & _).
  - intros (_ & Hd & _). specialize (Hd _ eq_refl). vm_compute in Hd. lia.
  - rewrite Hput. rewrite (Hdesc ltac:(intros v [= <-]; split; [discriminate | vm_compute; lia])
                                 (Sample.repeat "y" 1001) eq_refl);
      [reflexivity | vm_compute; lia].
Defined.
End MoreRuns.

(** ** The client on the sample server *)

Section ClientRuns.

Lemma sample_tasks id t :
  tasks Sample.db !! id = Some t →
  (id = 1%positive ∧ t = Sample.milk) ∨ (id = 2%positive ∧ t = Sample.rent).
Proof.
  unfold Sample.db. simpl. rewrite lookup_insert. case_decide as E1.
  - intros [= <-]. left. done.
  - rewrite lookup_insert. case_decide as E2.
    + intros [= <-]. right. done.
    + rewrite lookup_empty. discriminate.
Defined.

Lemma sample_distinct_instants : distinct_instants Sample.db 1.
Proof.
  intros i j t t' Hi Hj Ht Ht' _.
  destruct (sample_tasks i t Hi) as [[-> ->] | [-> ->]];
    destruct (sample_tasks j t' Hj) as [[-> ->] | [-> ->]];
    try reflexivity; discriminate.
Defined.

(** The header sent from a browser that holds Ann's token, and from one
    that holds none. *)
Lemma request_header_carries_token_witness :
  (∃ header, Api.requestInterceptor Sample2.ann_window = Some header ∧
             JS.startsWith header "Bearer" = true ∧
             JS.split " " header !! 1%nat = Some Sample2.ann_token) ∧
  Api.requestInterceptor Sample2.fresh_window = None.
Proof.
  split.
  - destruct (request_header_carries_token Sample2.ann_window) as [Hsome _].
    apply (Hsome Sample2.ann_token); [reflexivity | discriminate | reflexivity].
  - destruct (request_header_carries_token Sample2.fresh_window) as [_ Hnone].
    apply Hnone. reflexivity.
Defined.

(** A browser whose token has expired asks for the list. *)
Lemma unauthorized_reply_ends_session_witness :
  getItem "token"
    (Api.call GET_tasks Sample2.expired_window Sample.db Sample.env).1.2 = None ∧
  location (Api.call GET_tasks Sample2.expired_window Sample.db Sample.env).1.2
    = "/login".
Proof.
  pose proof (unauthorized_reply_ends_session GET_tasks Sample2.expired_window
                Sample.db Sample.env) as Hx.
  assert ((Api.call GET_tasks Sample2.expired_window Sample.db Sample.env).2
          = Failed (send 401 "Not authorized, token failed")) as E
    by (vm_compute; reflexivity).
  rewrite E in Hx. simpl in Hx. destruct Hx as (Ht & _ & Hloc & _).
  split; [exact Ht | exact Hloc].
Defined.

(** Ann signs out. *)
Lemma logout_ends_session_witness :
  getItem "token" (AuthContext.logout Sample2.ann_session Sample2.ann_window).1 = None ∧
  (Api.call GET_tasks (AuthContext.logout Sample2.ann_session Sample2.ann_window).1
            Sample.db Sample.env).2
    = Failed (send 401 "Not authorized, no token").
Proof.
  destruct (logout_ends_session Sample2.ann_session Sample2.ann_window
              Sample.db Sample.env) as (_ & Ht & _ & Hcall).
  split; [exact Ht|]. apply (Hcall GET_tasks). reflexivity.
Defined.

(** Ann signs in from a fresh browser and, a day later, opens the
    dashboard. *)
Lemma login_then_fetch_witness :
  ∃ w',
    AuthContext.login "Ann@Example.com" "hunter22" Sample2.signed_out
                      Sample2.fresh_window Sample.db Sample.env =
      (Sample.db, w',
       {| AuthContext.user := Some (mkUserInfo 1 "ann" "ann@example.com");
          AuthContext.loading := false; AuthContext.error := None |},
       Resolved true) ∧
    getItem "token" w' = Some Sample2.ann_token ∧
    Dashboard.fetchTasks Sample2.blank_page w' Sample.db Sample2.next_day =
      (Sample.db, w',
       {| Dashboard.tasks := [(1%positive, Sample.milk)]; Dashboard.loading := false;
          Dashboard.error := None; Dashboard.alerted := None |}).
Proof.
  pose proof (login_then_fetch Sample.db Sample.env Sample2.next_day Sample2.signed_out
                Sample2.blank_page Sample2.fresh_window "Ann@Example.com" "hunter22" 1%positive Sample.ann
                "NaCl:hunter22") as Hx.
  cbv zeta in Hx.
  destruct Hx as (w' & Hlogin & Htok & _ & Hfetch).
  - exact sample_users_unique.
  - split; [reflexivity | discriminate].
  - reflexivity.
  - reflexivity.
  - reflexivity.
  - reflexivity.
  - reflexivity.
  - reflexivity.
  - reflexivity.
  - discriminate.
  - vm_compute. reflexivity.
  - exists w'. split; [|split].
    + rewrite Hlogin. reflexivity.
    + rewrite Htok. vm_compute. reflexivity.
    + rewrite Hfetch. vm_compute. reflexivity.
Defined.

(** Ann mistypes her password. *)
Lemma failed_login_shows_message_witness :
  ∃ w',
    AuthContext.login "ann@example.com" "hunter23" Sample2.signed_out
                      Sample2.ann_window Sample.db Sample.env =
      (Sample.db, w',
       {| AuthContext.user := None; AuthContext.loading := false;
          AuthContext.error := Some "Invalid email or password" |},
       Rejected "Invalid email or password") ∧
    getItem "token" w' = None.
Proof.
  pose proof (failed_login_shows_message Sample.db Sample.env Sample2.signed_out
                Sample2.ann_window "ann@example.com" "hunter23" 401%nat
                "Invalid email or password") as Hx.
  cbv zeta in Hx.
  destruct Hx as (w' & Hlogin & Hgone & _).
  - reflexivity.
  - lia.
  - discriminate.
  - exists w'. split; [exact Hlogin|]. apply (Hgone eq_refl).
Defined.

(** Ann adds a task from her dashboard. *)
Lemma dashboard_create_in_sync_witness :
  Dashboard.tasks (Dashboard.handleCreateTask Sample2.water_plants Sample2.ann_page
                     Sample2.ann_window Sample.db Sample.env).2
    = listed (Dashboard.handleCreateTask Sample2.water_plants Sample2.ann_page
                Sample2.ann_window Sample.db Sample.env).1.1 1 ∧
  (Dashboard.handleCreateTask Sample2.water_plants Sample2.ann_page
     Sample2.ann_window Sample.db Sample.env).1.2 = Sample2.ann_window.
Proof.
  destruct (dashboard_create_in_sync Sample.db Sample.env Sample2.ann_page
              Sample2.ann_window Sample.req_ann Sample2.water_plants)
    as (Hsync & _ & Hw).
  - vm_compute. reflexivity.
  - vm_compute. reflexivity.
  - exact sample_distinct_instants.
  - intros id t Hl _.
    destruct (sample_tasks id t Hl) as [[_ ->] | [_ ->]]; vm_compute; reflexivity.
  - split; [exact Hsync | exact Hw].
Defined.

(** Ann deletes her task from her dashboard. *)
Lemma dashboard_delete_in_sync_witness :
  Dashboard.tasks (Dashboard.handleDeleteTask 1 Sample2.ann_page
                     Sample2.ann_window Sample.db Sample.env).2
    = listed (Dashboard.handleDeleteTask 1 Sample2.ann_page
                Sample2.ann_window Sample.db Sample.env).1.1 1 ∧
  Dashboard.tasks (Dashboard.handleDeleteTask 1 Sample2.ann_page
                     Sample2.ann_window Sample.db Sample.env).2 = [].
Proof.
  destruct (dashboard_delete_in_sync Sample.db Sample.env Sample2.ann_page
              Sample2.ann_window Sample.req_ann 1) as (Hsync & _ & _).
  - vm_compute. reflexivity.
  - vm_compute. reflexivity.
  - exact sample_distinct_instants.
  - split; [exact Hsync | vm_compute; reflexivity].
Defined.

(** Ann ticks her task. *)
Lemma dashboard_update_in_sync_witness :
  Dashboard.tasks (Dashboard.handleUpdateTask 1 Sample2.tick Sample2.ann_page
                     Sample2.ann_window Sample.db Sample.env).2
    = listed (Dashboard.handleUpdateTask 1 Sample2.tick Sample2.ann_page
                Sample2.ann_window Sample.db Sample.env).1.1 1 ∧
  Task.completed <$>
    (tasks (Dashboard.handleUpdateTask 1 Sample2.tick Sample2.ann_page
              Sample2.ann_window Sample.db Sample.env).1.1 !! 1%positive) = Some true.
Proof.
  destruct (dashboard_update_in_sync Sample.db Sample.env Sample2.ann_page
              Sample2.ann_window Sample.req_ann 1 Sample2.tick) as (Hsync & _ & _).
  - vm_compute. reflexivity.
  - vm_compute. reflexivity.
  - exact sample_distinct_instants.
  - split; [exact Hsync | vm_compute; reflexivity].
Defined.
End ClientRuns.

(** ** The forms against the server *)

Section FormFacts.
Context `{Validator, Bcrypt, Jsonwebtoken, Platform}.
Import ExpressValidator.

Local Arguments isLength : simpl never.
Local Arguments notEmpty : simpl never.
Local Arguments isBoolean : simpl never.
Local Arguments JS.trim : simpl never.


Lemma updateTask_authenticated db env w u id b :
  protect db env (Api.requestInterceptor w) = inr u →
  Api.updateTask id b w db env =
    ((put_tasks db env u id b).1,
     (Api.responseInterceptor w (put_tasks db env u id b).2).1,
     (Api.responseInterceptor w (put_tasks db env u id b).2).2).
Proof.
  intros Ha. unfold Api.updateTask. rewrite call_unfold. simpl app.
  unfold protected. by rewrite Ha.
Qed.

Lemma responseInterceptor_400 w msg :
  Api.responseInterceptor w (send 400 msg) = (w, Failed (send 400 msg)).
Proof. reflexivity. Qed.

Lemma or_else_message msg fallback :
  msg ≠ "" → JS.or_else (Some msg) fallback = msg.
Proof.
  intros Hne. unfold JS.or_else.
  destruct (String.eqb_spec msg ""); [done|done].
Qed.


(** An update of [completed] alone. *)
Lemma put_tasks_completed db env (u : positive * User.t) (id : positive) c task :
  tasks db !! id = Some task → Task.user task = u.1 →
  Mongoose.Task_validate task = true →
  put_tasks db env u id (Body.mk None None None None None (Some (FlagBool c)) None) =
    let doc := saved (now env) task (Mongoose.set_completed c task) in
    ({| users := users db; tasks := <[id := doc]> (tasks db) |},
     {| status := 200; json := TaskDoc (id, doc) |}).
Proof.
  intros Hl Hu Hv.
  unfold put_tasks. rewrite put_validation_unfold. simpl.
  assert (isBoolean (if c then "true" else "false") = true) as ->
    by by destruct c.
  simpl. rewrite findOwnedTask_lookup, Hl.
  apply Pos.eqb_eq in Hu as ->.
  unfold assign_fields. simpl. unfold Mongoose.Task_save.
  assert (Mongoose.Task_validate (Mongoose.set_completed c task) = true) as ->
    by exact Hv.
  done.
Qed.

Lemma saved_toggled now task :
  saved now task (Mongoose.set_completed (negb (Task.completed task)) task) =
    Mongoose.set_updatedAt now
      (Mongoose.set_completed (negb (Task.completed task)) task).
Proof.
  unfold saved, Mongoose.isModified. simpl. rewrite !String.eqb_refl.
  by destruct (Task.completed task).
Qed.

End FormFacts.

Section TaskFormProperties.
Context `{Validator, Bcrypt, Jsonwebtoken, Platform}.
Import ExpressValidator.

Local Arguments isLength : simpl never.
Local Arguments notEmpty : simpl never.
Local Arguments isBoolean : simpl never.
Local Arguments JS.trim : simpl never.
Local Arguments JS.or_else : simpl never.

(** X25. The checkbox of a task, ticked twice. Let the browser be
    authenticated at both instants, and let the task be owned by the
    caller and pass the schema. The first [handleToggleComplete] stores
    the task with [completed] negated and [updatedAt] moved to the
    instant of the request; the second, made on the task as the page then
    shows it, stores the task with every field as it was at the start
    except [updatedAt], which is the instant of the second request. No
    other task, no identity and nothing in [localStorage] changes. *)
Theorem toggle_twice_restores db env env' st w u id t :
  protect db env (Api.requestInterceptor w) = inr u →
  protect db env' (Api.requestInterceptor w) = inr u →
  tasks db !! id = Some t → Task.user t = u.1 →
  Mongoose.Task_validate t = true →
  let t1 := Mongoose.set_updatedAt (now env)
              (Mongoose.set_completed (negb (Task.completed t)) t) in
  let once := Dashboard.handleToggleComplete (id, t) st w db env in
  let twice := Dashboard.handleToggleComplete (id, t1) once.2 once.1.2 once.1.1 env' in
  once.1.1 = {| users := users db; tasks := <[id := t1]> (tasks db) |} ∧
  twice.1.1 = {| users := users db;
                 tasks := <[id := Mongoose.set_updatedAt (now env') t]> (tasks db) |} ∧
  twice.1.2 = w.
Proof.
  intros Ha Ha' Hl Hu Hv t1 once twice.
  assert (once = ({| users := users db; tasks := <[id := t1]> (tasks db) |}, w,
                  Dashboard.set_tasks
                    (List.map (λ task, if Pos.eqb task.1 id then (id, t1) else task)
                              (Dashboard.tasks st)) st)) as Honce.
  { unfold once, Dashboard.handleToggleComplete, Dashboard.handleUpdateTask. simpl.
    rewrite (updateTask_authenticated db env w u) by done.
    rewrite (put_tasks_completed db env u id _ t) by done.
    simpl. rewrite saved_toggled. done. }
  split; [by rewrite Honce|].
  unfold twice. rewrite Honce. simpl.
  unfold Dashboard.handleToggleComplete, Dashboard.handleUpdateTask. simpl.
  set (db1 := {| users := users db; tasks := <[id := t1]> (tasks db) |}).
  assert (protect db1 env' (Api.requestInterceptor w) = inr u) as Ha''.
  { rewrite <- Ha'. reflexivity. }
  rewrite (updateTask_authenticated db1 env' w u) by done.
  rewrite (put_tasks_completed db1 env' u id _ t1);
    [| by (simpl; rewrite lookup_insert_eq) | done | exact Hv].
  pose proof (saved_toggled (now env') t1) as Hs. simpl in Hs.
  simpl. rewrite Hs. simpl. rewrite insert_insert_eq.
  split; [|done]. f_equal. f_equal. rewrite negb_involutive. by destruct t.
Qed.



Lemma or_else_empty d : JS.or_else (Some d) "" = d.
Proof. unfold JS.or_else. by destruct (String.eqb_spec d "") as [-> |]. Qed.

Lemma map_replace_same (task : positive * Task.t) (l : list (positive * Task.t)) :
  (∀ d, d ∈ l → d.1 = task.1 → d = task) →
  List.map (λ d, if Pos.eqb d.1 task.1 then task else d) l = l.
Proof.
  intros Hsame. induction l as [|d l IH]; [done|]. simpl.
  rewrite IH by (intros d' Hd'; apply Hsame; by right).
  destruct (Pos.eqb_spec d.1 task.1) as [E|]; [|done].
  f_equal. symmetry. apply Hsame; [by left | done].
Qed.

(** X30. Saving an unchanged editor changes nothing. Let the browser be
    authenticated, let the task be stored as the page shows it, owned by
    the caller, with trimmed texts that pass the schema (as every stored
    task has), and let the editor hold the texts it was opened with.
    Then [handleSave] closes the editor and leaves the database, not even
    [updatedAt] excepted, the page and the browser exactly as they were. *)
Theorem save_unchanged_is_noop db env (task : positive * Task.t) st page w u :
  protect db env (Api.requestInterceptor w) = inr u →
  tasks db !! task.1 = Some task.2 → Task.user task.2 = u.1 →
  Task_ok task.2 →
  TaskItem.editForm st = TaskItem.initialForm task →
  (∀ d, d ∈ Dashboard.tasks page → d.1 = task.1 → d = task) →
  TaskItem.handleSave task st page w db env =
    ({| TaskItem.isEditing := false; TaskItem.editForm := TaskItem.initialForm task |},
     (db, w, page)).
Proof.
  intros Ha Hl Hu (Ht & Hd & Hv) Hform Hpage.
  apply Task_validate_true in Hv as Hv'. destruct Hv' as (Hne & Hlt & Hld).
  unfold TaskItem.handleSave. rewrite Hform. simpl.
  rewrite (trim_id _ Ht).
  apply String.eqb_neq in Hne as Hne'. rewrite Hne'.
  unfold Dashboard.handleUpdateTask.
  rewrite (updateTask_authenticated db env w u) by done.
  rewrite (put_tasks_same db env u task.1 _ task.2); try done.
  - simpl. destruct task as [id t]. simpl in *.
    rewrite (map_replace_same (id, t)) by done.
    by destruct page.
  - split_and!.
    + simpl. intros v [= <-]. by rewrite (trim_id _ Ht).
    + simpl. intros d [= <-]. by rewrite or_else_empty, (trim_id _ Hd).
    + simpl. done.
  - simpl. intros v [= <-]. by apply trim_id.
  - simpl. intros d [= <-]. rewrite or_else_empty. by apply trim_id.
Qed.

End TaskFormProperties.

Section PageFacts.
Context `{Validator, Bcrypt, Jsonwebtoken, Platform}.
Import ExpressValidator.

Local Arguments isLength : simpl never.
Local Arguments notEmpty : simpl never.
Local Arguments JS.trim : simpl never.

(** The responses of the registration route. *)
Lemma register_response_cases db env b :
  ((String.length (JS.trim (toString (Body.username b))) < 3)%nat ∧
   register db env b = (db, send 400 "Username must be at least 3 characters long")) ∨
  ((3 ≤ String.length (JS.trim (toString (Body.username b))))%nat ∧
   (register db env b = (db, send 400 "Please provide a valid email") ∨
    ((String.length (toString (Body.password b)) < 6)%nat ∧
     register db env b = (db, send 400 "Password must be at least 6 characters long")) ∨
    register db env b = (db, send 400 "User already exists with this email") ∨
    register db env b = (db, send 400 "Username already taken") ∨
    register db env b = (db, send 500 "Server error during registration") ∨
    ∃ db' token id username email,
      register db env b =
        (db', {| status := 201;
                 json := Session "User registered successfully" token id username
                                 email |}))).
Proof.
  destruct (isLength 3 None (JS.trim (toString (Body.username b)))) eqn:Eu.
  - right. apply isLength_min_true in Eu as Hu. split; [done|].
    destruct (isEmail (toString (Body.email b))) eqn:Ee.
    + destruct (isLength 6 None (toString (Body.password b))) eqn:Ep.
      * apply isLength_min_true in Ep as Hp.
        assert (valid_registration b) as Hv by done.
        rewrite (register_valid_unfold db env b Hv).
        destruct (Mongoose.User_findOne_email _ _) eqn:E1; [by right; right; left|].
        destruct (Mongoose.User_findOne_username _ _) eqn:E2;
          [by right; right; right; left|].
        assert (¬ email_taken (email_key b) db) as Hfe.
        { rewrite email_taken_found, E1. by intros [? ?]. }
        assert (¬ username_taken (JS.trim (toString (Body.username b))) db) as Hfu.
        { rewrite <- trim_idemp, username_taken_found, E2. by intros [? ?]. }
        destruct (register_proceeds db env b Hv Hfe Hfu) as (password & _ & ->).
        destruct (Mongoose.User_create _ _ _ _ _) as [[users' [id user]]|].
        -- right. right. right. right. right. by eexists _, _, _, _, _.
        -- right. right. right. right. by left.
      * right. left. split.
        { unfold isLength in Ep. rewrite andb_true_r in Ep. by apply Nat.leb_gt in Ep. }
        unfold register. rewrite register_validation_unfold. simpl.
        by rewrite Eu, Ee, Ep.
    + left. unfold register. rewrite register_validation_unfold. simpl.
      by rewrite Eu, Ee.
  - left. split.
    { unfold isLength in Eu. rewrite andb_true_r in Eu. by apply Nat.leb_gt in Eu. }
    unfold register. rewrite register_validation_unfold. simpl. by rewrite Eu.
Qed.

(** The responses of the login route. *)
Lemma login_response_cases db env b :
  login db env b = (db, send 400 "Please provide a valid email") ∨
  (toString (Body.password b) = "" ∧
   login db env b = (db, send 400 "Password is required")) ∨
  login db env b = (db, send 401 "Invalid email or password") ∨
  login db env b = (db, send 500 "Server error during login") ∨
  ∃ token id username email,
    login db env b =
      (db, {| status := 200;
              json := Session "Login successful" token id username email |}).
Proof.
  destruct (isEmail (toString (Body.email b))) eqn:Ee.
  - destruct (notEmpty (toString (Body.password b))) eqn:Ep.
    + apply notEmpty_true in Ep as Hp.
      assert (valid_login b) as Hv by done.
      destruct (login_valid_unfold db env b Hv) as (password & _ & ->).
      destruct (Mongoose.User_findOne_email _ _) as [[id user]|];
        [|by right; right; left].
      destruct (User.password user) as [hash|]; [|by right; right; right; left].
      destruct (bcrypt_compare password hash); simpl.
      * right. right. right. right. eauto.
      * by right; right; left.
    + right. left. split; [by apply notEmpty_false|].
      unfold login. rewrite login_validation_unfold. simpl. by rewrite Ee, Ep.
  - left. unfold login. rewrite login_validation_unfold. simpl. by rewrite Ee.
Qed.

End PageFacts.

Section PageProperties.
Context `{Validator, Bcrypt, Jsonwebtoken, Platform, JsonText}.
Import ExpressValidator.

Local Arguments JS.trim : simpl never.
Local Arguments RegExp.test : simpl never.

Lemma blank_false v : Register.blank v = false ↔ v ≠ "".
Proof.
  unfold Register.blank. simpl. rewrite negb_involutive.
  destruct (String.eqb_spec v ""); split; done.
Qed.

Lemma authContext_register_failed username email password st w db env s m :
  register db env (Body.mk (Some username) (Some email) (Some password)
                           None None None None) = (db, send s m) →
  (400 ≤ s)%nat → s ≠ 401%nat → m ≠ "" →
  AuthContext.register username email password st w db env =
    (db, w,
     {| AuthContext.user := AuthContext.user st; AuthContext.loading := false;
        AuthContext.error := Some m |},
     Rejected m).
Proof.
  intros Hr Hs Hs' Hm.
  unfold AuthContext.register, Api.register. rewrite call_unfold. simpl app.
  rewrite Hr. simpl.
  unfold Api.responseInterceptor, Api.validateStatus. simpl.
  assert ((s <? 300)%nat = false) as -> by (apply Nat.ltb_ge; lia).
  rewrite andb_false_r.
  assert ((s =? 401)%nat = false) as -> by by apply Nat.eqb_neq.
  unfold AuthContext.report_failure. simpl.
  by destruct (String.eqb_spec m "").
Qed.

(** X28. The registration page against the server. Whenever
    [handleSubmit] shows a local error, nothing was sent: database and
    browser are as before and the error of the provider is cleared.
    Otherwise the [length] of the username is at least 3, that of the
    password at least 6, the password is confirmed, the e-mail matches
    the pattern of the page, and the request is made. The checks of the
    page do not stand in for those of the server: the provider then
    shows the server's "Username must be at least 3 characters long"
    exactly when the validator of the route ([isLength], on the trimmed
    username) rejects the username, which the page, measuring the
    username as typed, lets through. *)
Theorem register_form_and_server st auth w db env :
  let f := Register.formData st in
  let r := Register.handleSubmit st auth w db env in
  (Register.localError r.1 ≠ "" → r.2 = (db, w, AuthContext.setError None auth)) ∧
  (Register.localError r.1 = "" →
   (3 ≤ String.length (Register.username f))%nat ∧
   (6 ≤ String.length (Register.password f))%nat ∧
   Register.confirmPassword f = Register.password f ∧
   RegExp.test emailRegex (Register.email f) = true ∧
   (AuthContext.error r.2.2 = Some "Username must be at least 3 characters long" ↔
    isLength 3 None (JS.trim (Register.username f)) = false)).
Proof.
  intros f r.
  assert (isLength 3 None (JS.trim (Register.username f)) = false ↔
          (String.length (JS.trim (Register.username f)) < 3)%nat) as ->.
  { rewrite <- not_true_iff_false, isLength_min_true. lia. }
  unfold r, Register.handleSubmit. simpl. fold f.
  destruct (Register.blank (Register.username f) || Register.blank (Register.email f)
            || Register.blank (Register.password f)
            || Register.blank (Register.confirmPassword f)) eqn:Eb; [by split|].
  destruct (String.length (Register.username f) <? 3)%nat eqn:Eu; [by split|].
  destruct (RegExp.test emailRegex (Register.email f)) eqn:Ee; [|by split].
  destruct (String.length (Register.password f) <? 6)%nat eqn:Ep; [by split|].
  destruct (String.eqb (Register.password f) (Register.confirmPassword f)) eqn:Ec;
    [|by split].
  simpl.
  apply Nat.ltb_ge in Eu, Ep. apply String.eqb_eq in Ec.
  pose (b := Body.mk (Some (Register.username f)) (Some (Register.email f))
                     (Some (Register.password f)) None None None None).
  set (auth0 := AuthContext.setError None auth).
  assert (∀ s m, register db env b = (db, send s m) → (400 ≤ s)%nat → s ≠ 401%nat →
                 m ≠ "" →
                 AuthContext.register (Register.username f) (Register.email f)
                                      (Register.password f) auth0 w db env =
                   (db, w,
                    {| AuthContext.user := AuthContext.user auth0;
                       AuthContext.loading := false; AuthContext.error := Some m |},
                    Rejected m)) as Hfail.
  { intros s m. apply authContext_register_failed. }
  split; [|intros _; split_and!; try done].
  - destruct (AuthContext.register _ _ _ _ _ _ _) as [[[db' w'] auth'] [?|?]]; done.
  - destruct (register_response_cases db env b)
      as [(Hu & Hr) | (Hu & [Hr | [(Hp & Hr) | [Hr | [Hr | [Hr | Hr]]]]])];
      simpl in Hu; try (rewrite (Hfail _ _ Hr) by (done || lia); simpl;
                        split; [done || (intros [=]) | done || (intros; exfalso; lia)]).
    + destruct Hr as (db' & token & id & username & email & Hr).
      unfold AuthContext.register, Api.register. rewrite call_unfold. simpl app.
      fold b. rewrite Hr. simpl. split; [done | intros; exfalso; lia].
Qed.

(** X29. The login page against the server. Whenever [handleSubmit]
    shows a local error, nothing was sent. Otherwise the password is not
    empty and the e-mail matches the pattern of the page; the database is
    not changed and the server never answers "Password is required". On a
    200 the browser is at "/dashboard", holds the token of the response,
    the provider holds its user and no error, and the page stays in its
    loading state. On any other status the provider shows the message of
    the response and keeps its user, the page stops loading; on a 401 the
    browser is at "/login" without a token, and otherwise it is as it
    was. *)
Theorem login_form_and_server st auth w db env :
  let f := Login.formData st in
  let r := Login.handleSubmit st auth w db env in
  let res := (login db env (Body.mk None (Some (Login.email f)) (Some (Login.password f))
                                    None None None None)).2 in
  (Login.localError r.1 ≠ "" → r.2 = (db, w, AuthContext.setError None auth)) ∧
  (Login.localError r.1 = "" →
   Login.password f ≠ "" ∧
   RegExp.test emailRegex (Login.email f) = true ∧
   r.2.1.1 = db ∧
   AuthContext.error r.2.2 ≠ Some "Password is required" ∧
   (status res = 200%nat →
    location r.2.1.2 = "/dashboard" ∧
    getItem "token" r.2.1.2 = data_token (json res) ∧
    AuthContext.user r.2.2 = data_user (json res) ∧
    AuthContext.error r.2.2 = None ∧ Login.loading r.1 = true) ∧
   (status res ≠ 200%nat →
    AuthContext.error r.2.2 = data_message (json res) ∧
    AuthContext.user r.2.2 = AuthContext.user auth ∧
    Login.loading r.1 = false ∧
    (status res = 401%nat →
     location r.2.1.2 = "/login" ∧ getItem "token" r.2.1.2 = None) ∧
    (status res ≠ 401%nat → r.2.1.2 = w))).
Proof.
  intros f r res. unfold r, Login.handleSubmit. simpl. fold f.
  destruct (Register.blank (Login.email f) || Register.blank (Login.password f)) eqn:Eb;
    [by split|].
  destruct (RegExp.test emailRegex (Login.email f)) eqn:Ee; [|by split].
  simpl.
  apply orb_false_iff in Eb as [_ Hp%blank_false].
  pose (b := Body.mk None (Some (Login.email f)) (Some (Login.password f))
                     None None None None).
  fold b in res.
  split.
  { destruct (AuthContext.login _ _ _ _ _ _) as [[[db' w'] auth'] [?|?]]; done. }
  intros _. split; [done|]. split; [done|].
  unfold AuthContext.login, Api.login. rewrite call_unfold. simpl app. fold b.
  destruct (login_response_cases db env b)
    as [Hr | [(Hempty & Hr) | [Hr | [Hr | (token & id & username & email & Hr)]]]];
    [| by simpl in Hempty | ..]; unfold res; rewrite Hr; simpl.
  - split_and!; done.
  - split_and!; try done. intros _. split_and!; try done.
    intros _. split; [done|]. unfold getItem. simpl.
    rewrite lookup_delete_ne by done. by rewrite lookup_delete_eq.
  - split_and!; done.
  - split_and!; try done. intros _. split_and!; try done.
    unfold getItem. simpl. rewrite lookup_insert_ne by done.
    by rewrite lookup_insert_eq.
Qed.

End PageProperties.

(** ** The forms on the sample server *)

Section FormRuns.

(** Ann ticks her task and, a day later, unticks it. *)
Lemma toggle_twice_restores_witness :
  (Dashboard.handleToggleComplete (1%positive, Sample.milk) Sample2.ann_page
     Sample2.ann_window Sample.db Sample.env).1.1
    = {| users := users Sample.db;
         tasks := <[1%positive := Sample2.milk_ticked]> (tasks Sample.db) |} ∧
  (Dashboard.handleToggleComplete (1%positive, Sample2.milk_ticked)
     (Dashboard.handleToggleComplete (1%positive, Sample.milk) Sample2.ann_page
        Sample2.ann_window Sample.db Sample.env).2
     (Dashboard.handleToggleComplete (1%positive, Sample.milk) Sample2.ann_page
        Sample2.ann_window Sample.db Sample.env).1.2
     (Dashboard.handleToggleComplete (1%positive, Sample.milk) Sample2.ann_page
        Sample2.ann_window Sample.db Sample.env).1.1
     Sample2.next_day).1.1
    = {| users := users Sample.db;
         tasks := <[1%positive := Mongoose.set_updatedAt 87400000 Sample.milk]>
                    (tasks Sample.db) |}.
Proof.
  destruct (toggle_twice_restores Sample.db Sample.env Sample2.next_day Sample2.ann_page
              Sample2.ann_window Sample.req_ann 1 Sample.milk) as (Honce & Htwice & _);
    [vm_compute; reflexivity | vm_compute; reflexivity | reflexivity | reflexivity
    | reflexivity |].
  split; [exact Honce | exact Htwice].
Defined.



(** Ann opens the editor of her task and saves at once. *)
Lemma save_unchanged_is_noop_witness :
  TaskItem.handleSave (1%positive, Sample.milk) Sample2.milk_opened Sample2.ann_page
                      Sample2.ann_window Sample.db Sample2.next_day =
    ({| TaskItem.isEditing := false;
        TaskItem.editForm := TaskItem.mkEditForm "Buy milk" "" |},
     (Sample.db, Sample2.ann_window, Sample2.ann_page)).
Proof.
  apply (save_unchanged_is_noop Sample.db Sample2.next_day (1%positive, Sample.milk)
           Sample2.milk_opened Sample2.ann_page Sample2.ann_window Sample.req_ann).
  - vm_compute. reflexivity.
  - reflexivity.
  - reflexivity.
  - split_and!; [split | split | reflexivity].
    + intros c [= <-]. reflexivity.
    + intros c [= <-]. reflexivity.
    + intros c [=].
    + intros c [=].
  - reflexivity.
  - intros d Hd _. apply list_elem_of_singleton in Hd. exact Hd.
Defined.

(** A username of two letters between spaces passes the page and not the
    server. *)
Lemma register_form_and_server_witness :
  AuthContext.error
    (Register.handleSubmit Sample2.padded_registration Sample2.signed_out
                           Sample2.fresh_window Sample.db Sample.env).2.2
    = Some "Username must be at least 3 characters long".
Proof.
  destruct (register_form_and_server Sample2.padded_registration Sample2.signed_out
              Sample2.fresh_window Sample.db Sample.env) as [_ Hsent].
  destruct Hsent as (_ & _ & _ & _ & Husername); [reflexivity|].
  apply Husername. reflexivity.
Defined.

(** Ann signs in through the page. *)
Lemma login_form_and_server_witness :
  location (Login.handleSubmit Sample2.ann_login Sample2.signed_out Sample2.fresh_window
              Sample.db Sample.env).2.1.2 = "/dashboard" ∧
  getItem "token" (Login.handleSubmit Sample2.ann_login Sample2.signed_out
                     Sample2.fresh_window Sample.db Sample.env).2.1.2
    = Some Sample2.ann_token.
Proof.
  destruct (login_form_and_server Sample2.ann_login Sample2.signed_out
              Sample2.fresh_window Sample.db Sample.env) as [_ Hsent].
  destruct Hsent as (_ & _ & _ & _ & Hok & _); [reflexivity|].
  destruct Hok as (Hloc & Htok & _); [reflexivity|].
  split; [exact Hloc|]. rewrite Htok. reflexivity.
Defined.

End FormRuns.
